(** * data-gen: the generation orchestrator (run.py), the augmentation
    pipeline (img_aug.py), the logger set-up (core/logger.py) and the font
    check of the diagnostics (core/diagnostics.py), embedded and verified.

    Conventions of the embedding.
    - A Python [str] used as an attribute name, an option value or a path is
      a [string] of ASCII characters; corpus text is a list of Unicode code
      points ([list N]), because [str.strip] removes non-ASCII blanks too.
    - A Python value held in the argument namespace or in the configuration
      is a [pyval]; a [SimpleNamespace] / [argparse.Namespace] is an ordered
      list of attributes.
    - A computation that may raise returns a [res]; [sys.exit] is the
      exception [SystemExit], as in Python.
    - The file system, the renderer, the text samplers, Pillow and NumPy are
      outside the repository: they are parameters of the functions that
      call them. *)

From Stdlib Require Import ZArith QArith Bool List String Ascii Lia Lqa.
From Stdlib Require Import DecimalString.
From stdpp Require Import base option list strings gmap.
Import ListNotations.

Local Open Scope string_scope.
Local Open Scope Z_scope.

(* ===================================================================== *)
(** ** Exceptions and results *)
(* ===================================================================== *)

(** What [sys.exit] was given: nothing or an integer status, or a message
    (printed to stderr, status 1). *)
Inductive exit_arg :=
  | ExitCode (code : Z)
  | ExitMsg (msg : string).

Inductive exn :=
  | AttributeError (name : string)
  | TypeError
  | ValueError
  | ZeroDivisionError
  | OSError
  | OtherException (msg : string)
  | KeyboardInterrupt
  | SystemExit (arg : exit_arg).

(** [isinstance(e, Exception)]: [KeyboardInterrupt] and [SystemExit] derive
    from [BaseException] only. *)
Definition is_Exception (e : exn) : bool :=
  match e with
  | KeyboardInterrupt | SystemExit _ => false
  | _ => true
  end.

Inductive res (A : Type) :=
  | Ok (a : A)
  | Raise (e : exn).
Arguments Ok {A} a.
Arguments Raise {A} e.

Definition rbind {A B} (r : res A) (k : A -> res B) : res B :=
  match r with
  | Ok a => k a
  | Raise e => Raise e
  end.

Notation "'let*' x ':=' r 'in' k" := (rbind r (fun x => k))
  (at level 10, x pattern, r at level 100, k at level 200).

Fixpoint rmap {A B} (f : A -> res B) (l : list A) : res (list B) :=
  match l with
  | [] => Ok []
  | x :: l' =>
      let* y := f x in
      let* ys := rmap f l' in
      Ok (y :: ys)
  end.

(* ===================================================================== *)
(** ** Strings *)
(* ===================================================================== *)

Module Str.

Definition code (a : ascii) : N := N_of_ascii a.

(** [Py_ISSPACE]: the blanks [int()] skips in an ASCII string. *)
Definition is_c_space (a : ascii) : bool :=
  ((9 <=? code a) && (code a <=? 13) || (code a =? 32))%N.

Definition is_digit (a : ascii) : bool :=
  ((48 <=? code a) && (code a <=? 57))%N.

Definition digit_val (a : ascii) : Z := Z.of_N (code a) - 48.

Definition lower_char (a : ascii) : ascii :=
  if ((65 <=? code a) && (code a <=? 90))%N
  then ascii_of_N (code a + 32) else a.

Definition upper_char (a : ascii) : ascii :=
  if ((97 <=? code a) && (code a <=? 122))%N
  then ascii_of_N (code a - 32) else a.

Fixpoint map_chars (f : ascii -> ascii) (s : string) : string :=
  match s with
  | EmptyString => EmptyString
  | String a s' => String (f a) (map_chars f s')
  end.

(** [s.lower()] and [s.upper()]. *)
Definition lower : string -> string := map_chars lower_char.
Definition upper : string -> string := map_chars upper_char.

Fixpoint rev_onto (s acc : string) : string :=
  match s with
  | EmptyString => acc
  | String a s' => rev_onto s' (String a acc)
  end.
Definition rev (s : string) : string := rev_onto s EmptyString.

Fixpoint lstrip_by (sp : ascii -> bool) (s : string) : string :=
  match s with
  | EmptyString => EmptyString
  | String a s' => if sp a then lstrip_by sp s' else s
  end.
Definition strip_by (sp : ascii -> bool) (s : string) : string :=
  rev (lstrip_by sp (rev (lstrip_by sp s))).

(** [s.strip(chars)] for a set of characters given as a string. *)
Fixpoint mem_char (a : ascii) (chars : string) : bool :=
  match chars with
  | EmptyString => false
  | String c chars' => Ascii.eqb a c || mem_char a chars'
  end.
Definition strip_chars (chars s : string) : string :=
  strip_by (fun a => mem_char a chars) s.

(** [s.split(sep)] for a one-character separator: never empty, one more
    piece than there are separators. *)
Fixpoint split (sep : ascii) (s : string) : list string :=
  match s with
  | EmptyString => [EmptyString]
  | String a s' =>
      if Ascii.eqb a sep then EmptyString :: split sep s'
      else match split sep s' with
           | h :: t => String a h :: t
           | [] => [String a EmptyString]
           end
  end.

Fixpoint count (c : ascii) (s : string) : nat :=
  match s with
  | EmptyString => O
  | String a s' => ((if Ascii.eqb a c then 1 else 0) + count c s')%nat
  end.

Definition startswith (pre s : string) : bool := String.prefix pre s.

(** The digits of [int(s)] in base 10: at least one digit, single
    underscores only between digits. *)
Fixpoint int_digits (acc : Z) (after_digit : bool) (s : string) : option Z :=
  match s with
  | EmptyString => if after_digit then Some acc else None
  | String a s' =>
      if is_digit a then int_digits (10 * acc + digit_val a) true s'
      else if Ascii.eqb a "_"
           then (if after_digit then int_digits acc false s' else None)
           else None
  end.

(** [int(s)] for a string: blanks around, an optional sign, the digits.
    [ValueError] otherwise.  (CPython's limit on the number of digits is
    not modelled.) *)
Definition int (s : string) : res Z :=
  let body := strip_by is_c_space s in
  let parsed :=
    match body with
    | String "-" d => option_map Z.opp (int_digits 0 false d)
    | String "+" d => int_digits 0 false d
    | _ => int_digits 0 false body
    end in
  match parsed with
  | Some z => Ok z
  | None => Raise ValueError
  end.

End Str.

(* ===================================================================== *)
(** ** run.py: parse_margins *)
(* ===================================================================== *)

(** [[x] * 4] *)
Definition repeat4 {A} (x : A) : list A := [x; x; x; x].

Definition parse_margins (margin_str : string) : res (list Z) :=
  let margins := Str.split "," margin_str in
  match margins with
  | [m0] => let* v := Str.int m0 in Ok (repeat4 v)
  | _ => rmap Str.int margins
  end.

(* ===================================================================== *)
(** ** Python values and namespaces *)
(* ===================================================================== *)

(** The values a YAML document or the command line can put in the
    configuration; [PyNs] is a [SimpleNamespace] with its attributes in
    insertion order. *)
#[warnings="-register-all"] Inductive pyval :=
  | PyNone
  | PyBool (b : bool)
  | PyInt (z : Z)
  | PyFloat (q : Q)
  | PyStr (s : string)
  | PyNs (attrs : list (string * pyval)).

(** [bool(v)] *)
Definition truthy (v : pyval) : bool :=
  match v with
  | PyNone => false
  | PyBool b => b
  | PyInt z => negb (z =? 0)
  | PyFloat q => negb (Qeq_bool q 0)
  | PyStr s => negb (String.eqb s "")
  | PyNs _ => true
  end.

Definition is_None (v : pyval) : bool :=
  match v with PyNone => true | _ => false end.

Module Ns.

(** The [__dict__] of a namespace: attribute names are unique, in
    insertion order. *)
Definition t := list (string * pyval).

Fixpoint get (k : string) (ns : t) : option pyval :=
  match ns with
  | [] => None
  | (k', v) :: ns' => if String.eqb k k' then Some v else get k ns'
  end.

(** [setattr]: an existing attribute keeps its place, a new one goes
    last. *)
Fixpoint set (k : string) (v : pyval) (ns : t) : t :=
  match ns with
  | [] => [(k, v)]
  | (k', v') :: ns' =>
      if String.eqb k k' then (k', v) :: ns' else (k', v') :: set k v ns'
  end.

End Ns.

(** [vars(o)] / [o.__dict__]: only namespaces have one here. *)
Definition py_dict (o : pyval) : res Ns.t :=
  match o with
  | PyNs attrs => Ok attrs
  | _ => Raise (AttributeError "__dict__")
  end.

(** [getattr(o, k)] and [setattr(o, k, v)] on a configuration object. *)
Definition py_getattr (o : pyval) (k : string) : res pyval :=
  match o with
  | PyNs attrs =>
      match Ns.get k attrs with
      | Some v => Ok v
      | None => Raise (AttributeError k)
      end
  | _ => Raise (AttributeError k)
  end.

Definition py_setattr (o : pyval) (k : string) (v : pyval) : res pyval :=
  match o with
  | PyNs attrs => Ok (PyNs (Ns.set k v attrs))
  | _ => Raise (AttributeError k)
  end.

(** The argument namespace [args]: attribute name to value. *)
Abbreviation args_t := (gmap string pyval).

Definition arg (args : args_t) (k : string) : res pyval :=
  match args !! k with
  | Some v => Ok v
  | None => Raise (AttributeError k)
  end.

(** A value used where the code needs a [str] (a method of [str] is
    called on it, or it is concatenated to a [str]). *)
Definition as_str (e : exn) (v : pyval) : res string :=
  match v with
  | PyStr s => Ok s
  | _ => Raise e
  end.

(* ===================================================================== *)
(** ** Text: lines of a file opened in text mode *)
(* ===================================================================== *)

Module Text.

(** A decoded text: Unicode code points. *)
Definition t := list N.

(** [str.isspace] of one code point. *)
Definition is_space (c : N) : bool :=
  ((9 <=? c) && (c <=? 13) || (28 <=? c) && (c <=? 32)
   || (c =? 133) || (c =? 160) || (c =? 5760)
   || (8192 <=? c) && (c <=? 8202)
   || (c =? 8232) || (c =? 8233) || (c =? 8239) || (c =? 8287)
   || (c =? 12288))%N.

Fixpoint lstrip (s : t) : t :=
  match s with
  | [] => []
  | c :: s' => if is_space c then lstrip s' else s
  end.

(** [s.strip()] *)
Definition strip (s : t) : t := rev (lstrip (rev (lstrip s))).

(** Universal newlines ([newline=None]): CR LF and CR become LF. *)
Fixpoint translate_newlines (s : t) : t :=
  match s with
  | [] => []
  | 13%N :: s' =>
      match s' with
      | 10%N :: s'' => 10%N :: translate_newlines s''
      | _ => 10%N :: translate_newlines s'
      end
  | c :: s' => c :: translate_newlines s'
  end.

(** Iterating over the file: each line with its LF; a last line without
    one when the text does not end in LF. *)
Fixpoint lines_from (cur_rev : t) (s : t) : list t :=
  match s with
  | [] => match cur_rev with [] => [] | _ => [rev cur_rev] end
  | c :: s' =>
      if (c =? 10)%N then rev (c :: cur_rev) :: lines_from [] s'
      else lines_from (c :: cur_rev) s'
  end.

Definition lines (s : t) : list t := lines_from [] (translate_newlines s).

Definition of_string (s : string) : t :=
  map N_of_ascii (list_ascii_of_string s).

End Text.

(* ===================================================================== *)
(** ** The file system, as pathlib sees it *)
(* ===================================================================== *)

(** A path names a regular file (with the text its bytes decode to under
    the codec the reader asks for), a directory (with its entries in the
    order the operating system lists them), or nothing.  Symbolic links are
    followed. *)
Inductive node :=
  | File (text : Text.t)
  | Dir (entries : list string).

Definition filesystem := string -> option node.

Module Path.

Fixpoint join (parts : list string) : string :=
  match parts with
  | [] => ""
  | [p] => p
  | p :: rest => p ++ "/" ++ join rest
  end.

Definition keep_part (p : string) : bool :=
  negb (String.eqb p "") && negb (String.eqb p ".").

Definition root (s : string) : string :=
  if Str.startswith "///" s then "/"
  else if Str.startswith "//" s then "//"
  else if Str.startswith "/" s then "/"
  else "".

(** [str(Path(s))] on POSIX: empty and [.] components dropped. *)
Definition norm (s : string) : string :=
  let parts := filter (fun p => Is_true (keep_part p)) (Str.split "/" s) in
  match root s, parts with
  | EmptyString, [] => "."
  | r, _ => r ++ join parts
  end.

(** [str(p / name)] for a directory entry [name]. *)
Definition child (p name : string) : string :=
  if String.eqb p "." then name
  else if String.eqb p (root p) then p ++ name
  else p ++ "/" ++ name.

Definition exists_ (fs : filesystem) (p : string) : bool :=
  match fs p with Some _ => true | None => false end.

Definition is_file (fs : filesystem) (p : string) : bool :=
  match fs p with Some (File _) => true | _ => false end.

(** [p.glob('*')]: every entry of a directory, none for anything else. *)
Definition glob_star (fs : filesystem) (p : string) : list string :=
  match fs p with
  | Some (Dir entries) => map (child p) entries
  | _ => []
  end.

End Path.

(* ===================================================================== *)
(** ** run.py: load_fonts and load_corpus *)
(* ===================================================================== *)

Definition sys_exit {A} (msg : string) : res A := Raise (SystemExit (ExitMsg msg)).

Definition load_fonts (fs : filesystem) (font_or_dir : string) : res (list string) :=
  let p := Path.norm ("fonts/" ++ font_or_dir) in
  if negb (Path.exists_ fs p) then
    sys_exit ("[Error] Font path does not exist: " ++ font_or_dir)
  else if Path.is_file fs p then Ok [p]
  else
    let font_paths :=
      filter (fun font => Is_true (Path.is_file fs font)) (Path.glob_star fs p) in
    match font_paths with
    | [] => sys_exit ("[Error] No font files found in directory: " ++ font_or_dir)
    | _ => Ok font_paths
    end.

Definition load_corpus (fs : filesystem) (corpus_file_path : string) : res (list Text.t) :=
  let p := Path.norm corpus_file_path in
  match fs p with
  | None => sys_exit ("[Error] Corpus file not found: " ++ corpus_file_path)
  | Some (Dir _) => Raise OSError
  | Some (File text) =>
      let words_list :=
        map Text.strip
          (filter (fun line => Is_true (negb (Nat.eqb (length (Text.strip line)) 0)))
             (Text.lines text)) in
      Ok words_list
  end.

(* ===================================================================== *)
(** ** run.py: the command line *)
(* ===================================================================== *)

(** What the user typed: an option that was not given is [None], a
    [store_true] flag is a boolean. *)
Record cli := {
  cli_cfg : option string;
  cli_quick_start : bool;
  cli_output_dir : option string;
  cli_language : option string;
  cli_corpus : option string;
  cli_count : option Z;
  cli_fonts : option string;
  cli_size : option Z;
  cli_color : option string;
  cli_width : option Z;
  cli_height : option Z;
  cli_extension : option string;
  cli_margins : option string;
  cli_skew_angle : option Z;
  cli_no_skew : bool;
  cli_num_workers : option Z;
  cli_verbose : bool;
  cli_dry_run : bool;
  cli_diagnose : bool
}.

Definition opt_str (o : option string) : pyval :=
  match o with Some s => PyStr s | None => PyNone end.
Definition opt_int (o : option Z) : pyval :=
  match o with Some z => PyInt z | None => PyNone end.

(** The namespace [parser.parse_args()] returns: one attribute per declared
    option, [None] for an option that was not given. *)
Definition parse_args (c : cli) : args_t :=
  list_to_map [
    ("cfg", PyStr (default "configs/config.yaml" (cli_cfg c)));
    ("quick_start", PyBool (cli_quick_start c));
    ("output_dir", opt_str (cli_output_dir c));
    ("language", opt_str (cli_language c));
    ("corpus", opt_str (cli_corpus c));
    ("count", opt_int (cli_count c));
    ("fonts", opt_str (cli_fonts c));
    ("size", opt_int (cli_size c));
    ("color", opt_str (cli_color c));
    ("width", opt_int (cli_width c));
    ("height", opt_int (cli_height c));
    ("extension", opt_str (cli_extension c));
    ("margins", opt_str (cli_margins c));
    ("skew_angle", opt_int (cli_skew_angle c));
    ("no_skew", PyBool (cli_no_skew c));
    ("num_workers", opt_int (cli_num_workers c));
    ("verbose", PyBool (cli_verbose c));
    ("dry_run", PyBool (cli_dry_run c));
    ("diagnose", PyBool (cli_diagnose c))
  ].

(* ===================================================================== *)
(** ** run.py: configuration resolution *)
(* ===================================================================== *)

(** [min(4, v)]: [v] when [v < 4], else [4]. *)
Definition min_4 (v : pyval) : res pyval :=
  match v with
  | PyInt n => Ok (if n <? 4 then PyInt n else PyInt 4)
  | PyBool b => Ok (PyBool b)
  | PyFloat q => Ok (if Qle_bool 4 q then PyInt 4 else PyFloat q)
  | PyNone | PyStr _ | PyNs _ => Raise TypeError
  end.

Definition apply_quick_start_settings (fs : filesystem) (args : args_t) : res args_t :=
  let args := <["count" := PyInt 100]> args in
  let* nw :=
    match args !! "num_workers" with
    | Some v => min_4 v
    | None => Ok (PyInt 4)
    end in
  let args := <["num_workers" := nw]> args in
  if Path.exists_ fs (Path.norm "texts/sample_chinese.txt") then
    Ok (<["corpus" := PyStr "texts/sample_chinese.txt"]> args)
  else if Path.exists_ fs (Path.norm "texts/sample_english.txt") then
    Ok (<["fonts" := PyStr "en"]>
          (<["language" := PyStr "en"]>
             (<["corpus" := PyStr "texts/sample_english.txt"]> args)))
  else Ok args.

Definition override_mapping : list (string * (string * string)) := [
  ("output_dir", ("FILE_SETTINGS", "OUTPUT_DIR"));
  ("language", ("TEXT_SETTINGS", "LANGUAGE"));
  ("corpus", ("TEXT_SETTINGS", "CORPUS"));
  ("count", ("OTHER_SETTINGS", "COUNT"));
  ("fonts", ("FILE_SETTINGS", "FONTS"));
  ("size", ("TEXT_SETTINGS", "SIZE"));
  ("color", ("TEXT_SETTINGS", "COLOR"));
  ("width", ("IMAGE_FORMAT_SETTINGS", "WIDTH"));
  ("height", ("TEXT_SETTINGS", "HEIGHT"));
  ("extension", ("FILE_SETTINGS", "EXTENSION"));
  ("margins", ("IMAGE_FORMAT_SETTINGS", "MARGINS"));
  ("skew_angle", ("DISTORTION_SETTINGS", "SKEW_ANGLE"));
  ("num_workers", ("OTHER_SETTINGS", "NUM_WORKERS"))
].

(** [cfg.<section_name>.<config_key> = v]: the section object is updated
    in place, so [cfg] sees the new value. *)
Definition set_option (cfg : pyval) (section_name config_key : string) (v : pyval)
  : res pyval :=
  let* section := py_getattr cfg section_name in
  let* section' := py_setattr section config_key v in
  py_setattr cfg section_name section'.

(** One turn of the loop over [override_mapping]. *)
Definition override_step (args : args_t) (cfg : pyval)
    (entry : string * (string * string)) : res pyval :=
  let '(arg_name, (section_name, config_key)) := entry in
  match args !! arg_name with
  | Some v =>
      if is_None v then Ok cfg
      else
        let* cfg' := set_option cfg section_name config_key v in
        let* _ := arg args "verbose" in
        Ok cfg'
  | None => Ok cfg
  end.

Fixpoint override_loop (args : args_t) (cfg : pyval)
    (mapping : list (string * (string * string))) : res pyval :=
  match mapping with
  | [] => Ok cfg
  | entry :: rest =>
      let* cfg' := override_step args cfg entry in
      override_loop args cfg' rest
  end.

Definition apply_command_line_overrides (args : args_t) (cfg : pyval) : res pyval :=
  let* cfg := override_loop args cfg override_mapping in
  let* no_skew := arg args "no_skew" in
  let* cfg :=
    if truthy no_skew then
      let* cfg := set_option cfg "DISTORTION_SETTINGS" "SKEW_ANGLE" (PyInt 0) in
      let* cfg := set_option cfg "DISTORTION_SETTINGS" "RANDOM_SKEW" (PyBool false) in
      let* _ := arg args "verbose" in
      Ok cfg
    else Ok cfg in
  let* color := arg args "color" in
  if truthy color then
    let* c := as_str (AttributeError "startswith") color in
    if negb (Str.startswith "(" c) then
      set_option cfg "TEXT_SETTINGS" "COLOR" (PyStr ("(" ++ c ++ ")"))
    else Ok cfg
  else Ok cfg.

(** Step 5 of [main]: every option of every section is copied into [args]
    under its lower-case name, unless [args] already holds a value other
    than [None] there. *)
Definition flatten_option (args : args_t) (kv : string * pyval) : args_t :=
  let '(key, value) := kv in
  match args !! Str.lower key with
  | Some v => if is_None v then <[Str.lower key := value]> args else args
  | None => <[Str.lower key := value]> args
  end.

Definition flatten_section (args : args_t) (section : pyval) : res args_t :=
  let* items := py_dict section in
  Ok (fold_left flatten_option items args).

Fixpoint flatten_sections (args : args_t) (sections : list pyval) : res args_t :=
  match sections with
  | [] => Ok args
  | section :: rest =>
      let* args' := flatten_section args section in
      flatten_sections args' rest
  end.

Definition flatten_config (cfg : pyval) (args : args_t) : res args_t :=
  let* d := py_dict cfg in
  flatten_sections args (map snd d).

(** Steps 3 to 5 of [main]: the arguments and the configuration once the
    preset, the overrides and the flattening have run. *)
Definition resolve (fs : filesystem) (args : args_t) (cfg : pyval)
  : res (args_t * pyval) :=
  let* quick_start := arg args "quick_start" in
  let* args :=
    if truthy quick_start then apply_quick_start_settings fs args else Ok args in
  let* cfg := apply_command_line_overrides args cfg in
  let* args := flatten_config cfg args in
  Ok (args, cfg).

(** The [try: ... except Exception as e: ...; sys.exit(1)] around the asset
    and colour steps of [main].  The handler prints [args.<shown>] before
    it exits, so it raises [AttributeError] itself when that attribute is
    missing; [SystemExit] and [KeyboardInterrupt] pass the handler. *)
Definition except_exit_1 {A} (args : args_t) (shown : string) (r : res A) : res A :=
  match r with
  | Ok a => Ok a
  | Raise e =>
      if is_Exception e
      then let* _ := arg args shown in Raise (SystemExit (ExitCode 1))
      else Raise e
  end.

(** [print_settings_summary]: the attributes the summary reads. *)
Definition print_settings_summary (args : args_t) : res unit :=
  let* _ := arg args "language" in
  let* _ := arg args "corpus" in
  let* _ := arg args "fonts" in
  let* _ := arg args "output_dir" in
  let* _ := arg args "size" in
  let* _ := arg args "num_workers" in
  let* _ := arg args "extension" in
  Ok tt.

(* ===================================================================== *)
(** ** run.py: job descriptors *)
(* ===================================================================== *)

(** The 17-tuple handed to [FakeTextDataGenerator.generate]. *)
Record JobDescriptor := {
  jd_index : nat;
  jd_text : Text.t;
  jd_font_paths : list string;
  jd_output_dir : string;
  jd_cursive : Z;
  jd_size : pyval;
  jd_extension : pyval;
  jd_skew_angle : pyval;
  jd_width : pyval;
  jd_color : list Z;
  jd_orientation : pyval;
  jd_space_width : pyval;
  jd_margins : pyval;
  jd_fit : pyval;
  jd_stroke_width : pyval;
  jd_stroke_fill : pyval;
  jd_height : pyval
}.

(** Step 11: [tuple(map(int, args.color.strip("()").split(",")))], a
    palette of that one colour; [args.verbose] is read inside the [try]. *)
Definition parse_font_colors (args : args_t) : res (list (list Z)) :=
  except_exit_1 args "color" (
    let* color := arg args "color" in
    let* c := as_str (AttributeError "strip") color in
    let* font_color := rmap Str.int (Str.split "," (Str.strip_chars "()" c)) in
    let font_colors := [font_color] in
    let* _ := arg args "verbose" in
    Ok font_colors).

(** One turn of the loop of step 13, for index [i] and string [text]. *)
Definition build_param_tuple (args : args_t) (font_paths : list string)
    (output_dir : string) (font_colors : list (list Z)) (margins_str : pyval)
    (i : nat) (text : Text.t) : res JobDescriptor :=
  let num_colors := length font_colors in
  let* color_idx :=
    match num_colors with
    | O => Raise ZeroDivisionError
    | _ => Ok (i mod num_colors)%nat
    end in
  let* size := arg args "size" in
  let* extension := arg args "extension" in
  let* skew_angle := arg args "skew_angle" in
  let* width := arg args "width" in
  let* color :=
    match nth_error font_colors color_idx with
    | Some c => Ok c
    | None => Raise (OtherException "IndexError")
    end in
  let* orientation := arg args "orientation" in
  let* space_width := arg args "space_width" in
  let* fit := arg args "fit" in
  let* stroke_width := arg args "stroke_width" in
  let* stroke_fill := arg args "stroke_fill" in
  let* height := arg args "height" in
  Ok {| jd_index := i; jd_text := text; jd_font_paths := font_paths;
        jd_output_dir := output_dir; jd_cursive := 0;
        jd_size := size; jd_extension := extension;
        jd_skew_angle := skew_angle; jd_width := width; jd_color := color;
        jd_orientation := orientation; jd_space_width := space_width;
        jd_margins := margins_str; jd_fit := fit;
        jd_stroke_width := stroke_width; jd_stroke_fill := stroke_fill;
        jd_height := height |}.

Fixpoint build_loop (args : args_t) (font_paths : list string)
    (output_dir : string) (font_colors : list (list Z)) (margins_str : pyval)
    (i : nat) (strings : list Text.t) : res (list JobDescriptor) :=
  match strings with
  | [] => Ok []
  | text :: rest =>
      let* job := build_param_tuple args font_paths output_dir font_colors
                    margins_str i text in
      let* jobs := build_loop args font_paths output_dir font_colors
                     margins_str (S i) rest in
      Ok (job :: jobs)
  end.

(** Step 13: [image_params]. *)
Definition build_image_params (args : args_t) (strings : list Text.t)
    (font_paths : list string) (output_dir : string)
    (font_colors : list (list Z)) : res (list JobDescriptor) :=
  let* margins_str := arg args "margins" in
  build_loop args font_paths output_dir font_colors margins_str 0 strings.

(* ===================================================================== *)
(** ** run.py: main *)
(* ===================================================================== *)

Section Orchestrator.

(** The collaborators of [main] that live outside run.py. *)
Variable World : Type.
Variable fs : filesystem.
Variable load_config : string -> res pyval.
Variable create_strings_from_corpus_file : pyval -> res (list Text.t).
Variable create_strings_randomly_from_chars :
  pyval -> pyval -> pyval -> pyval -> pyval -> pyval -> pyval -> res (list Text.t).
Variable create_strings_from_dict :
  pyval -> pyval -> pyval -> list Text.t -> res (list Text.t).
Variable mkdir : string -> res unit.
(** [FakeTextDataGenerator.generate] on one job: the world after the call,
    and the exception it raised, if any. *)
Variable generate : JobDescriptor -> World -> World * option exn.
(** The pool of [num_workers] processes over the jobs: the world after,
    the jobs it ran and the exception that came out of it, if any. *)
Variable run_pool :
  pyval -> list JobDescriptor -> World -> World * list JobDescriptor * option exn.

(** Step 10: the strings to render and, for the random strategy, the
    forced file-naming scheme. *)
Definition make_strings (args : args_t) (corpus_list : list Text.t)
  : res (args_t * list Text.t) :=
  let* corpus_type := arg args "corpus_type" in
  let* ct := as_str (AttributeError "upper") corpus_type in
  if String.eqb (Str.upper ct) "CORPUS" then
    let* corpus := arg args "corpus" in
    let* _ := as_str TypeError corpus in
    let* strings := create_strings_from_corpus_file corpus in
    Ok (args, strings)
  else if String.eqb (Str.upper ct) "RANDOM" then
    let* length := arg args "length" in
    let* random := arg args "random" in
    let* count := arg args "count" in
    let* include_letters := arg args "include_letters" in
    let* include_numbers := arg args "include_numbers" in
    let* include_symbols := arg args "include_symbols" in
    let* language := arg args "language" in
    let* strings :=
      create_strings_randomly_from_chars length random count
        include_letters include_numbers include_symbols language in
    if truthy include_symbols
       || negb (existsb truthy [include_letters; include_numbers; include_symbols])
    then Ok (<["name_format" := PyInt 2]> args, strings)
    else Ok (args, strings)
  else
    let* length := arg args "length" in
    let* random := arg args "random" in
    let* count := arg args "count" in
    let* strings := create_strings_from_dict length random count corpus_list in
    Ok (args, strings).

(** Steps 8 and 9; [args.verbose] is read inside the [try] of step 9, once
    the fonts are loaded. *)
Definition load_assets (args : args_t) : res (list Text.t * list string) :=
  let* corpus_list :=
    except_exit_1 args "corpus" (
      let* corpus := arg args "corpus" in
      let* path := as_str TypeError corpus in
      load_corpus fs path) in
  let* font_paths :=
    except_exit_1 args "fonts" (
      let* fonts := arg args "fonts" in
      let* font_paths :=
        if truthy fonts then
          let* f := as_str TypeError fonts in
          load_fonts fs f
        else load_fonts fs "ch" in
      let* _ := arg args "verbose" in
      Ok font_paths) in
  Ok (corpus_list, font_paths).

(** Steps 8 to 13: from the resolved arguments to the job list. *)
Definition prepare_jobs (args : args_t) : res (args_t * list JobDescriptor) :=
  let* (corpus_list, font_paths) := load_assets args in
  let* (args, strings) := make_strings args corpus_list in
  let* font_colors := parse_font_colors args in
  let* out := arg args "output_dir" in
  let* output_dir := as_str TypeError out in
  let output_dir := Path.norm output_dir in
  let* _ := mkdir output_dir in
  let* image_params :=
    build_image_params args strings font_paths output_dir font_colors in
  Ok (args, image_params).

(** The [for] loop of the single-process branch: the jobs on which
    [generate] was called, in order, and the exception that ended the
    loop, if any. *)
Fixpoint run_sequential (jobs : list JobDescriptor) (w : World)
  : World * list JobDescriptor * option exn :=
  match jobs with
  | [] => (w, [], None)
  | params :: rest =>
      match generate params w with
      | (w', Some e) => (w', [params], Some e)
      | (w', None) =>
          let '(w'', ran, r) := run_sequential rest w' in
          (w'', params :: ran, r)
      end
  end.

(** [args.num_workers <= 1] *)
Definition le_1 (v : pyval) : res bool :=
  match v with
  | PyInt n => Ok (n <=? 1)
  | PyBool _ => Ok true
  | PyFloat q => Ok (Qle_bool q 1)
  | PyNone | PyStr _ | PyNs _ => Raise TypeError
  end.

(** The handlers of step 14. *)
Definition on_generation_error (e : exn) : res unit :=
  match e with
  | KeyboardInterrupt => Raise (SystemExit (ExitCode 0))
  | _ => if is_Exception e then Raise (SystemExit (ExitCode 1)) else Raise e
  end.

(** Step 14. *)
Definition execute (args : args_t) (image_params : list JobDescriptor) (w : World)
  : World * list JobDescriptor * res unit :=
  match (let* nw := arg args "num_workers" in
         let* single := le_1 nw in Ok (nw, single)) with
  | Raise e => (w, [], on_generation_error e)
  | Ok (nw, true) =>
      let '(w', ran, r) := run_sequential image_params w in
      (w', ran, match r with None => Ok tt | Some e => on_generation_error e end)
  | Ok (nw, false) =>
      let '(w', ran, r) := run_pool nw image_params w in
      (w', ran, match r with None => Ok tt | Some e => on_generation_error e end)
  end.

(** Steps 1 to 13 of [main]; [None] when [main] returns early (diagnose
    or dry run). *)
Definition main_prepare (c : cli) : res (option (args_t * list JobDescriptor)) :=
  let args := parse_args c in
  let* diagnose := arg args "diagnose" in
  if truthy diagnose then Ok None
  else
    let* _ := arg args "verbose" in
    let* cfg_path := arg args "cfg" in
    let* cfg_path := as_str TypeError cfg_path in
    let* cfg := load_config cfg_path in
    let* (args, _) := resolve fs args cfg in
    let* verbose := arg args "verbose" in
    let* _ := if truthy verbose then print_settings_summary args else Ok tt in
    let* dry_run := arg args "dry_run" in
    if truthy dry_run then
      let* _ := print_settings_summary args in
      let* _ := arg args "count" in
      Ok None
    else
      let* (args, image_params) := prepare_jobs args in
      let* _ := arg args "num_workers" in
      let* extension := arg args "extension" in
      let* _ := as_str (AttributeError "upper") extension in
      Ok (Some (args, image_params)).

Definition main (c : cli) (w : World) : World * list JobDescriptor * res unit :=
  match main_prepare c with
  | Raise e => (w, [], Raise e)
  | Ok None => (w, [], Ok tt)
  | Ok (Some (args, image_params)) => execute args image_params w
  end.

(** The [if __name__ == '__main__'] block: the exit status of the
    process. *)
Definition script (c : cli) (w : World) : World * list JobDescriptor * exit_arg :=
  let '(w', ran, r) := main c w in
  (w', ran,
   match r with
   | Ok _ => ExitCode 0
   | Raise KeyboardInterrupt => ExitCode 0
   | Raise (SystemExit a) => a
   | Raise _ => ExitCode 1
   end).

End Orchestrator.

(* ===================================================================== *)
(** ** img_aug.py *)
(* ===================================================================== *)

(** An image with 8-bit channels: its mode, its size and its channel
    values in array order, as [np.asarray] lays them out. *)
Record Image := {
  im_mode : string;
  im_size : nat * nat;
  im_data : list Z
}.

(** Floating-point numbers are the rationals they denote; rounding to the
    nearest double or single is a parameter. *)
Definition Qltb (x y : Q) : bool := negb (Qle_bool y x).

(** The literals of img_aug.py, as the doubles Python reads them. *)
Definition f_0_25 : Q := 1 # 4.
Definition f_0_3 : Q := 5404319552844595 # 18014398509481984.
Definition f_1_5 : Q := 3 # 2.
Definition f_0_7 : Q := 3152519739159347 # 4503599627370496.
Definition f_1_3 : Q := 5854679515581645 # 4503599627370496.
Definition f_8_0 : Q := 8.

(** [np.clip(x, lo, hi)] on one element. *)
Definition clip (lo hi x : Q) : Q :=
  if Qltb x lo then lo else if Qltb hi x then hi else x.

(** [astype(np.uint8)] on one element within range: the fraction is
    dropped. *)
Definition astype_uint8 (x : Q) : Z := Z.quot (Qnum x) (Z.pos (Qden x)).

Section Augmentation.

(** The state of Python's [random] module and of [np.random]. *)
Variable PyRng NpRng : Type.
(** [random.random()] *)
Variable random_random : PyRng -> Q * PyRng.
(** One standard normal deviate of [np.random]. *)
Variable standard_normal : NpRng -> Q * NpRng.
Variable round64 round32 : Q -> Q.
(** Pillow: [img.filter(ImageFilter.GaussianBlur(radius))],
    [ImageEnhance.Brightness(img).enhance(factor)],
    [ImageEnhance.Contrast(img).enhance(factor)]. *)
Variable GaussianBlur : Q -> Image -> Image.
Variable Brightness_enhance : Q -> Image -> Image.
Variable Contrast_enhance : Q -> Image -> Image.

Record rng := { py_rng : PyRng; np_rng : NpRng }.

(** A stage takes the image and the generators, and returns the image and
    the generators, or raises. *)
Definition Stage := Image -> rng -> res (Image * rng).

Definition _rand_bool (p : Q) (s : rng) : bool * rng :=
  let '(u, py') := random_random (py_rng s) in
  (Qltb u p, {| py_rng := py'; np_rng := np_rng s |}).

(** [random.uniform(a, b)]: [a + (b - a) * random()]. *)
Definition uniform (a b : Q) (s : rng) : Q * rng :=
  let '(u, py') := random_random (py_rng s) in
  (round64 (a + round64 (round64 (b - a) * u)),
   {| py_rng := py'; np_rng := np_rng s |}).

(** The array [np.random.normal] fills: [loc + scale * z] for [n]
    successive standard normal deviates [z]. *)
Fixpoint normal_fill (loc scale : Q) (n : nat) (g : NpRng) : list Q * NpRng :=
  match n with
  | O => ([], g)
  | S n' =>
      let '(z, g') := standard_normal g in
      let '(rest, g'') := normal_fill loc scale n' g' in
      (round64 (loc + round64 (scale * z)) :: rest, g'')
  end.

(** [np.random.normal(loc, scale, n)]: [ValueError] for a negative
    [scale], checked before anything is drawn. *)
Definition normal (loc scale : Q) (n : nat) (g : NpRng) : res (list Q * NpRng) :=
  if Qltb scale 0 then Raise ValueError else Ok (normal_fill loc scale n g).

(** The part of each stage that runs when its coin says so. *)
Definition blur_effect (img : Image) (s : rng) : Image * rng :=
  let '(radius, s') := uniform f_0_3 f_1_5 s in
  (GaussianBlur radius img, s').

Definition brightness_effect (img : Image) (s : rng) : Image * rng :=
  let '(factor, s') := uniform f_0_7 f_1_3 s in
  (Brightness_enhance factor img, s').

Definition contrast_effect (img : Image) (s : rng) : Image * rng :=
  let '(factor, s') := uniform f_0_7 f_1_3 s in
  (Contrast_enhance factor img, s').

Definition noise_effect (var : Q) (img : Image) (s : rng) : res (Image * rng) :=
  let arr := map inject_Z (im_data img) in
  let* (noise64, np') := normal 0 var (length arr) (np_rng s) in
  let noise := map round32 noise64 in
  let arr := map (fun an => round32 (fst an + snd an)) (combine arr noise) in
  let arr := map (fun x => astype_uint8 (clip 0 255 x)) arr in
  Ok ({| im_mode := im_mode img; im_size := im_size img; im_data := arr |},
      {| py_rng := py_rng s; np_rng := np' |}).

Definition gaussian_blur (img : Image) (p : Q) : rng -> Image * rng := fun s =>
  let '(fire, s') := _rand_bool p s in
  if negb fire then (img, s') else blur_effect img s'.

Definition brightness (img : Image) (p : Q) : rng -> Image * rng := fun s =>
  let '(fire, s') := _rand_bool p s in
  if negb fire then (img, s') else brightness_effect img s'.

Definition contrast (img : Image) (p : Q) : rng -> Image * rng := fun s =>
  let '(fire, s') := _rand_bool p s in
  if negb fire then (img, s') else contrast_effect img s'.

Definition add_gaussian_noise (img : Image) (p var : Q) : rng -> res (Image * rng) :=
  fun s =>
  let '(fire, s') := _rand_bool p s in
  if negb fire then Ok (img, s') else noise_effect var img s'.

(** The four stages in the order of [_AUGS], each with its probability
    given. *)
Definition augs_with (p_blur p_brightness p_contrast p_noise var : Q) : list Stage := [
  fun img s => Ok (gaussian_blur img p_blur s);
  fun img s => Ok (brightness img p_brightness s);
  fun img s => Ok (contrast img p_contrast s);
  fun img => add_gaussian_noise img p_noise var
].

(** [_AUGS]: the stages with the default value of each [p] (and [var]). *)
Definition _AUGS : list Stage := [
  fun img s => Ok (gaussian_blur img f_0_25 s);
  fun img s => Ok (brightness img f_0_3 s);
  fun img s => Ok (contrast img f_0_3 s);
  fun img => add_gaussian_noise img f_0_25 f_8_0
].

(** [for fn in augs: img = fn(img)] *)
Fixpoint apply_stages (augs : list Stage) (img : Image) (s : rng) : res (Image * rng) :=
  match augs with
  | [] => Ok (img, s)
  | fn :: rest => let* (img', s') := fn img s in apply_stages rest img' s'
  end.

Definition apply_augmentations (img : Image) (s : rng) : res (Image * rng) :=
  apply_stages _AUGS img s.

End Augmentation.


(* ===================================================================== *)
(** ** Predicates used to state the properties *)
(* ===================================================================== *)

(** Ascending order of strings, as [sorted] would leave a list of paths. *)
Fixpoint is_sorted (l : list string) : bool :=
  match l with
  | a :: (b :: _) as rest => String.leb a b && is_sorted rest
  | _ => true
  end.

(** The entries of a directory [p] that are regular files. *)
Definition regular_files (fs : filesystem) (p : string) (entries : list string)
  : list string :=
  filter (fun name => Is_true (Path.is_file fs (Path.child p name))) entries.

(** The attributes of [args] that step 13 reads. *)
Definition job_attrs : list string :=
  ["margins"; "size"; "extension"; "skew_angle"; "width"; "orientation";
   "space_width"; "fit"; "stroke_width"; "stroke_fill"; "height"].

(** [cfg.<section_name>.<config_key>], read. *)
Definition get_option (cfg : pyval) (section_name config_key : string) : res pyval :=
  let* section := py_getattr cfg section_name in
  py_getattr section config_key.

Definition is_ns (v : pyval) : bool :=
  match v with PyNs _ => true | _ => false end.

(** The five sections of the configuration document. *)
Definition section_names : list string :=
  ["FILE_SETTINGS"; "TEXT_SETTINGS"; "IMAGE_FORMAT_SETTINGS";
   "DISTORTION_SETTINGS"; "OTHER_SETTINGS"].

(** A configuration as [load_config] builds it from a well-formed document:
    a namespace of sections, each a namespace, the five named ones among
    them. *)
Definition cfg_ok (cfg : pyval) : bool :=
  match cfg with
  | PyNs attrs =>
      forallb (fun kv => is_ns (snd kv)) attrs
      && forallb (fun s => match Ns.get s attrs with Some _ => true | None => false end)
           section_names
  | _ => false
  end.

(** The fields the preset assigns on a given file system: the item count
    and the worker count always, the corpus when a sample corpus exists,
    and language and fonts too when that sample is the English one. *)
Definition preset_sets (fs : filesystem) : list string :=
  ["count"; "num_workers"] ++
  (if Path.exists_ fs (Path.norm "texts/sample_chinese.txt") then ["corpus"]
   else if Path.exists_ fs (Path.norm "texts/sample_english.txt")
        then ["corpus"; "language"; "fonts"]
        else [])%list.

(** The state of the generators once a stage has drawn its coin. *)
Definition after_coin {PyRng NpRng : Type} (random_random : PyRng -> Q * PyRng)
    (s : rng PyRng NpRng) : rng PyRng NpRng :=
  {| py_rng := snd (random_random (py_rng _ _ s)); np_rng := np_rng _ _ s |}.

(** What [random.random()] returns next, for the coin of a stage. *)
Definition draw {PyRng NpRng : Type} (random_random : PyRng -> Q * PyRng)
    (s : rng PyRng NpRng) : Q :=
  fst (random_random (py_rng _ _ s)).

(** The jobs of a list all run without raising, taking the world from [w]
    to [w']. *)
Inductive runs_clean {World : Type}
    (generate : JobDescriptor -> World -> World * option exn)
  : list JobDescriptor -> World -> World -> Prop :=
  | runs_clean_nil (w : World) : runs_clean generate [] w w
  | runs_clean_cons (job : JobDescriptor) (rest : list JobDescriptor)
      (w w1 w2 : World) :
      generate job w = (w1, None) ->
      runs_clean generate rest w1 w2 ->
      runs_clean generate (job :: rest) w w2.

(** The next [n] standard normal deviates of [np.random]. *)
Fixpoint standard_normals {NpRng : Type} (standard_normal : NpRng -> Q * NpRng)
    (n : nat) (g : NpRng) : list Q :=
  match n with
  | O => []
  | S n' => let '(z, g') := standard_normal g in
            z :: standard_normals standard_normal n' g'
  end.

(** The sum of the squares of a sample: [n] times its second moment. *)
Fixpoint sum_squares (l : list Q) : Q :=
  match l with
  | [] => 0
  | x :: l' => x * x + sum_squares l'
  end.

(** Exact arithmetic: no rounding. *)
Definition exact (q : Q) : Q := q.

(** What resolution left in an argument, and in an option of the
    configuration. *)
Definition resolved_arg (k : string) (r : res (args_t * pyval)) : option pyval :=
  match r with
  | Ok (args, _) => args !! k
  | Raise _ => None
  end.

Definition resolved_option (section_name config_key : string)
    (r : res (args_t * pyval)) : res pyval :=
  let* (_, cfg) := r in get_option cfg section_name config_key.

(** A text that is not empty and neither starts nor ends with a blank. *)
Definition is_trimmed (l : Text.t) : bool :=
  match l with
  | [] => false
  | c :: _ => negb (Text.is_space c) && negb (Text.is_space (List.last l c))
  end.

(** Every option of every section of a configuration, in document order. *)
Definition all_options (cfg : pyval) : list (string * pyval) :=
  match cfg with
  | PyNs attrs =>
      concat (map (fun kv => match snd kv with PyNs items => items | _ => [] end) attrs)
  | _ => []
  end.

(** An attribute that is absent from [args] or holds [None]. *)
Definition unset (args : args_t) (k : string) : bool :=
  match args !! k with
  | Some v => is_None v
  | None => true
  end.

(** The job list of steps 8 to 13, when they succeed. *)
Definition prepared_jobs (r : res (args_t * list JobDescriptor))
  : option (list JobDescriptor) :=
  match r with
  | Ok (_, jobs) => Some jobs
  | Raise _ => None
  end.

(* ===================================================================== *)
(** ** core/logger.py *)
(* ===================================================================== *)

Module Logging.






End Logging.

(* ===================================================================== *)
(** ** core/diagnostics.py: check_fonts *)
(* ===================================================================== *)

(** [name.endswith(suffix)] *)
Definition endswith (suffix name : string) : bool :=
  String.prefix (Str.rev suffix) (Str.rev name).

(** [p.glob("*" + ext)]: the entries of a directory whose name ends with
    [ext]; none when [p] is not a directory. *)
Definition glob_ext (fs : filesystem) (p ext : string) : list string :=
  match fs p with
  | Some (Dir entries) => filter (fun name => Is_true (endswith ext name)) entries
  | _ => []
  end.

Definition font_extensions : list string := [".ttf"; ".otf"; ".ttc"].

(** [str(n)] for a length. *)
Definition str_of_nat (n : nat) : string := NilZero.string_of_uint (Nat.to_uint n).

(** [GTNMDiagnostics.check_fonts]: whether fonts were found, their names,
    and the message (texts are held as their UTF-8 bytes). *)
Definition check_fonts (fs : filesystem) (font_dir : string)
  : bool * list string * string :=
  let font_path := Path.norm ("fonts/" ++ font_dir) in
  if negb (Path.exists_ fs font_path) then
    (false, [], "字体目录不存在: " ++ font_path)
  else
    let font_files := concat (map (glob_ext fs font_path) font_extensions) in
    match font_files with
    | [] => (false, [], "字体目录为空: " ++ font_path)
    | _ => (true, font_files,
            "找到 " ++ str_of_nat (length font_files) ++ " 个字体文件")
    end.

(* ===================================================================== *)
(** * Properties *)
(* ===================================================================== *)

(** ** Results *)

Lemma rbind_ok {A B} (r : res A) (k : A -> res B) (b : B) :
  rbind r k = Ok b <-> exists a, r = Ok a /\ k a = Ok b.
Proof.
  destruct r as [a|e]; simpl; split.
  - intros H. exists a. auto.
  - intros (a' & Ha & Hk). congruence.
  - discriminate.
  - intros (a' & Ha & _). discriminate.
Qed.

Lemma rbind_Ok {A B} (a : A) (k : A -> res B) : rbind (Ok a) k = k a.
Proof. reflexivity. Qed.

(** [rmap] returns exactly when [f] returns on every element, with the
    results in the order of the elements. *)
Lemma rmap_ok {A B} (f : A -> res B) (l : list A) (l' : list B) :
  rmap f l = Ok l' <-> Forall2 (fun x y => f x = Ok y) l l'.
Proof.
  revert l'. induction l as [|x l IH]; intros l'; simpl.
  - split.
    + intros H. injection H as <-. constructor.
    + intros H. inversion H. reflexivity.
  - rewrite rbind_ok. split.
    + intros (y & Hy & H). apply rbind_ok in H as (ys & Hys & H).
      injection H as <-. constructor; [assumption | now apply IH].
    + intros H. inversion H as [|? y ? ys Hy Hys]; subst.
      exists y. split; [assumption|].
      apply IH in Hys. rewrite Hys. reflexivity.
Qed.

(** ** parse_margins *)

Lemma split_length (sep : ascii) (s : string) :
  length (Str.split sep s) = S (Str.count sep s).
Proof.
  induction s as [|a s IH]; simpl; [reflexivity|].
  destruct (Ascii.eqb a sep); simpl.
  - now rewrite IH.
  - destruct (Str.split sep s) as [|h t]; simpl in *; [discriminate | exact IH].
Qed.

Lemma split_no_sep (sep : ascii) (s : string) :
  Str.count sep s = 0%nat -> Str.split sep s = [s].
Proof.
  induction s as [|a s IH]; simpl; [reflexivity|].
  destruct (Ascii.eqb a sep); simpl; [discriminate|].
  intros H. now rewrite (IH H).
Qed.

(** C10. A margin string without a comma is read as one integer, returned
    four times; a string with commas is read token by token, in token
    order, whatever the number of tokens (one more than the number of
    commas), and nothing checks that there are four. *)
Theorem parse_margins_spec (s : string) :
  (Str.count "," s = 0%nat ->
     Str.split "," s = [s] /\
     parse_margins s = (let* v := Str.int s in Ok [v; v; v; v])) /\
  (Str.count "," s <> 0%nat ->
     length (Str.split "," s) = S (Str.count "," s) /\
     parse_margins s = rmap Str.int (Str.split "," s) /\
     forall l, parse_margins s = Ok l <->
               Forall2 (fun tok z => Str.int tok = Ok z) (Str.split "," s) l).
Proof.
  split.
  - intros H. pose proof (split_no_sep "," s H) as Hs.
    split; [exact Hs|]. unfold parse_margins. rewrite Hs. reflexivity.
  - intros H. pose proof (split_length "," s) as Hl.
    assert (Heq : parse_margins s = rmap Str.int (Str.split "," s)).
    { unfold parse_margins.
      destruct (Str.split "," s) as [|a [|b l]] eqn:E; try reflexivity.
      simpl in Hl. lia. }
    split; [exact Hl|]. split; [exact Heq|].
    intros l. rewrite Heq. apply rmap_ok.
Qed.

Lemma parse_margins_spec_witness :
  parse_margins "5" = Ok [5; 5; 5; 5] /\
  parse_margins "5,10,5,10,7" = Ok [5; 10; 5; 10; 7].
Proof.
  split.
  - exact (proj2 (proj1 (parse_margins_spec "5") eq_refl)).
  - refine (proj1 (proj2 (proj2 (parse_margins_spec "5,10,5,10,7") _))).
    simpl. discriminate.
Defined.

Example parse_margins_two_tokens : parse_margins "3,4" = Ok [3; 4].
Proof. reflexivity. Qed.

Example parse_margins_not_a_number : parse_margins "5,x" = Raise ValueError.
Proof. reflexivity. Qed.

(** ** load_corpus *)

Lemma filter_all_blank (ls : list Text.t) :
  Forall (fun line => Text.strip line = []) ls ->
  filter (fun line => Is_true (negb (Nat.eqb (length (Text.strip line)) 0))) ls = [].
Proof.
  induction 1 as [|line ls Hline _ IH]; [reflexivity|].
  rewrite filter_cons.
  destruct (decide _) as [H|_]; [|exact IH].
  rewrite Hline in H. destruct H.
Qed.

(** C4. On a corpus file that exists, [load_corpus] always returns a list
    and never fails; when no line of the file has anything but blanks, the
    list it returns is empty. *)
Theorem load_corpus_blank_file_returns_empty
    (fs : filesystem) (path : string) (text : Text.t) :
  fs (Path.norm path) = Some (File text) ->
  (exists words_list, load_corpus fs path = Ok words_list) /\
  (Forall (fun line => Text.strip line = []) (Text.lines text) ->
   load_corpus fs path = Ok []).
Proof.
  intros Hfs. unfold load_corpus. rewrite Hfs. split.
  - eexists. reflexivity.
  - intros Hblank. now rewrite (filter_all_blank _ Hblank).
Qed.

(** A corpus of three lines holding a space, a tab and an ideographic
    space, with LF and CR LF endings. *)
Definition fs_blank_corpus : filesystem := fun p =>
  if String.eqb p "texts/blank.txt"
  then Some (File [32; 10; 9; 13; 10; 12288]%N)
  else None.

Lemma load_corpus_blank_file_returns_empty_witness :
  load_corpus fs_blank_corpus "texts/blank.txt" = Ok [].
Proof.
  refine (proj2 (load_corpus_blank_file_returns_empty fs_blank_corpus
                   "texts/blank.txt" [32; 10; 9; 13; 10; 12288]%N eq_refl) _).
  repeat constructor.
Defined.

Example load_corpus_missing_file :
  load_corpus fs_blank_corpus "texts/none.txt"
  = Raise (SystemExit (ExitMsg "[Error] Corpus file not found: texts/none.txt")).
Proof. reflexivity. Qed.

Example load_corpus_keeps_usable_lines :
  load_corpus (fun _ => Some (File (app (Text.of_string "  ab ") (app [10; 10]%N (Text.of_string "c")))))
    "texts/a.txt"
  = Ok [Text.of_string "ab"; Text.of_string "c"].
Proof. reflexivity. Qed.

(** ** load_fonts *)

Lemma string_app_inv_head (p a b : string) : p ++ a = p ++ b -> a = b.
Proof.
  induction p as [|c p IH]; simpl; intros H; [exact H|].
  injection H as H. now apply IH.
Qed.

Lemma child_inj (p a b : string) : Path.child p a = Path.child p b -> a = b.
Proof.
  unfold Path.child.
  destruct (String.eqb p "."); [trivial|].
  destruct (String.eqb p (Path.root p)); intros H.
  - now apply string_app_inv_head in H.
  - apply string_app_inv_head in H. now apply (string_app_inv_head "/") in H.
Qed.

Lemma filter_map_child (fs : filesystem) (p : string) (entries : list string) :
  filter (fun font => Is_true (Path.is_file fs font)) (map (Path.child p) entries)
  = map (Path.child p) (regular_files fs p entries).
Proof.
  unfold regular_files.
  induction entries as [|name entries IH]; [reflexivity|].
  simpl map. rewrite !filter_cons.
  destruct (decide (Is_true (Path.is_file fs (Path.child p name)))).
  - simpl. now rewrite IH.
  - exact IH.
Qed.

Lemma NoDup_map_child (p : string) (l : list string) :
  NoDup l -> NoDup (map (Path.child p) l).
Proof.
  induction 1 as [|x l Hx _ IH]; simpl; constructor; [|exact IH].
  intros Hin. apply list_elem_of_In, in_map_iff in Hin as (y & Hy & Hin).
  apply child_inj in Hy. subst y. apply Hx, list_elem_of_In, Hin.
Qed.

(** C5 (amended). For a font directory, [load_fonts] returns the paths of
    its regular files in the order the directory lists them: as many paths
    as there are regular files, without repetition.  For a missing path, or
    a directory without a regular file, it exits with a message that
    carries the argument it was given. *)
Theorem load_fonts_listing_order (fs : filesystem) (font_or_dir : string) :
  let p := Path.norm ("fonts/" ++ font_or_dir) in
  (fs p = None ->
   load_fonts fs font_or_dir
   = Raise (SystemExit (ExitMsg ("[Error] Font path does not exist: " ++ font_or_dir)))) /\
  (forall entries, fs p = Some (Dir entries) ->
     (regular_files fs p entries = [] ->
      load_fonts fs font_or_dir
      = Raise (SystemExit
                 (ExitMsg ("[Error] No font files found in directory: " ++ font_or_dir)))) /\
     (regular_files fs p entries <> [] -> NoDup entries ->
      exists paths,
        load_fonts fs font_or_dir = Ok paths /\
        paths = map (Path.child p) (regular_files fs p entries) /\
        length paths = length (regular_files fs p entries) /\
        NoDup paths)).
Proof.
  intros p. split.
  - intros Hfs. unfold load_fonts, Path.exists_. fold p. now rewrite Hfs.
  - intros entries Hfs.
    assert (Heq : load_fonts fs font_or_dir
                  = match map (Path.child p) (regular_files fs p entries) with
                    | [] => sys_exit ("[Error] No font files found in directory: "
                                      ++ font_or_dir)
                    | paths => Ok paths
                    end).
    { assert (Hfile : Path.is_file fs p = false)
        by (unfold Path.is_file; now rewrite Hfs).
      unfold load_fonts, Path.exists_, Path.glob_star. fold p.
      rewrite Hfile, Hfs. simpl negb. cbv iota.
      rewrite filter_map_child.
      now destruct (map (Path.child p) (regular_files fs p entries)). }
    split.
    + intros Hnone. rewrite Heq, Hnone. reflexivity.
    + intros Hsome Hnodup.
      exists (map (Path.child p) (regular_files fs p entries)).
      split; [|split; [reflexivity|split]].
      * rewrite Heq. destruct (regular_files fs p entries); [congruence|reflexivity].
      * apply length_map.
      * apply NoDup_map_child. unfold regular_files. now apply NoDup_filter.
Qed.

(** A font directory whose listing gives [b.ttf] before [a.ttf], with a
    sub-directory in between. *)
Definition fs_fonts : filesystem := fun p =>
  if String.eqb p "fonts/ch" then Some (Dir ["b.ttf"; "extra"; "a.ttf"])
  else if String.eqb p "fonts/ch/b.ttf" then Some (File [])
  else if String.eqb p "fonts/ch/a.ttf" then Some (File [])
  else if String.eqb p "fonts/ch/extra" then Some (Dir [])
  else None.

Lemma load_fonts_listing_order_witness :
  load_fonts fs_fonts "zz"
  = Raise (SystemExit (ExitMsg "[Error] Font path does not exist: zz")) /\
  load_fonts fs_fonts "ch/extra"
  = Raise (SystemExit (ExitMsg "[Error] No font files found in directory: ch/extra")) /\
  exists paths, load_fonts fs_fonts "ch" = Ok paths /\ length paths = 2%nat /\ NoDup paths.
Proof.
  split; [|split].
  - exact (proj1 (load_fonts_listing_order fs_fonts "zz") eq_refl).
  - exact (proj1 (proj2 (load_fonts_listing_order fs_fonts "ch/extra") [] eq_refl) eq_refl).
  - destruct (proj2 (proj2 (load_fonts_listing_order fs_fonts "ch")
                              ["b.ttf"; "extra"; "a.ttf"] eq_refl))
      as (paths & Hp & _ & Hlen & Hnd).
    + discriminate.
    + repeat constructor; rewrite ?list_elem_of_In; simpl; intuition discriminate.
    + exists paths. auto.
Defined.

(** C5, as stated, fails: the two regular files of [fonts/ch] come back in
    listing order, [b.ttf] first, which is not sorted. *)
Lemma load_fonts_not_sorted :
  load_fonts fs_fonts "ch" = Ok ["fonts/ch/b.ttf"; "fonts/ch/a.ttf"] /\
  is_sorted ["fonts/ch/b.ttf"; "fonts/ch/a.ttf"] = false.
Proof. split; reflexivity. Qed.

(** ** The job builder *)

Lemma arg_some (args : args_t) (k : string) (v : pyval) :
  args !! k = Some v -> arg args k = Ok v.
Proof. intros H. unfold arg. now rewrite H. Qed.

Lemma job_attr_present (args : args_t) (k : string) :
  Forall (fun k => is_Some (args !! k)) job_attrs ->
  In k job_attrs -> exists v, arg args k = Ok v.
Proof.
  intros Hall Hin. rewrite Forall_forall in Hall.
  destruct (Hall k) as [v Hv]; [now apply list_elem_of_In|].
  exists v. now apply arg_some.
Qed.

Ltac job_attr args H k :=
  let v := fresh "v" in
  let Hv := fresh "Hv" in
  destruct (job_attr_present args k H) as [v Hv];
  [unfold job_attrs; simpl; tauto | rewrite Hv, rbind_Ok].

(** One turn of the loop: the descriptor holds the index, the string and
    the colour at [i mod m]. *)
Lemma build_param_tuple_ok (args : args_t) font_paths output_dir
    (palette : list (list Z)) margins_str (i : nat) (text : Text.t) :
  Forall (fun k => is_Some (args !! k)) job_attrs ->
  palette <> [] ->
  exists job c,
    build_param_tuple args font_paths output_dir palette margins_str i text = Ok job /\
    jd_index job = i /\ jd_text job = text /\
    nth_error palette (i mod length palette) = Some c /\ jd_color job = c /\
    arg args "skew_angle" = Ok (jd_skew_angle job).
Proof.
  intros Hall Hne. unfold build_param_tuple.
  assert (Hlen : (length palette <> 0)%nat) by (destruct palette; simpl; congruence).
  assert (Hlt : (i mod length palette < length palette)%nat)
    by (apply Nat.mod_upper_bound; exact Hlen).
  destruct (nth_error palette (i mod length palette)) as [c|] eqn:Hc;
    [|apply nth_error_None in Hc; lia].
  assert (Hidx : match length palette with
                 | O => Raise ZeroDivisionError
                 | _ => Ok (i mod length palette)%nat
                 end = Ok (i mod length palette)%nat)
    by (destruct (length palette); congruence).
  rewrite Hidx, rbind_Ok.
  job_attr args Hall "size". job_attr args Hall "extension".
  job_attr args Hall "skew_angle". job_attr args Hall "width".
  rewrite Hc, rbind_Ok.
  job_attr args Hall "orientation". job_attr args Hall "space_width".
  job_attr args Hall "fit". job_attr args Hall "stroke_width".
  job_attr args Hall "stroke_fill". job_attr args Hall "height".
  eexists. exists c. repeat split; reflexivity.
Qed.

Lemma build_loop_ok (args : args_t) font_paths output_dir
    (palette : list (list Z)) margins_str (strings : list Text.t) :
  Forall (fun k => is_Some (args !! k)) job_attrs ->
  palette <> [] ->
  forall start, exists jobs,
    build_loop args font_paths output_dir palette margins_str start strings = Ok jobs /\
    length jobs = length strings /\
    forall i text, nth_error strings i = Some text ->
      exists job c,
        nth_error jobs i = Some job /\
        jd_index job = (start + i)%nat /\ jd_text job = text /\
        nth_error palette ((start + i) mod length palette) = Some c /\
        jd_color job = c /\
        arg args "skew_angle" = Ok (jd_skew_angle job).
Proof.
  intros Hall Hne. induction strings as [|text rest IH]; intros start.
  - exists []. split; [reflexivity|]. split; [reflexivity|].
    intros [|i] t H; discriminate.
  - destruct (build_param_tuple_ok args font_paths output_dir palette margins_str
                start text Hall Hne) as (job & c & Hjob & Hi & Ht & Hc & Hcol & Hsk).
    destruct (IH (S start)) as (jobs & Hjobs & Hlen & Hnth).
    exists (job :: jobs). simpl build_loop. rewrite Hjob. simpl rbind.
    rewrite Hjobs. simpl rbind. split; [reflexivity|].
    split; [simpl; now rewrite Hlen|].
    intros [|i] t H; simpl in H.
    + injection H as <-. exists job, c. rewrite Nat.add_0_r.
      repeat split; assumption || reflexivity.
    + destruct (Hnth i t H) as (job' & c' & H1 & H2 & H3 & H4 & H5 & H6).
      exists job', c'. replace (start + S i)%nat with (S start + i)%nat by lia.
      repeat split; assumption.
Qed.

(** C6. With a palette of [m] colours (one at least) and the attributes
    the builder reads present, the builder returns one descriptor per
    string, and the descriptor at position [i] carries index [i] and the
    colour [palette[i mod m]]. *)
Theorem job_color_is_palette_rotation (args : args_t) (strings : list Text.t)
    (font_paths : list string) (output_dir : string) (palette : list (list Z)) :
  Forall (fun k => is_Some (args !! k)) job_attrs ->
  palette <> [] ->
  exists jobs,
    build_image_params args strings font_paths output_dir palette = Ok jobs /\
    length jobs = length strings /\
    forall i, (i < length strings)%nat ->
      exists job c,
        nth_error jobs i = Some job /\
        jd_index job = i /\
        nth_error palette (i mod length palette) = Some c /\
        jd_color job = c.
Proof.
  intros Hall Hne. unfold build_image_params.
  destruct (job_attr_present args "margins" Hall) as [m Hm];
    [unfold job_attrs; simpl; tauto|].
  rewrite Hm. simpl rbind.
  destruct (build_loop_ok args font_paths output_dir palette m strings Hall Hne 0%nat)
    as (jobs & Hjobs & Hlen & Hnth).
  exists jobs. split; [exact Hjobs|]. split; [exact Hlen|].
  intros i Hi.
  destruct (nth_error strings i) as [text|] eqn:Ht;
    [|apply nth_error_None in Ht; lia].
  destruct (Hnth i text Ht) as (job & c & H1 & H2 & _ & H4 & H5 & _).
  exists job, c. auto.
Qed.

(** Arguments with every attribute of [job_attrs], and a palette of three
    colours. *)
Definition args_jobs : args_t :=
  list_to_map [
    ("margins", PyStr "5,4,5,4"); ("size", PyInt 32); ("extension", PyStr "jpg");
    ("skew_angle", PyInt 5); ("width", PyInt 0); ("orientation", PyInt 0);
    ("space_width", PyFloat 1); ("fit", PyBool false); ("stroke_width", PyInt 0);
    ("stroke_fill", PyStr "(0,0,0)"); ("height", PyInt 0)].

Definition palette3 : list (list Z) := [[0; 0; 0]; [255; 0; 0]; [0; 0; 255]].

Lemma job_color_is_palette_rotation_witness :
  exists jobs,
    build_image_params args_jobs (repeat [] 5) ["fonts/ch/a.ttf"] "out" palette3
    = Ok jobs /\
    length jobs = 5%nat /\
    forall i, (i < 5)%nat ->
      exists job c, nth_error jobs i = Some job /\ jd_index job = i /\
                    nth_error palette3 (i mod 3) = Some c /\ jd_color job = c.
Proof.
  apply (job_color_is_palette_rotation args_jobs (repeat [] 5) ["fonts/ch/a.ttf"]
           "out" palette3).
  - repeat constructor; eexists; vm_compute; reflexivity.
  - discriminate.
Defined.

Example job_colors_of_five :
  (fun r => match r with Ok jobs => map jd_color jobs | Raise _ => [] end)
    (build_image_params args_jobs (repeat [] 5) [] "out" palette3)
  = [[0; 0; 0]; [255; 0; 0]; [0; 0; 255]; [0; 0; 0]; [255; 0; 0]].
Proof. vm_compute. reflexivity. Qed.

Example job_empty_palette :
  build_image_params args_jobs [[]] [] "out" [] = Raise ZeroDivisionError.
Proof. vm_compute. reflexivity. Qed.

(** ** The execution engine, single-process branch *)

Section Sequential.

Variable World : Type.
Variable generate : JobDescriptor -> World -> World * option exn.
Variable run_pool :
  pyval -> list JobDescriptor -> World -> World * list JobDescriptor * option exn.

(** A clean run of the loop: every job is executed, none raises. *)
Lemma run_sequential_clean (jobs : list JobDescriptor) :
  forall w w', runs_clean generate jobs w w' ->
    run_sequential World generate jobs w = (w', jobs, None).
Proof.
  induction jobs as [|job rest IH]; intros w w' H; inversion H; subst; simpl.
  - reflexivity.
  - match goal with Hg : generate _ _ = _ |- _ => rewrite Hg end.
    now rewrite (IH _ _ ltac:(eassumption)).
Qed.

(** A job that raises after a clean prefix ends the loop: the jobs of the
    prefix and the failing one were executed, none of the later ones. *)
Lemma run_sequential_failure (pre : list JobDescriptor) :
  forall job rest w w_pre w' e,
    runs_clean generate pre w w_pre ->
    generate job w_pre = (w', Some e) ->
    run_sequential World generate (pre ++ job :: rest)%list w
    = (w', (pre ++ [job])%list, Some e).
Proof.
  induction pre as [|j pre IH]; intros job rest w w_pre w' e H Hg; inversion H; subst; simpl.
  - now rewrite Hg.
  - match goal with Hj : generate j _ = _ |- _ => rewrite Hj end.
    now rewrite (IH job rest _ _ _ _ ltac:(eassumption) Hg).
Qed.

(** The loop always ends, in one of these two ways. *)
Lemma run_sequential_cases (jobs : list JobDescriptor) :
  forall w,
    (exists w', runs_clean generate jobs w w') \/
    (exists pre job rest w_pre w' e,
        jobs = (pre ++ job :: rest)%list /\
        runs_clean generate pre w w_pre /\
        generate job w_pre = (w', Some e)).
Proof.
  induction jobs as [|job rest IH]; intros w.
  - left. exists w. constructor.
  - destruct (generate job w) as [w1 [e|]] eqn:Hg.
    + right. exists [], job, rest, w, w1, e. repeat split; [constructor|exact Hg].
    + destruct (IH w1) as [[w' H] | (pre & j & rest' & w_pre & w' & e & -> & H1 & H2)].
      * left. exists w'. econstructor; eassumption.
      * right. exists (job :: pre), j, rest', w_pre, w', e.
        repeat split; [econstructor; eassumption|exact H2].
Qed.

(** C3 (amended). In sequential mode the jobs run in index order on the
    calling thread.  When no job raises, all of them are executed and the
    engine returns normally.  When a job raises after the jobs before it
    ran without raising, the loop ends there: the jobs executed are those
    before it and the failing one, no later job is executed, and the
    error is not recorded but leaves the engine as an exit of the process
    (status 1 for an [Exception], 0 for an interrupt).  One of the two
    cases always applies. *)
Theorem sequential_run_stops_at_first_failure
    (args : args_t) (jobs : list JobDescriptor) (w : World) (nw : pyval) :
  args !! "num_workers" = Some nw ->
  le_1 nw = Ok true ->
  (forall w', runs_clean generate jobs w w' ->
     execute World generate run_pool args jobs w = (w', jobs, Ok tt)) /\
  (forall pre job rest w_pre w' e,
     jobs = (pre ++ job :: rest)%list ->
     runs_clean generate pre w w_pre ->
     generate job w_pre = (w', Some e) ->
     execute World generate run_pool args jobs w
     = (w', (pre ++ [job])%list, on_generation_error e) /\
     (is_Exception e = true ->
        on_generation_error e = Raise (SystemExit (ExitCode 1))) /\
     (e = KeyboardInterrupt ->
        on_generation_error e = Raise (SystemExit (ExitCode 0)))) /\
  ((exists w', runs_clean generate jobs w w') \/
   (exists pre job rest w_pre w' e,
       jobs = (pre ++ job :: rest)%list /\
       runs_clean generate pre w w_pre /\
       generate job w_pre = (w', Some e))).
Proof.
  intros Hnw Hle. split; [|split].
  - intros w' H. unfold execute.
    rewrite (arg_some _ _ _ Hnw), rbind_Ok, Hle, rbind_Ok.
    now rewrite (run_sequential_clean _ _ _ H).
  - intros pre job rest w_pre w' e -> Hpre Hg. split; [|split].
    + unfold execute. rewrite (arg_some _ _ _ Hnw), rbind_Ok, Hle, rbind_Ok.
      now rewrite (run_sequential_failure pre job rest _ _ _ _ Hpre Hg).
    + intros He. destruct e; simpl in *; congruence.
    + intros ->. reflexivity.
  - apply run_sequential_cases.
Qed.

End Sequential.

(** A renderer that logs the index of each job it renders and fails on the
    job of index 1. *)
Definition generate_fails_at_1 (job : JobDescriptor) (w : list nat)
  : list nat * option exn :=
  if Nat.eqb (jd_index job) 1 then (w, Some (OtherException "cannot render"))
  else ((w ++ [jd_index job])%list, None).

Definition no_pool (nw : pyval) (jobs : list JobDescriptor) (w : list nat)
  : list nat * list JobDescriptor * option exn := (w, [], None).

Definition job_at (i : nat) : JobDescriptor :=
  {| jd_index := i; jd_text := []; jd_font_paths := ["fonts/ch/a.ttf"];
     jd_output_dir := "out"; jd_cursive := 0; jd_size := PyInt 32;
     jd_extension := PyStr "jpg"; jd_skew_angle := PyInt 0; jd_width := PyInt 0;
     jd_color := [0; 0; 0]; jd_orientation := PyInt 0; jd_space_width := PyFloat 1;
     jd_margins := PyStr "5,4,5,4"; jd_fit := PyBool false;
     jd_stroke_width := PyInt 0; jd_stroke_fill := PyStr "(0,0,0)";
     jd_height := PyInt 0 |}.

Definition args_one_worker : args_t := {[ "num_workers" := PyInt 1 ]}.

Lemma sequential_run_stops_at_first_failure_witness :
  execute (list nat) generate_fails_at_1 no_pool args_one_worker
    [job_at 0; job_at 1; job_at 2] []
  = ([0%nat], ([job_at 0] ++ [job_at 1])%list,
     on_generation_error (OtherException "cannot render")) /\
  (is_Exception (OtherException "cannot render") = true ->
     on_generation_error (OtherException "cannot render")
     = Raise (SystemExit (ExitCode 1))) /\
  (OtherException "cannot render" = KeyboardInterrupt ->
     on_generation_error (OtherException "cannot render")
     = Raise (SystemExit (ExitCode 0))).
Proof.
  destruct (sequential_run_stops_at_first_failure (list nat) generate_fails_at_1 no_pool
              args_one_worker [job_at 0; job_at 1; job_at 2] [] (PyInt 1)
              eq_refl eq_refl) as (_ & Hfail & _).
  apply (Hfail [job_at 0] (job_at 1) [job_at 2] [0%nat] [0%nat]
           (OtherException "cannot render")).
  - reflexivity.
  - apply runs_clean_cons with (w1 := [0%nat]); [reflexivity|apply runs_clean_nil].
  - reflexivity.
Defined.

(** C3, as stated, fails: with three jobs of which the second raises, the
    third is never executed (only job 0 is rendered) and the error ends
    the run with status 1. *)
Lemma sequential_failure_aborts_batch :
  execute (list nat) generate_fails_at_1 no_pool args_one_worker
    [job_at 0; job_at 1; job_at 2] []
  = ([0%nat], [job_at 0; job_at 1], Raise (SystemExit (ExitCode 1))) /\
  ~ In (job_at 2) [job_at 0; job_at 1].
Proof.
  split; [vm_compute; reflexivity|].
  simpl. intros [H|[H|[]]]; discriminate.
Qed.

(** ** The text strategy and the naming scheme *)

Section Strategy.

Variable create_strings_from_corpus_file : pyval -> res (list Text.t).
Variable create_strings_randomly_from_chars :
  pyval -> pyval -> pyval -> pyval -> pyval -> pyval -> pyval -> res (list Text.t).
Variable create_strings_from_dict :
  pyval -> pyval -> pyval -> list Text.t -> res (list Text.t).

(** C9. Under the random strategy, once the sampler has returned, the
    naming scheme [name_format] is set to 2 (the index-based one) when
    symbols are requested or no character class is enabled, and the
    arguments are left as they were otherwise; this happens in step 10,
    before the job list is built. *)
Theorem random_strategy_forces_index_naming
    (args : args_t) (corpus_list : list Text.t) (ct : string)
    (len rnd cnt letters numbers symbols lang : pyval) (strings : list Text.t) :
  args !! "corpus_type" = Some (PyStr ct) ->
  Str.upper ct = "RANDOM" ->
  args !! "length" = Some len ->
  args !! "random" = Some rnd ->
  args !! "count" = Some cnt ->
  args !! "include_letters" = Some letters ->
  args !! "include_numbers" = Some numbers ->
  args !! "include_symbols" = Some symbols ->
  args !! "language" = Some lang ->
  create_strings_randomly_from_chars len rnd cnt letters numbers symbols lang
  = Ok strings ->
  let forced :=
    truthy symbols || negb (truthy letters || truthy numbers || truthy symbols) in
  exists args',
    make_strings create_strings_from_corpus_file
      create_strings_randomly_from_chars create_strings_from_dict
      args corpus_list = Ok (args', strings) /\
    (forced = true ->
     args' = <["name_format" := PyInt 2]> args /\
     args' !! "name_format" = Some (PyInt 2)) /\
    (forced = false -> args' = args).
Proof.
  intros Hct Hup Hlen Hrnd Hcnt Hl Hn Hs Hlang Hgen forced.
  unfold make_strings.
  rewrite (arg_some _ _ _ Hct), rbind_Ok. simpl as_str. rewrite rbind_Ok, Hup.
  change (String.eqb "RANDOM" "CORPUS") with false.
  change (String.eqb "RANDOM" "RANDOM") with true. cbv iota.
  rewrite (arg_some _ _ _ Hlen), rbind_Ok, (arg_some _ _ _ Hrnd), rbind_Ok,
    (arg_some _ _ _ Hcnt), rbind_Ok, (arg_some _ _ _ Hl), rbind_Ok,
    (arg_some _ _ _ Hn), rbind_Ok, (arg_some _ _ _ Hs), rbind_Ok,
    (arg_some _ _ _ Hlang), rbind_Ok, Hgen, rbind_Ok.
  assert (Hcond : truthy symbols
                  || negb (existsb truthy [letters; numbers; symbols]) = forced).
  { unfold forced. simpl.
    destruct (truthy symbols), (truthy letters), (truthy numbers); reflexivity. }
  rewrite Hcond. destruct forced.
  - eexists. split; [reflexivity|]. split; [|discriminate].
    intros _. split; [reflexivity | apply lookup_insert_eq].
  - eexists. split; [reflexivity|]. split; [discriminate | reflexivity].
Qed.

End Strategy.

(** Arguments of a run with the random strategy that asks for symbols and
    for the text-based naming scheme 0. *)
Definition args_random : args_t :=
  list_to_map [
    ("corpus_type", PyStr "random"); ("length", PyInt 5); ("random", PyBool false);
    ("count", PyInt 2); ("include_letters", PyBool true);
    ("include_numbers", PyBool false); ("include_symbols", PyBool true);
    ("language", PyStr "en"); ("name_format", PyInt 0)].

Definition sampler_stub (len rnd cnt letters numbers symbols lang : pyval)
  : res (list Text.t) := Ok [Text.of_string "a#"; Text.of_string "b!"].

Lemma random_strategy_forces_index_naming_witness :
  exists args',
    make_strings (fun _ => Ok []) sampler_stub (fun _ _ _ _ => Ok []) args_random []
    = Ok (args', [Text.of_string "a#"; Text.of_string "b!"]) /\
    (true = true ->
     args' = <["name_format" := PyInt 2]> args_random /\
     args' !! "name_format" = Some (PyInt 2)) /\
    (true = false -> args' = args_random).
Proof.
  apply (random_strategy_forces_index_naming (fun _ => Ok []) sampler_stub
           (fun _ _ _ _ => Ok []) args_random [] "random"
           (PyInt 5) (PyBool false) (PyInt 2) (PyBool true) (PyBool false)
           (PyBool true) (PyStr "en"));
    reflexivity.
Defined.

Example random_letters_only_keeps_naming :
  (fun r => match r with Ok (a, _) => a !! "name_format" | Raise _ => None end)
    (make_strings (fun _ => Ok []) sampler_stub (fun _ _ _ _ => Ok [])
       (<["include_symbols" := PyBool false]> args_random) [])
  = Some (PyInt 0).
Proof. vm_compute. reflexivity. Qed.

(** ** Namespaces *)

Lemma Ns_get_set_eq (k : string) (v : pyval) (ns : Ns.t) :
  Ns.get k (Ns.set k v ns) = Some v.
Proof.
  induction ns as [|[k' v'] ns IH]; simpl.
  - now rewrite String.eqb_refl.
  - destruct (String.eqb k k') eqn:E; simpl; rewrite E; [reflexivity | exact IH].
Qed.

Lemma Ns_get_set_ne (k k' : string) (v : pyval) (ns : Ns.t) :
  k <> k' -> Ns.get k' (Ns.set k v ns) = Ns.get k' ns.
Proof.
  intros Hne. induction ns as [|[k0 v0] ns IH]; simpl.
  - apply not_eq_sym, String.eqb_neq in Hne. now rewrite Hne.
  - destruct (String.eqb k k0) eqn:E; simpl.
    + apply String.eqb_eq in E. subst k0.
      apply not_eq_sym, String.eqb_neq in Hne. now rewrite Hne.
    + now rewrite IH.
Qed.

Lemma Ns_set_sections (k : string) (v : pyval) (ns : Ns.t) :
  forallb (fun kv => is_ns (snd kv)) ns = true -> is_ns v = true ->
  forallb (fun kv => is_ns (snd kv)) (Ns.set k v ns) = true.
Proof.
  intros H Hv. induction ns as [|[k0 v0] ns IH]; simpl in *.
  - now rewrite Hv.
  - apply andb_true_iff in H as [H0 H].
    destruct (String.eqb k k0); simpl.
    + now rewrite Hv, H.
    + now rewrite H0, IH.
Qed.

Lemma Ns_get_section (k : string) (v : pyval) (ns : Ns.t) :
  forallb (fun kv => is_ns (snd kv)) ns = true ->
  Ns.get k ns = Some v -> is_ns v = true.
Proof.
  induction ns as [|[k0 v0] ns IH]; simpl; [discriminate|].
  intros H. apply andb_true_iff in H as [H0 H].
  destruct (String.eqb k k0); [intros [= <-]; exact H0 | now apply IH].
Qed.

Lemma Ns_get_set_is_Some (k k' : string) (v : pyval) (ns : Ns.t) :
  is_Some (Ns.get k' ns) -> is_Some (Ns.get k' (Ns.set k v ns)).
Proof.
  intros H. destruct (String.eqb_spec k k') as [->|Hne].
  - rewrite Ns_get_set_eq. eauto.
  - now rewrite Ns_get_set_ne.
Qed.

(** ** Overrides *)

Lemma cfg_ok_inv (cfg : pyval) :
  cfg_ok cfg = true ->
  exists attrs, cfg = PyNs attrs /\
    forallb (fun kv => is_ns (snd kv)) attrs = true /\
    forall s, In s section_names -> is_Some (Ns.get s attrs).
Proof.
  destruct cfg as [| | | | |attrs]; unfold cfg_ok; try discriminate.
  intros H. apply andb_true_iff in H as [H1 H2].
  exists attrs. split; [reflexivity|]. split; [exact H1|].
  intros s Hs. rewrite forallb_forall in H2. specialize (H2 s Hs).
  destruct (Ns.get s attrs); [eauto | discriminate].
Qed.

Lemma cfg_ok_intro (attrs : Ns.t) :
  forallb (fun kv => is_ns (snd kv)) attrs = true ->
  (forall s, In s section_names -> is_Some (Ns.get s attrs)) ->
  cfg_ok (PyNs attrs) = true.
Proof.
  intros H1 H2. unfold cfg_ok. rewrite H1. apply forallb_forall.
  intros s Hs. destruct (H2 s Hs) as [v ->]. reflexivity.
Qed.

(** Writing an option of one of the five sections succeeds, keeps the
    configuration well formed, is read back, and leaves every other option
    as it was. *)
Lemma set_option_spec (cfg : pyval) (s k : string) (v : pyval) :
  cfg_ok cfg = true -> In s section_names ->
  exists cfg',
    set_option cfg s k v = Ok cfg' /\ cfg_ok cfg' = true /\
    get_option cfg' s k = Ok v /\
    forall s' k', s' <> s \/ k' <> k -> get_option cfg' s' k' = get_option cfg s' k'.
Proof.
  intros Hok Hs. apply cfg_ok_inv in Hok as (attrs & -> & Hns & Hsec).
  destruct (Hsec s Hs) as [sec Hget].
  pose proof (Ns_get_section _ _ _ Hns Hget) as Hsecns.
  destruct sec as [| | | | |sattrs]; try discriminate.
  exists (PyNs (Ns.set s (PyNs (Ns.set k v sattrs)) attrs)).
  split; [unfold set_option; simpl; now rewrite Hget|].
  split.
  { apply cfg_ok_intro; [now apply Ns_set_sections|].
    intros s0 Hs0. apply Ns_get_set_is_Some, Hsec, Hs0. }
  split.
  { unfold get_option. simpl. rewrite Ns_get_set_eq. simpl.
    now rewrite Ns_get_set_eq. }
  intros s' k' Hne. unfold get_option. simpl.
  destruct (String.eqb_spec s s') as [<-|Hss].
  - rewrite Ns_get_set_eq, Hget. simpl.
    destruct Hne as [Hne|Hne]; [congruence|].
    rewrite Ns_get_set_ne by congruence. reflexivity.
  - now rewrite Ns_get_set_ne.
Qed.

Lemma override_step_ok (args : args_t) (cfg : pyval)
    (entry : string * (string * string)) (vb : pyval) :
  args !! "verbose" = Some vb -> cfg_ok cfg = true ->
  In (fst (snd entry)) section_names ->
  exists cfg', override_step args cfg entry = Ok cfg' /\ cfg_ok cfg' = true.
Proof.
  intros Hvb Hok Hin. destruct entry as [a [s k]]. simpl in Hin.
  unfold override_step. destruct (args !! a) as [v|]; [|eauto].
  destruct (is_None v); [eauto|].
  destruct (set_option_spec cfg s k v Hok Hin) as (cfg' & Hset & Hok' & _).
  exists cfg'. now rewrite Hset, rbind_Ok, (arg_some _ _ _ Hvb).
Qed.

Lemma override_loop_ok (args : args_t) (vb : pyval)
    (mapping : list (string * (string * string))) :
  args !! "verbose" = Some vb ->
  Forall (fun entry => In (fst (snd entry)) section_names) mapping ->
  forall cfg, cfg_ok cfg = true ->
  exists cfg', override_loop args cfg mapping = Ok cfg' /\ cfg_ok cfg' = true.
Proof.
  intros Hvb. induction 1 as [|entry mapping Hin _ IH]; intros cfg Hok; simpl.
  - eauto.
  - destruct (override_step_ok args cfg entry vb Hvb Hok Hin) as (cfg1 & -> & Hok1).
    rewrite rbind_Ok. now apply IH.
Qed.

Lemma override_mapping_sections :
  Forall (fun entry => In (fst (snd entry)) section_names) override_mapping.
Proof.
  unfold override_mapping, section_names.
  repeat (apply List.Forall_cons;
          [simpl; repeat ((left; reflexivity) || right)|]).
  apply List.Forall_nil.
Qed.

(** The override step succeeds on a well-formed configuration; with the
    disable-skew flag set it leaves [SKEW_ANGLE] at 0 and [RANDOM_SKEW] at
    [False] in the configuration. *)
Lemma apply_command_line_overrides_ok (args : args_t) (cfg : pyval)
    (vb ns : pyval) (color : option string) :
  args !! "verbose" = Some vb ->
  args !! "no_skew" = Some ns ->
  args !! "color" = Some (opt_str color) ->
  cfg_ok cfg = true ->
  exists cfg',
    apply_command_line_overrides args cfg = Ok cfg' /\ cfg_ok cfg' = true /\
    (truthy ns = true ->
     get_option cfg' "DISTORTION_SETTINGS" "SKEW_ANGLE" = Ok (PyInt 0) /\
     get_option cfg' "DISTORTION_SETTINGS" "RANDOM_SKEW" = Ok (PyBool false)).
Proof.
  intros Hvb Hns Hcol Hok. unfold apply_command_line_overrides.
  destruct (override_loop_ok args vb override_mapping Hvb override_mapping_sections
              cfg Hok) as (cfg1 & -> & Hok1).
  rewrite rbind_Ok, (arg_some _ _ _ Hns), rbind_Ok.
  assert (Hskew : exists cfg2,
             (if truthy ns
              then let* c := set_option cfg1 "DISTORTION_SETTINGS" "SKEW_ANGLE" (PyInt 0) in
                   let* c := set_option c "DISTORTION_SETTINGS" "RANDOM_SKEW" (PyBool false) in
                   let* _ := arg args "verbose" in Ok c
              else Ok cfg1) = Ok cfg2 /\ cfg_ok cfg2 = true /\
             (truthy ns = true ->
              get_option cfg2 "DISTORTION_SETTINGS" "SKEW_ANGLE" = Ok (PyInt 0) /\
              get_option cfg2 "DISTORTION_SETTINGS" "RANDOM_SKEW" = Ok (PyBool false))).
  { destruct (truthy ns); [|exists cfg1; repeat split; auto; discriminate].
    destruct (set_option_spec cfg1 "DISTORTION_SETTINGS" "SKEW_ANGLE" (PyInt 0) Hok1)
      as (c1 & -> & Hc1 & Hg1 & _); [simpl; tauto|].
    rewrite rbind_Ok.
    destruct (set_option_spec c1 "DISTORTION_SETTINGS" "RANDOM_SKEW" (PyBool false) Hc1)
      as (c2 & -> & Hc2 & Hg2 & Hother); [simpl; tauto|].
    exists c2. rewrite !rbind_Ok, (arg_some _ _ _ Hvb), rbind_Ok.
    repeat split; auto.
    rewrite Hother; [exact Hg1 | right; discriminate]. }
  destruct Hskew as (cfg2 & -> & Hok2 & Hg). rewrite rbind_Ok.
  rewrite (arg_some _ _ _ Hcol), rbind_Ok.
  destruct color as [c|]; simpl opt_str; [|exists cfg2; auto].
  destruct (truthy (PyStr c)); [|exists cfg2; auto].
  simpl as_str. rewrite rbind_Ok.
  destruct (negb (Str.startswith "(" c)); [|exists cfg2; auto].
  destruct (set_option_spec cfg2 "TEXT_SETTINGS" "COLOR" (PyStr ("(" ++ c ++ ")")) Hok2)
    as (c3 & -> & Hc3 & _ & Hother); [simpl; tauto|].
  exists c3. repeat split; auto.
  - rewrite Hother; [now apply Hg | left; discriminate].
  - rewrite Hother; [now apply Hg | left; discriminate].
Qed.

(** ** Flattening the configuration into the arguments *)

Lemma flatten_option_keeps (args : args_t) (kv : string * pyval) (k : string) (v : pyval) :
  args !! k = Some v -> is_None v = false ->
  flatten_option args kv !! k = Some v.
Proof.
  intros Hk Hv. destruct kv as [key value]. unfold flatten_option.
  destruct (decide (Str.lower key = k)) as [->|Hne].
  - now rewrite Hk, Hv.
  - destruct (args !! Str.lower key) as [v0|]; [destruct (is_None v0)|];
      rewrite ?lookup_insert_ne by exact Hne; exact Hk.
Qed.

Lemma flatten_items_keep (items : Ns.t) (k : string) (v : pyval) :
  is_None v = false ->
  forall args : args_t, args !! k = Some v ->
    fold_left flatten_option items args !! k = Some v.
Proof.
  intros Hv. induction items as [|kv items IH]; intros args Hk; simpl.
  - exact Hk.
  - apply IH. now apply flatten_option_keeps.
Qed.

Lemma flatten_sections_ok (sections : list pyval) :
  forallb is_ns sections = true ->
  forall args : args_t, exists args',
    flatten_sections args sections = Ok args' /\
    forall k v, args !! k = Some v -> is_None v = false -> args' !! k = Some v.
Proof.
  induction sections as [|section rest IH]; intros Hns args; simpl.
  - exists args. auto.
  - simpl in Hns. apply andb_true_iff in Hns as [Hs Hrest].
    destruct section as [| | | | |items]; try discriminate.
    unfold flatten_section. simpl py_dict. rewrite !rbind_Ok.
    destruct (IH Hrest (fold_left flatten_option items args)) as (args' & -> & Hkeep).
    exists args'. split; [reflexivity|].
    intros k v Hk Hv. apply Hkeep; [|exact Hv]. now apply flatten_items_keep.
Qed.

(** Flattening a well-formed configuration succeeds, and an argument that
    holds a value other than [None] keeps it. *)
Lemma flatten_config_ok (cfg : pyval) (args : args_t) :
  cfg_ok cfg = true ->
  exists args',
    flatten_config cfg args = Ok args' /\
    forall k v, args !! k = Some v -> is_None v = false -> args' !! k = Some v.
Proof.
  intros Hok. apply cfg_ok_inv in Hok as (attrs & -> & Hns & _).
  unfold flatten_config. simpl py_dict. rewrite rbind_Ok.
  apply flatten_sections_ok.
  clear -Hns. induction attrs as [|[k v] attrs IH]; simpl in *; [reflexivity|].
  apply andb_true_iff in Hns as [H1 H2]. now rewrite H1, IH.
Qed.

(** ** The quick-start preset *)

(** The preset on the parsed arguments: which attributes it assigns, by
    the sample corpus found, and that it touches no other attribute. *)
Lemma quick_start_samples (fs : filesystem) (args : args_t) (w : Z) :
  args !! "num_workers" = Some (PyInt w) ->
  exists args',
    apply_quick_start_settings fs args = Ok args' /\
    args' !! "count" = Some (PyInt 100) /\
    args' !! "num_workers" = Some (PyInt (Z.min 4 w)) /\
    (Path.exists_ fs (Path.norm "texts/sample_chinese.txt") = true ->
       args' !! "corpus" = Some (PyStr "texts/sample_chinese.txt")) /\
    (Path.exists_ fs (Path.norm "texts/sample_chinese.txt") = false ->
     Path.exists_ fs (Path.norm "texts/sample_english.txt") = true ->
       args' !! "corpus" = Some (PyStr "texts/sample_english.txt") /\
       args' !! "language" = Some (PyStr "en") /\
       args' !! "fonts" = Some (PyStr "en")) /\
    forall k, ~ In k (preset_sets fs) -> args' !! k = args !! k.
Proof.
  intros Hw. unfold apply_quick_start_settings, preset_sets.
  rewrite lookup_insert_ne by discriminate. rewrite Hw. simpl min_4. rewrite rbind_Ok.
  assert (Hmin : (if w <? 4 then PyInt w else PyInt 4) = PyInt (Z.min 4 w)).
  { destruct (Z.ltb_spec w 4); f_equal; lia. }
  rewrite Hmin.
  destruct (Path.exists_ fs (Path.norm "texts/sample_chinese.txt"));
    [|destruct (Path.exists_ fs (Path.norm "texts/sample_english.txt"))];
    eexists; (split; [reflexivity|]); (split; [|split; [|split; [|split]]]).
  all: try (rewrite ?lookup_insert_ne by discriminate; apply lookup_insert_eq).
  all: try (intros; discriminate).
  all: try (intros _; apply lookup_insert_eq).
  all: try (intros _ _; repeat split;
            rewrite ?lookup_insert_ne by discriminate; apply lookup_insert_eq).
  all: intros k Hk; simpl in Hk;
    rewrite ?lookup_insert_ne by (intros <-; tauto); reflexivity.
Qed.

(** ** Resolution *)

(** C1 (amended). With the quick-start preset requested and a worker count
    given, resolution succeeds on a well-formed configuration; the preset
    is written into the parsed arguments before the override step, so the
    fields it sets hold the preset's values whatever was given explicitly:
    the item count is 100, the worker count is capped at 4, the corpus is
    the Chinese sample when that file exists, and otherwise, when the
    English sample exists, the corpus is the English sample and language
    and fonts are [en].  Every explicitly given field that the preset does
    not set holds the explicit value. *)
Theorem quick_start_preset_overwrites_its_fields
    (fs : filesystem) (c : cli) (cfg : pyval) (w : Z) :
  cli_quick_start c = true ->
  cli_num_workers c = Some w ->
  cfg_ok cfg = true ->
  exists args cfg',
    resolve fs (parse_args c) cfg = Ok (args, cfg') /\
    args !! "count" = Some (PyInt 100) /\
    args !! "num_workers" = Some (PyInt (Z.min 4 w)) /\
    (Path.exists_ fs (Path.norm "texts/sample_chinese.txt") = true ->
       args !! "corpus" = Some (PyStr "texts/sample_chinese.txt")) /\
    (Path.exists_ fs (Path.norm "texts/sample_chinese.txt") = false ->
     Path.exists_ fs (Path.norm "texts/sample_english.txt") = true ->
       args !! "corpus" = Some (PyStr "texts/sample_english.txt") /\
       args !! "language" = Some (PyStr "en") /\
       args !! "fonts" = Some (PyStr "en")) /\
    forall k v, ~ In k (preset_sets fs) ->
      parse_args c !! k = Some v -> is_None v = false -> args !! k = Some v.
Proof.
  intros Hq Hw Hok. unfold resolve.
  assert (Hqs : arg (parse_args c) "quick_start" = Ok (PyBool (cli_quick_start c)))
    by reflexivity.
  rewrite Hqs, Hq, rbind_Ok. simpl truthy. cbv iota.
  assert (Hpw : parse_args c !! "num_workers" = Some (opt_int (cli_num_workers c)))
    by reflexivity.
  rewrite Hw in Hpw. simpl opt_int in Hpw.
  destruct (quick_start_samples fs (parse_args c) w Hpw)
    as (args1 & -> & Hcount & Hnw & Hch & Hen & Hsame).
  rewrite rbind_Ok.
  assert (Hnotin : forall k, In k ["verbose"; "no_skew"; "color"] -> ~ In k (preset_sets fs)).
  { intros k Hk Hin. unfold preset_sets in Hin.
    destruct (Path.exists_ fs (Path.norm "texts/sample_chinese.txt"));
      [|destruct (Path.exists_ fs (Path.norm "texts/sample_english.txt"))];
      simpl in Hk, Hin;
      repeat destruct Hk as [<-|Hk]; try contradiction;
      repeat destruct Hin as [Hin|Hin]; try discriminate; contradiction. }
  destruct (apply_command_line_overrides_ok args1 cfg
              (PyBool (cli_verbose c)) (PyBool (cli_no_skew c)) (cli_color c))
    as (cfg' & -> & Hok' & _); [..|exact Hok|].
  1-3: rewrite Hsame by (apply Hnotin; simpl; tauto); reflexivity.
  rewrite rbind_Ok.
  destruct (flatten_config_ok cfg' args1 Hok') as (args2 & -> & Hkeep).
  rewrite rbind_Ok. exists args2, cfg'. split; [reflexivity|].
  split; [now apply Hkeep|]. split; [now apply Hkeep|].
  split; [intros H; now apply Hkeep; [apply Hch|]|].
  split.
  { intros H1 H2. destruct (Hen H1 H2) as (Ha & Hb & Hc).
    repeat split; now apply Hkeep. }
  intros k v Hk Hv Hnone. apply Hkeep; [|exact Hnone]. now rewrite Hsame.
Qed.

(** The configuration that setup.py writes to configs/quick_start.yaml. *)
Definition cfg_quick_start_yaml : pyval := PyNs [
  ("FILE_SETTINGS",
   PyNs [("OUTPUT_DIR", PyStr "output/images"); ("EXTENSION", PyStr "jpg");
         ("NAME_FORMAT", PyInt 2); ("FONTS", PyStr "ch")]);
  ("TEXT_SETTINGS",
   PyNs [("LANGUAGE", PyStr "ch"); ("CORPUS", PyStr "texts/sample_chinese.txt");
         ("CORPUS_TYPE", PyStr "CORPUS"); ("SIZE", PyInt 32);
         ("COLOR", PyStr "(0,0,0)"); ("STROKE_WIDTH", PyInt 0);
         ("STROKE_FILL", PyStr "(0,0,0)"); ("HEIGHT", PyInt 0)]);
  ("IMAGE_FORMAT_SETTINGS",
   PyNs [("WIDTH", PyInt 0); ("ORIENTATION", PyInt 0); ("SPACE_WIDTH", PyFloat 1);
         ("MARGINS", PyStr "5,4,5,4"); ("FIT", PyBool false)]);
  ("DISTORTION_SETTINGS",
   PyNs [("SKEW_ANGLE", PyInt 5); ("RANDOM_SKEW", PyBool true)]);
  ("OTHER_SETTINGS", PyNs [("NUM_WORKERS", PyInt 4)])].

(** No option given. *)
Definition cli_none : cli :=
  {| cli_cfg := None; cli_quick_start := false; cli_output_dir := None;
     cli_language := None; cli_corpus := None; cli_count := None;
     cli_fonts := None; cli_size := None; cli_color := None; cli_width := None;
     cli_height := None; cli_extension := None; cli_margins := None;
     cli_skew_angle := None; cli_no_skew := false; cli_num_workers := None;
     cli_verbose := false; cli_dry_run := false; cli_diagnose := false |}.

(** [--quick-start --count 500 --num_workers 2 --size 48] *)
Definition cli_quick_count_500 : cli :=
  {| cli_cfg := None; cli_quick_start := true; cli_output_dir := None;
     cli_language := None; cli_corpus := None; cli_count := Some 500;
     cli_fonts := None; cli_size := Some 48; cli_color := None; cli_width := None;
     cli_height := None; cli_extension := None; cli_margins := None;
     cli_skew_angle := None; cli_no_skew := false; cli_num_workers := Some 2;
     cli_verbose := false; cli_dry_run := false; cli_diagnose := false |}.

Definition fs_empty : filesystem := fun _ => None.

(** The English sample alone is installed. *)
Definition fs_sample_english : filesystem := fun p =>
  if String.eqb p "texts" then Some (Dir ["sample_english.txt"])
  else if String.eqb p "texts/sample_english.txt"
       then Some (File [72%N; 101%N; 108%N; 108%N; 111%N])
       else None.

(** [--quick-start --count 500 --num_workers 2 --size 48 --language ch] *)
Definition cli_quick_language_ch : cli :=
  {| cli_cfg := None; cli_quick_start := true; cli_output_dir := None;
     cli_language := Some "ch"; cli_corpus := None; cli_count := Some 500;
     cli_fonts := None; cli_size := Some 48; cli_color := None; cli_width := None;
     cli_height := None; cli_extension := None; cli_margins := None;
     cli_skew_angle := None; cli_no_skew := false; cli_num_workers := Some 2;
     cli_verbose := false; cli_dry_run := false; cli_diagnose := false |}.

Lemma quick_start_preset_overwrites_its_fields_witness :
  exists args cfg',
    resolve fs_sample_english (parse_args cli_quick_language_ch) cfg_quick_start_yaml
    = Ok (args, cfg') /\
    args !! "count" = Some (PyInt 100) /\
    args !! "num_workers" = Some (PyInt 2) /\
    args !! "corpus" = Some (PyStr "texts/sample_english.txt") /\
    args !! "language" = Some (PyStr "en") /\
    args !! "fonts" = Some (PyStr "en") /\
    args !! "size" = Some (PyInt 48).
Proof.
  destruct (quick_start_preset_overwrites_its_fields fs_sample_english
              cli_quick_language_ch cfg_quick_start_yaml 2 eq_refl eq_refl eq_refl)
    as (args & cfg' & Hres & Hcount & Hnw & _ & Hen & Hkeep).
  destruct (Hen eq_refl eq_refl) as (Hc & Hl & Hf).
  exists args, cfg'. repeat split; try assumption.
  apply Hkeep; [|reflexivity|reflexivity].
  vm_compute. intros [H|[H|[H|[H|[H|[]]]]]]; discriminate.
Defined.

(** C1, as stated, fails: with the preset and an explicit item count of
    500, the resolved item count is the preset's 100. *)
Lemma quick_start_discards_explicit_count :
  parse_args cli_quick_count_500 !! "count" = Some (PyInt 500) /\
  resolved_arg "count"
    (resolve fs_empty (parse_args cli_quick_count_500) cfg_quick_start_yaml)
  = Some (PyInt 100) /\
  resolved_option "OTHER_SETTINGS" "COUNT"
    (resolve fs_empty (parse_args cli_quick_count_500) cfg_quick_start_yaml)
  = Ok (PyInt 100).
Proof. repeat split; vm_compute; reflexivity. Qed.

(** ** The disable-skew flag *)

Ltac inv_bind H :=
  repeat (let x := fresh "x" in let Hx := fresh "Hx" in
          apply rbind_ok in H as (x & Hx & H)).

Lemma build_param_tuple_skew (args : args_t) font_paths output_dir palette
    margins_str (i : nat) (text : Text.t) (job : JobDescriptor) (v : pyval) :
  build_param_tuple args font_paths output_dir palette margins_str i text = Ok job ->
  args !! "skew_angle" = Some v -> jd_skew_angle job = v.
Proof.
  intros H Hv. unfold build_param_tuple in H. inv_bind H.
  injection H as <-. simpl. rewrite (arg_some _ _ _ Hv) in Hx2. congruence.
Qed.

Lemma build_loop_skew (args : args_t) font_paths output_dir palette margins_str
    (v : pyval) (strings : list Text.t) :
  args !! "skew_angle" = Some v ->
  forall i jobs,
    build_loop args font_paths output_dir palette margins_str i strings = Ok jobs ->
    Forall (fun job => jd_skew_angle job = v) jobs.
Proof.
  intros Hv. induction strings as [|text rest IH]; intros i jobs H; simpl in H.
  - injection H as <-. constructor.
  - apply rbind_ok in H as (job & Hjob & H).
    apply rbind_ok in H as (jobs' & Hjobs & H). injection H as <-.
    constructor; [eapply build_param_tuple_skew; eassumption | eapply IH; eassumption].
Qed.

(** C2 (what the code does). With the disable-skew flag and an explicit
    skew angle [a], resolution succeeds on a well-formed configuration and
    puts 0 and [False] in the configuration, but the flattened arguments
    keep the explicit angle, and every job descriptor built from them
    carries [a], not 0. *)
Theorem no_skew_loses_to_explicit_skew_angle
    (fs : filesystem) (c : cli) (cfg : pyval) (a : Z) :
  cli_quick_start c = false ->
  cli_no_skew c = true ->
  cli_skew_angle c = Some a ->
  cfg_ok cfg = true ->
  exists args cfg',
    resolve fs (parse_args c) cfg = Ok (args, cfg') /\
    get_option cfg' "DISTORTION_SETTINGS" "SKEW_ANGLE" = Ok (PyInt 0) /\
    get_option cfg' "DISTORTION_SETTINGS" "RANDOM_SKEW" = Ok (PyBool false) /\
    args !! "skew_angle" = Some (PyInt a) /\
    forall strings font_paths output_dir palette jobs,
      build_image_params args strings font_paths output_dir palette = Ok jobs ->
      Forall (fun job => jd_skew_angle job = PyInt a) jobs.
Proof.
  intros Hq Hns Ha Hok. unfold resolve.
  assert (Hqs : arg (parse_args c) "quick_start" = Ok (PyBool (cli_quick_start c)))
    by reflexivity.
  rewrite Hqs, Hq, rbind_Ok. simpl truthy. cbv iota. rewrite rbind_Ok.
  destruct (apply_command_line_overrides_ok (parse_args c) cfg
              (PyBool (cli_verbose c)) (PyBool (cli_no_skew c)) (cli_color c))
    as (cfg' & -> & Hok' & Hskew); [reflexivity..|exact Hok|].
  rewrite rbind_Ok.
  destruct (flatten_config_ok cfg' (parse_args c) Hok') as (args2 & -> & Hkeep).
  rewrite rbind_Ok. exists args2, cfg'. split; [reflexivity|].
  rewrite Hns in Hskew. destruct (Hskew eq_refl) as [H0 H1].
  split; [exact H0|]. split; [exact H1|].
  assert (Hgiven : parse_args c !! "skew_angle" = Some (opt_int (cli_skew_angle c)))
    by reflexivity.
  rewrite Ha in Hgiven. simpl opt_int in Hgiven.
  assert (Hangle : args2 !! "skew_angle" = Some (PyInt a))
    by (apply Hkeep; [exact Hgiven | reflexivity]).
  split; [exact Hangle|].
  intros strings font_paths output_dir palette jobs Hjobs.
  unfold build_image_params in Hjobs.
  apply rbind_ok in Hjobs as (m & _ & Hjobs).
  eapply build_loop_skew; eassumption.
Qed.

(** [--no_skew --skew_angle 15] *)
Definition cli_no_skew_15 : cli :=
  {| cli_cfg := None; cli_quick_start := false; cli_output_dir := None;
     cli_language := None; cli_corpus := None; cli_count := None;
     cli_fonts := None; cli_size := None; cli_color := None; cli_width := None;
     cli_height := None; cli_extension := None; cli_margins := None;
     cli_skew_angle := Some 15; cli_no_skew := true; cli_num_workers := None;
     cli_verbose := false; cli_dry_run := false; cli_diagnose := false |}.

Lemma no_skew_loses_to_explicit_skew_angle_witness :
  exists args cfg',
    resolve fs_empty (parse_args cli_no_skew_15) cfg_quick_start_yaml = Ok (args, cfg') /\
    get_option cfg' "DISTORTION_SETTINGS" "SKEW_ANGLE" = Ok (PyInt 0) /\
    args !! "skew_angle" = Some (PyInt 15).
Proof.
  destruct (no_skew_loses_to_explicit_skew_angle fs_empty cli_no_skew_15
              cfg_quick_start_yaml 15 eq_refl eq_refl eq_refl eq_refl)
    as (args & cfg' & Hres & H0 & _ & Hangle & _).
  exists args, cfg'. auto.
Defined.

(** Without an explicit angle the flag does reach the arguments. *)
Example no_skew_alone_gives_zero :
  (fun r => match r with
            | Ok (args, _) => (args !! "skew_angle", args !! "random_skew")
            | Raise _ => (None, None)
            end)
    (resolve fs_empty
       (parse_args {| cli_cfg := None; cli_quick_start := false; cli_output_dir := None;
                      cli_language := None; cli_corpus := None; cli_count := None;
                      cli_fonts := None; cli_size := None; cli_color := None;
                      cli_width := None; cli_height := None; cli_extension := None;
                      cli_margins := None; cli_skew_angle := None; cli_no_skew := true;
                      cli_num_workers := None; cli_verbose := false;
                      cli_dry_run := false; cli_diagnose := false |})
       cfg_quick_start_yaml)
  = (Some (PyInt 0), Some (PyBool false)).
Proof. vm_compute. reflexivity. Qed.

(** ** The augmentation pipeline *)

Section AugmentationProps.

Variable PyRng NpRng : Type.
Variable random_random : PyRng -> Q * PyRng.
Variable standard_normal : NpRng -> Q * NpRng.
Variable round64 round32 : Q -> Q.
Variable GaussianBlur : Q -> Image -> Image.
Variable Brightness_enhance : Q -> Image -> Image.
Variable Contrast_enhance : Q -> Image -> Image.

(** [random.random()] is in the half-open interval from 0 to 1. *)
Hypothesis random_range :
  forall g, (0 <= fst (random_random g) /\ fst (random_random g) < 1)%Q.

Local Abbreviation state := (rng PyRng NpRng).
Local Abbreviation coin := (after_coin random_random).
Local Abbreviation toss := (draw random_random).
Local Abbreviation stages :=
  (augs_with PyRng NpRng random_random standard_normal round64 round32
     GaussianBlur Brightness_enhance Contrast_enhance).
Local Abbreviation run := (apply_stages PyRng NpRng).
Local Abbreviation blur :=
  (blur_effect PyRng NpRng random_random round64 GaussianBlur).
Local Abbreviation brighten :=
  (brightness_effect PyRng NpRng random_random round64 Brightness_enhance).
Local Abbreviation stretch :=
  (contrast_effect PyRng NpRng random_random round64 Contrast_enhance).
Local Abbreviation noise :=
  (noise_effect PyRng NpRng standard_normal round64 round32).


Lemma rand_bool_0 (s : state) :
  _rand_bool PyRng NpRng random_random 0 s = (false, coin s).
Proof.
  unfold _rand_bool, after_coin. destruct (random_range (py_rng _ _ s)) as [H0 _].
  destruct (random_random (py_rng _ _ s)) as [u g]. simpl in *.
  unfold Qltb. apply Qle_bool_iff in H0. now rewrite H0.
Qed.










End AugmentationProps.

(** Stand-ins for the generators and for Pillow: [random()] is always one
    half, every normal deviate is 1, and the three Pillow effects tag the
    image mode with their name. *)
Definition half_rng (g : nat) : Q * nat := (1 # 2, S g).
Definition unit_normal (g : nat) : Q * nat := (1%Q, S g).
Definition tag (name : string) (parameter : Q) (img : Image) : Image :=
  {| im_mode := im_mode img ++ name; im_size := im_size img; im_data := im_data img |}.

Lemma half_rng_range (g : nat) :
  (0 <= fst (half_rng g) /\ fst (half_rng g) < 1)%Q.
Proof. unfold Qle, Qlt. simpl. lia. Qed.

(** [random()] is always one tenth: every coin of the pipeline fires. *)
Definition tenth_rng (g : nat) : Q * nat := (1 # 10, S g).

Lemma tenth_rng_range (g : nat) :
  (0 <= fst (tenth_rng g) /\ fst (tenth_rng g) < 1)%Q.
Proof. unfold Qle, Qlt. simpl. lia. Qed.

Definition img_demo : Image :=
  {| im_mode := "L"; im_size := (1%nat, 3%nat); im_data := [100; 250; 3] |}.


Example pipeline_all_fire_order :
  apply_augmentations nat nat tenth_rng unit_normal exact exact
    (tag "+blur") (tag "+brightness") (tag "+contrast")
    img_demo {| py_rng := 0%nat; np_rng := 0%nat |}
  = Ok ({| im_mode := "L+blur+brightness+contrast"; im_size := (1%nat, 3%nat);
           im_data := [108; 255; 11] |},
        {| py_rng := 7%nat; np_rng := 3%nat |}).
Proof. vm_compute. reflexivity. Qed.

Example pipeline_all_zero_identity :
  apply_stages nat nat
    (augs_with nat nat half_rng unit_normal exact exact
       (tag "+blur") (tag "+brightness") (tag "+contrast") 0 0 0 0 f_8_0)
    img_demo {| py_rng := 0%nat; np_rng := 0%nat |}
  = Ok (img_demo, {| py_rng := 4%nat; np_rng := 0%nat |}).
Proof. vm_compute. reflexivity. Qed.

Example pipeline_all_one_order :
  apply_stages nat nat
    (augs_with nat nat half_rng unit_normal exact exact
       (tag "+blur") (tag "+brightness") (tag "+contrast") 1 1 1 1 f_8_0)
    img_demo {| py_rng := 0%nat; np_rng := 0%nat |}
  = Ok ({| im_mode := "L+blur+brightness+contrast"; im_size := (1%nat, 3%nat);
           im_data := [108; 255; 11] |},
        {| py_rng := 7%nat; np_rng := 3%nat |}).
Proof. vm_compute. reflexivity. Qed.

(** ** The noise stage *)

Section NoiseProps.

Variable NpRng : Type.
Variable standard_normal : NpRng -> Q * NpRng.
Variable round64 round32 : Q -> Q.

Lemma normal_fill_is_scaled_deviates (loc scale : Q) (n : nat) :
  forall g,
    fst (normal_fill NpRng standard_normal round64 loc scale n g)
    = map (fun z => round64 (loc + round64 (scale * z)))
        (standard_normals standard_normal n g).
Proof.
  induction n as [|n IH]; intros g; simpl; [reflexivity|].
  destruct (standard_normal g) as [z g'].
  specialize (IH g').
  destruct (normal_fill NpRng standard_normal round64 loc scale n g') as [rest g''].
  simpl in *. now rewrite IH.
Qed.

(** [np.random.normal] returns for a scale that is not negative, and
    raises for a negative one. *)
Lemma normal_nonneg (loc scale : Q) (n : nat) (g : NpRng) :
  (0 <= scale)%Q ->
  normal NpRng standard_normal round64 loc scale n g
  = Ok (normal_fill NpRng standard_normal round64 loc scale n g).
Proof.
  intros H. unfold normal, Qltb. apply Qle_bool_iff in H. now rewrite H.
Qed.

Lemma normal_negative (loc scale : Q) (n : nat) (g : NpRng) :
  (scale < 0)%Q ->
  normal NpRng standard_normal round64 loc scale n g = Raise ValueError.
Proof.
  intros H. unfold normal, Qltb.
  destruct (Qle_bool 0 scale) eqn:E; [|reflexivity].
  apply Qle_bool_iff in E. exfalso. exact (Qlt_not_le _ _ H E).
Qed.

Lemma normal_ok_inv (loc scale : Q) (n : nat) (g : NpRng) r :
  normal NpRng standard_normal round64 loc scale n g = Ok r ->
  r = normal_fill NpRng standard_normal round64 loc scale n g.
Proof.
  unfold normal. destruct (Qltb scale 0); [discriminate|]. now intros [= <-].
Qed.

Lemma clip_range (x : Q) : (0 <= clip 0 255 x /\ clip 0 255 x <= 255)%Q.
Proof.
  unfold clip, Qltb.
  destruct (Qle_bool 0 x) eqn:E0; simpl.
  - destruct (Qle_bool x 255) eqn:E1; simpl.
    + apply Qle_bool_iff in E0, E1. auto.
    + split; discriminate.
  - split; discriminate.
Qed.

Lemma astype_uint8_range (x : Q) :
  (0 <= x)%Q -> (x <= 255)%Q -> 0 <= astype_uint8 x <= 255.
Proof.
  unfold Qle, astype_uint8. destruct x as [num den]. simpl. intros H0 H1.
  assert (0 <= num) by lia.
  rewrite Z.quot_div_nonneg by lia. split.
  - apply Z.div_pos; lia.
  - apply Z.div_le_upper_bound; lia.
Qed.

(** What the noise effect returns, from the array [np.random.normal]
    filled. *)
Lemma noise_effect_ok_inv (PyRng : Type) (var : Q) (img : Image)
    (s : rng PyRng NpRng) (out : Image) (s' : rng PyRng NpRng) :
  noise_effect PyRng NpRng standard_normal round64 round32 var img s = Ok (out, s') ->
  out = {| im_mode := im_mode img; im_size := im_size img;
           im_data :=
             map (fun x => astype_uint8 (clip 0 255 x))
               (map (fun an => round32 (fst an + snd an))
                  (combine (map inject_Z (im_data img))
                     (map round32
                        (fst (normal_fill NpRng standard_normal round64 0 var
                                (length (map inject_Z (im_data img)))
                                (np_rng _ _ s)))))) |} /\
  s' = {| py_rng := py_rng _ _ s;
          np_rng := snd (normal_fill NpRng standard_normal round64 0 var
                           (length (map inject_Z (im_data img))) (np_rng _ _ s)) |}.
Proof.
  unfold noise_effect. intros H.
  apply rbind_ok in H as ([ns g] & Hn & H).
  apply normal_ok_inv in Hn. rewrite <- Hn. simpl.
  now injection H as <- <-.
Qed.

Lemma noise_effect_nonneg (PyRng : Type) (var : Q) (img : Image)
    (s : rng PyRng NpRng) :
  (0 <= var)%Q ->
  exists out s',
    noise_effect PyRng NpRng standard_normal round64 round32 var img s = Ok (out, s').
Proof.
  intros H. unfold noise_effect. rewrite (normal_nonneg _ _ _ _ H), rbind_Ok.
  destruct (normal_fill _ _ _ _ _ _ _) as [ns g]. eauto.
Qed.

Lemma noise_effect_negative (PyRng : Type) (var : Q) (img : Image)
    (s : rng PyRng NpRng) :
  (var < 0)%Q ->
  noise_effect PyRng NpRng standard_normal round64 round32 var img s
  = Raise ValueError.
Proof.
  intros H. unfold noise_effect. now rewrite (normal_negative _ _ _ _ H).
Qed.

(** Every channel the noise stage writes is within 0..255, whatever the
    rounding does. *)
Lemma noise_effect_clipped (PyRng : Type) (var : Q) (img : Image)
    (s : rng PyRng NpRng) (out : Image) (s' : rng PyRng NpRng) :
  noise_effect PyRng NpRng standard_normal round64 round32 var img s = Ok (out, s') ->
  Forall (fun v => 0 <= v <= 255) (im_data out).
Proof.
  intros H. apply noise_effect_ok_inv in H as [-> _]. simpl.
  apply Forall_forall. intros v Hin.
  apply list_elem_of_In, in_map_iff in Hin as (x & <- & _).
  destruct (clip_range x). now apply astype_uint8_range.
Qed.

End NoiseProps.

Lemma sum_squares_scaled (k : Q) (zs : list Q) :
  (sum_squares (map (fun z => 0 + k * z) zs) == k * k * sum_squares zs)%Q.
Proof.
  induction zs as [|z zs IH]; simpl.
  - ring.
  - rewrite IH. ring.
Qed.

Lemma combine_map_both {A B C D} (f : A -> C) (g : B -> D) (l : list A) (l' : list B) :
  combine (map f l) (map g l') = map (fun ab => (f (fst ab), g (snd ab))) (combine l l').
Proof.
  revert l'. induction l as [|a l IH]; intros [|b l']; simpl; try reflexivity.
  now rewrite IH.
Qed.

Lemma combine_map_r {A B D} (g : B -> D) (l : list A) (l' : list B) :
  combine l (map g l') = map (fun ab => (fst ab, g (snd ab))) (combine l l').
Proof.
  revert l'. induction l as [|a l IH]; intros [|b l']; simpl; try reflexivity.
  now rewrite IH.
Qed.

(** C8 (what the code does). When the stage fires it runs the noise
    effect.  In exact arithmetic and for a [var] that is not negative, the
    effect adds to each channel [var] times the next standard normal
    deviate, drops what falls outside 0..255 and the fraction: [var] is the
    standard deviation of the noise added, so its second moment is
    [var * var] times that of the deviates, 64 times for the default [var]
    of 8.0 and not 8 times.  The channels written are within 0..255.  A
    negative [var] raises [ValueError]. *)
Theorem noise_second_moment_is_var_squared
    (PyRng NpRng : Type) (random_random : PyRng -> Q * PyRng)
    (standard_normal : NpRng -> Q * NpRng) :
  (forall p var img (s : rng PyRng NpRng),
      Qltb (draw random_random s) p = true ->
      add_gaussian_noise PyRng NpRng random_random standard_normal exact exact
        img p var s
      = noise_effect PyRng NpRng standard_normal exact exact var img
          (after_coin random_random s)) /\
  (forall var img (s : rng PyRng NpRng),
      (0 <= var)%Q ->
      exists added g',
        added = map (fun z => (0 + var * z)%Q)
                  (standard_normals standard_normal (length (im_data img))
                     (np_rng _ _ s)) /\
        noise_effect PyRng NpRng standard_normal exact exact var img s
        = Ok ({| im_mode := im_mode img; im_size := im_size img;
                 im_data :=
                   map (fun an => astype_uint8
                                    (clip 0 255 (inject_Z (fst an) + snd an)%Q))
                     (combine (im_data img) added) |},
              {| py_rng := py_rng _ _ s; np_rng := g' |}) /\
        (sum_squares added
         == var * var
            * sum_squares (standard_normals standard_normal (length (im_data img))
                             (np_rng _ _ s)))%Q) /\
  (forall zs,
      (sum_squares (map (fun z => 0 + f_8_0 * z) zs) == 64 * sum_squares zs)%Q) /\
  (forall var img (s : rng PyRng NpRng) out s',
      noise_effect PyRng NpRng standard_normal exact exact var img s = Ok (out, s') ->
      Forall (fun v => 0 <= v <= 255) (im_data out)) /\
  (forall var img (s : rng PyRng NpRng),
      (var < 0)%Q ->
      noise_effect PyRng NpRng standard_normal exact exact var img s
      = Raise ValueError).
Proof.
  repeat apply conj.
  - intros p var img s H. unfold add_gaussian_noise, _rand_bool, draw, after_coin in *.
    destruct (random_random (py_rng _ _ s)) as [u g]. simpl in *. now rewrite H.
  - intros var img s Hvar.
    destruct (noise_effect_nonneg NpRng standard_normal exact exact PyRng var img s Hvar)
      as (out & s' & Hok).
    destruct (noise_effect_ok_inv _ _ _ _ _ _ _ _ _ _ Hok) as [Hout Hs'].
    exists (map (fun z => (0 + var * z)%Q)
              (standard_normals standard_normal (length (im_data img)) (np_rng _ _ s))),
           (snd (normal_fill NpRng standard_normal exact 0 var
                   (length (map inject_Z (im_data img))) (np_rng _ _ s))).
    split; [reflexivity|]. split.
    + rewrite Hok, Hout, Hs'. do 3 f_equal.
      rewrite normal_fill_is_scaled_deviates, length_map, !map_map.
      rewrite combine_map_both, combine_map_r, !map_map. reflexivity.
    + apply sum_squares_scaled.
  - intros zs. rewrite sum_squares_scaled. unfold f_8_0. ring.
  - intros var img s out s'. apply noise_effect_clipped.
  - intros var img s. apply noise_effect_negative.
Qed.

Lemma noise_second_moment_is_var_squared_witness :
  exists g',
    noise_effect nat nat unit_normal exact exact f_8_0 img_demo
      {| py_rng := 0%nat; np_rng := 0%nat |}
    = Ok ({| im_mode := "L"; im_size := (1%nat, 3%nat); im_data := [108; 255; 11] |},
          {| py_rng := 0%nat; np_rng := g' |}).
Proof.
  destruct (proj1 (proj2 (noise_second_moment_is_var_squared nat nat half_rng unit_normal))
              f_8_0 img_demo {| py_rng := 0%nat; np_rng := 0%nat |})
    as (added & g' & Hadded & Heq & _).
  - unfold Qle. simpl. lia.
  - exists g'. rewrite Heq, Hadded. reflexivity.
Defined.

(** With a deviate of one standard deviation on each channel, the channels
    100, 250 and 3 become 108, 255 (clipped) and 11: the displacement is 8,
    not the square root of 8. *)
Example noise_one_sigma :
  add_gaussian_noise nat nat half_rng unit_normal exact exact
    img_demo 1 f_8_0 {| py_rng := 0%nat; np_rng := 0%nat |}
  = Ok ({| im_mode := "L"; im_size := (1%nat, 3%nat); im_data := [108; 255; 11] |},
        {| py_rng := 1%nat; np_rng := 3%nat |}).
Proof. vm_compute. reflexivity. Qed.

(** A negative [var] makes the stage raise when it fires. *)
Example noise_negative_var :
  add_gaussian_noise nat nat half_rng unit_normal exact exact
    img_demo 1 (-1) {| py_rng := 0%nat; np_rng := 0%nat |}
  = Raise ValueError.
Proof. vm_compute. reflexivity. Qed.

(* ===================================================================== *)
(** * Further properties of run.py *)
(* ===================================================================== *)

(** ** The assets *)

Lemma lstrip_head (s : Text.t) (c : N) (t : Text.t) :
  Text.lstrip s = c :: t -> Text.is_space c = false.
Proof.
  induction s as [|a s IH]; simpl; [discriminate|].
  destruct (Text.is_space a) eqn:E; [exact IH|].
  intros [= <- <-]. exact E.
Qed.

Lemma lstrip_snoc (s : Text.t) (c : N) :
  Text.is_space c = false ->
  Text.lstrip (s ++ [c])%list = (Text.lstrip s ++ [c])%list.
Proof.
  intros Hc. induction s as [|a s IH]; simpl.
  - now rewrite Hc.
  - destruct (Text.is_space a); [exact IH | reflexivity].
Qed.

(** [strip] leaves nothing, or a text without a blank at either end. *)
Lemma strip_trimmed (s : Text.t) :
  Text.strip s = [] \/ is_trimmed (Text.strip s) = true.
Proof.
  unfold Text.strip. destruct (Text.lstrip s) as [|c0 t0] eqn:E0; [now left|].
  right. pose proof (lstrip_head _ _ _ E0) as Hc0.
  simpl rev. rewrite (lstrip_snoc _ _ Hc0), rev_app_distr. simpl.
  rewrite Hc0. simpl.
  destruct (Text.lstrip (rev t0)) as [|d y'] eqn:E1; simpl; [now rewrite Hc0|].
  pose proof (lstrip_head _ _ _ E1) as Hd.
  change (negb (Text.is_space (List.last ((c0 :: rev y') ++ [d]) c0)) = true).
  rewrite List.last_last. now rewrite Hd.
Qed.

(** X1. Whatever [load_corpus] returns comes from a regular file, and
    every line it returns is non-empty and has no blank at its start or at
    its end. *)
Theorem load_corpus_lines_are_trimmed
    (fs : filesystem) (path : string) (words_list : list Text.t) :
  load_corpus fs path = Ok words_list ->
  (exists text, fs (Path.norm path) = Some (File text)) /\
  Forall (fun line => is_trimmed line = true) words_list.
Proof.
  unfold load_corpus. destruct (fs (Path.norm path)) as [[text|entries]|];
    try discriminate.
  intros [= <-]. split; [eauto|].
  apply Forall_forall. intros line Hin.
  apply list_elem_of_In, in_map_iff in Hin as (raw & <- & Hraw).
  apply list_elem_of_In, list_elem_of_filter in Hraw as [Hne _].
  destruct (strip_trimmed raw) as [Hnil|Hok]; [|exact Hok].
  rewrite Hnil in Hne. destruct Hne.
Qed.

Definition fs_corpus_mixed : filesystem := fun p =>
  if String.eqb p "texts/a.txt"
  then Some (File [32; 97; 32; 98; 9; 13; 10; 32; 10; 12288; 99]%N)
  else None.

Lemma load_corpus_lines_are_trimmed_witness :
  Forall (fun line => is_trimmed line = true) [[97; 32; 98]; [99]]%N.
Proof.
  exact (proj2 (load_corpus_lines_are_trimmed fs_corpus_mixed "texts/a.txt"
                  [[97; 32; 98]; [99]]%N eq_refl)).
Defined.

(** X2. When [load_fonts] returns, the list is not empty and every path in
    it names a regular file. *)
Theorem load_fonts_returns_regular_files
    (fs : filesystem) (font_or_dir : string) (font_paths : list string) :
  load_fonts fs font_or_dir = Ok font_paths ->
  font_paths <> [] /\
  Forall (fun font => Path.is_file fs font = true) font_paths.
Proof.
  unfold load_fonts.
  destruct (negb (Path.exists_ fs _)); [discriminate|].
  destruct (Path.is_file fs (Path.norm _)) eqn:Hfile.
  - intros [= <-]. split; [discriminate|]. repeat constructor. exact Hfile.
  - destruct (filter _ _) as [|font rest] eqn:Hfilter; [discriminate|].
    intros [= <-]. split; [discriminate|].
    rewrite <- Hfilter. apply Forall_forall. intros f Hin.
    apply list_elem_of_filter in Hin as [Hf _].
    now apply Is_true_true in Hf.
Qed.

Lemma load_fonts_returns_regular_files_witness :
  ["fonts/ch/b.ttf"; "fonts/ch/a.ttf"] <> [] /\
  Forall (fun font => Path.is_file fs_fonts font = true)
    ["fonts/ch/b.ttf"; "fonts/ch/a.ttf"].
Proof.
  exact (load_fonts_returns_regular_files fs_fonts "ch"
           ["fonts/ch/b.ttf"; "fonts/ch/a.ttf"] eq_refl).
Defined.

Lemma except_exit_1_raises {A} (args : args_t) (shown : string) (r : res A) (e : exn) :
  except_exit_1 args shown r = Raise e ->
  (forall e0, r = Raise e0 -> e0 <> KeyboardInterrupt) ->
  (exists a, e = SystemExit a) \/
  (e = AttributeError shown /\ args !! shown = None).
Proof.
  destruct r as [a|e0]; simpl; [discriminate|].
  intros H Hk. specialize (Hk e0 eq_refl).
  destruct (is_Exception e0) eqn:Hex.
  - unfold arg in H. destruct (args !! shown) as [v|]; simpl in H; injection H as <-.
    + left. eauto.
    + right. auto.
  - injection H as <-. destruct e0; try discriminate Hex; [congruence|]. left. eauto.
Qed.

Lemma except_exit_1_ok {A} (args : args_t) (shown : string) (r : res A) (a : A) :
  except_exit_1 args shown r = Ok a -> r = Ok a.
Proof.
  destruct r as [a0|e0]; simpl; [trivial|].
  destruct (is_Exception e0); [|discriminate].
  destruct (arg args shown); discriminate.
Qed.

Lemma load_corpus_raises (fs : filesystem) (path : string) (e : exn) :
  load_corpus fs path = Raise e -> e <> KeyboardInterrupt.
Proof.
  unfold load_corpus, sys_exit.
  destruct (fs (Path.norm path)) as [[text|entries]|]; intros [= <-]; discriminate.
Qed.

Lemma load_fonts_raises (fs : filesystem) (font_or_dir : string) (e : exn) :
  load_fonts fs font_or_dir = Raise e -> e <> KeyboardInterrupt.
Proof.
  unfold load_fonts, sys_exit.
  destruct (negb _); [intros [= <-]; discriminate|].
  destruct (Path.is_file fs _); [discriminate|].
  destruct (filter _ _); intros [= <-]; discriminate.
Qed.

(** X3. Whatever goes wrong while the assets are loaded in steps 8 and 9
    of [main] (a missing file, a directory given as corpus, a path that is
    not a string, no [verbose] attribute) leaves as a [SystemExit], as long
    as the arguments have the attributes [corpus] and [fonts].  The only
    other exception that comes out of these steps is the [AttributeError]
    that the handler of a step raises when it prints the attribute and the
    arguments do not have it. *)
Theorem load_assets_failure_is_exit (fs : filesystem) (args : args_t) (e : exn) :
  load_assets fs args = Raise e ->
  ((exists a, e = SystemExit a) \/
   (e = AttributeError "corpus" /\ args !! "corpus" = None) \/
   (e = AttributeError "fonts" /\ args !! "fonts" = None)) /\
  (is_Some (args !! "corpus") -> is_Some (args !! "fonts") ->
   exists a, e = SystemExit a).
Proof.
  unfold load_assets. intros H.
  assert (Hcases : (exists a, e = SystemExit a) \/
            (e = AttributeError "corpus" /\ args !! "corpus" = None) \/
            (e = AttributeError "fonts" /\ args !! "fonts" = None)).
  { destruct (except_exit_1 args "corpus" (let* corpus := arg args "corpus" in _))
      as [cl|e1] eqn:E1.
    - rewrite rbind_Ok in H.
      destruct (except_exit_1 args "fonts" (let* fonts := arg args "fonts" in _))
        as [fp|e2] eqn:E2; [discriminate|].
      simpl in H. injection H as <-.
      destruct (except_exit_1_raises _ _ _ _ E2) as [Hx|Hx]; [|tauto|tauto].
      intros e0 He0.
      unfold arg in He0. destruct (args !! "fonts") as [v|]; simpl in He0;
        [|injection He0 as <-; discriminate].
      destruct (args !! "verbose") as [vb|]; simpl in He0.
      + destruct (truthy v).
        * destruct v; simpl in He0; try (injection He0 as <-; discriminate).
          destruct (load_fonts fs s) as [fp|e3] eqn:El; simpl in He0; [discriminate|].
          injection He0 as <-. exact (load_fonts_raises _ _ _ El).
        * destruct (load_fonts fs "ch") as [fp|e3] eqn:El; simpl in He0; [discriminate|].
          injection He0 as <-. exact (load_fonts_raises _ _ _ El).
      + destruct (truthy v).
        * destruct v; simpl in He0; try (injection He0 as <-; discriminate).
          destruct (load_fonts fs s) as [fp|e3] eqn:El; simpl in He0;
            injection He0 as <-; [discriminate|exact (load_fonts_raises _ _ _ El)].
        * destruct (load_fonts fs "ch") as [fp|e3] eqn:El; simpl in He0;
            injection He0 as <-; [discriminate|exact (load_fonts_raises _ _ _ El)].
    - simpl in H. injection H as <-.
      destruct (except_exit_1_raises _ _ _ _ E1) as [Hx|Hx]; [|tauto|tauto].
      intros e0 He0.
      unfold arg in He0. destruct (args !! "corpus") as [v|]; simpl in He0;
        [|injection He0 as <-; discriminate].
      destruct v; simpl in He0; try (injection He0 as <-; discriminate).
      exact (load_corpus_raises _ _ _ He0). }
  split; [exact Hcases|].
  intros [vc Hc] [vf Hf].
  destruct Hcases as [Hx|[[_ Hx]|[_ Hx]]]; [exact Hx|congruence|congruence].
Qed.

(** Arguments whose corpus is a directory. *)
Definition args_corpus_is_dir : args_t :=
  list_to_map [("corpus", PyStr "fonts/ch"); ("fonts", PyStr "ch");
               ("verbose", PyBool false)].

Lemma load_assets_failure_is_exit_witness :
  exists a, SystemExit (ExitCode 1) = SystemExit a.
Proof.
  apply (proj2 (load_assets_failure_is_exit fs_fonts args_corpus_is_dir
                  (SystemExit (ExitCode 1)) eq_refl)); vm_compute; eauto.
Defined.

(** Without the attribute [corpus] the handler of step 8 fails itself. *)
Example load_assets_handler_needs_corpus :
  load_assets fs_fonts (delete "corpus" args_corpus_is_dir)
  = Raise (AttributeError "corpus").
Proof. vm_compute. reflexivity. Qed.

Example load_assets_missing_corpus_keeps_message :
  load_assets fs_fonts (<["corpus" := PyStr "texts/none.txt"]> args_corpus_is_dir)
  = Raise (SystemExit (ExitMsg "[Error] Corpus file not found: texts/none.txt")).
Proof. vm_compute. reflexivity. Qed.

(** ** The quick-start preset *)

Section QuickStartAlone.

Variable World : Type.
Variable fs : filesystem.
Variable load_config : string -> res pyval.
Variable create_strings_from_corpus_file : pyval -> res (list Text.t).
Variable create_strings_randomly_from_chars :
  pyval -> pyval -> pyval -> pyval -> pyval -> pyval -> pyval -> res (list Text.t).
Variable create_strings_from_dict :
  pyval -> pyval -> pyval -> list Text.t -> res (list Text.t).
Variable mkdir : string -> res unit.
Variable generate : JobDescriptor -> World -> World * option exn.
Variable run_pool :
  pyval -> list JobDescriptor -> World -> World * list JobDescriptor * option exn.

(** X4. With the quick-start preset requested and no worker count on the
    command line, the preset computes [min(4, None)]: resolution raises
    [TypeError] whatever the configuration holds, and the script ends with
    status 1 without running a job. *)
Theorem quick_start_without_workers_fails (c : cli) (cfg : pyval) (w : World) :
  cli_diagnose c = false ->
  cli_quick_start c = true ->
  cli_num_workers c = None ->
  load_config (default "configs/config.yaml" (cli_cfg c)) = Ok cfg ->
  resolve fs (parse_args c) cfg = Raise TypeError /\
  script World fs load_config create_strings_from_corpus_file
    create_strings_randomly_from_chars create_strings_from_dict mkdir
    generate run_pool c w
  = (w, [], ExitCode 1).
Proof.
  intros Hd Hq Hn Hcfg.
  assert (Hres : resolve fs (parse_args c) cfg = Raise TypeError).
  { unfold resolve.
    assert (Hqs : arg (parse_args c) "quick_start" = Ok (PyBool (cli_quick_start c)))
      by reflexivity.
    rewrite Hqs, Hq, rbind_Ok. simpl truthy. cbv iota.
    unfold apply_quick_start_settings.
    rewrite lookup_insert_ne by discriminate.
    assert (Hnw : parse_args c !! "num_workers" = Some (opt_int (cli_num_workers c)))
      by reflexivity.
    rewrite Hnw, Hn. reflexivity. }
  split; [exact Hres|].
  unfold script, main, main_prepare.
  assert (Hdg : arg (parse_args c) "diagnose" = Ok (PyBool (cli_diagnose c)))
    by reflexivity.
  rewrite Hdg, Hd, rbind_Ok. simpl truthy. cbv iota.
  assert (Hvb : arg (parse_args c) "verbose" = Ok (PyBool (cli_verbose c)))
    by reflexivity.
  rewrite Hvb, rbind_Ok.
  assert (Hpath : arg (parse_args c) "cfg"
                  = Ok (PyStr (default "configs/config.yaml" (cli_cfg c))))
    by reflexivity.
  rewrite Hpath, rbind_Ok. simpl as_str. rewrite rbind_Ok, Hcfg, rbind_Ok, Hres.
  reflexivity.
Qed.

End QuickStartAlone.

(** [--quick-start] alone, as examples/quick_start.py runs it (with
    [--verbose]). *)
Definition cli_quick_alone : cli :=
  {| cli_cfg := None; cli_quick_start := true; cli_output_dir := None;
     cli_language := None; cli_corpus := None; cli_count := None;
     cli_fonts := None; cli_size := None; cli_color := None; cli_width := None;
     cli_height := None; cli_extension := None; cli_margins := None;
     cli_skew_angle := None; cli_no_skew := false; cli_num_workers := None;
     cli_verbose := true; cli_dry_run := false; cli_diagnose := false |}.

Lemma quick_start_without_workers_fails_witness :
  resolve fs_empty (parse_args cli_quick_alone) cfg_quick_start_yaml = Raise TypeError /\
  script (list nat) fs_empty (fun _ => Ok cfg_quick_start_yaml) (fun _ => Ok [])
    sampler_stub (fun _ _ _ _ => Ok []) (fun _ => Ok tt) generate_fails_at_1 no_pool
    cli_quick_alone []
  = ([], [], ExitCode 1).
Proof.
  exact (quick_start_without_workers_fails (list nat) fs_empty
           (fun _ => Ok cfg_quick_start_yaml) (fun _ => Ok []) sampler_stub
           (fun _ _ _ _ => Ok []) (fun _ => Ok tt) generate_fails_at_1 no_pool
           cli_quick_alone cfg_quick_start_yaml [] eq_refl eq_refl eq_refl eq_refl).
Defined.

(** X5. The preset looks for the Chinese sample corpus first: when it
    exists the corpus becomes that file, whatever corpus was given, and
    language and fonts are left alone; otherwise, when the English sample
    exists, corpus, language and fonts all become the English ones;
    when neither exists the three keep their values. *)
Theorem quick_start_sample_corpus (fs : filesystem) (args : args_t) (w : Z) :
  args !! "num_workers" = Some (PyInt w) ->
  exists args',
    apply_quick_start_settings fs args = Ok args' /\
    (Path.exists_ fs "texts/sample_chinese.txt" = true ->
     args' !! "corpus" = Some (PyStr "texts/sample_chinese.txt") /\
     args' !! "language" = args !! "language" /\
     args' !! "fonts" = args !! "fonts") /\
    (Path.exists_ fs "texts/sample_chinese.txt" = false ->
     Path.exists_ fs "texts/sample_english.txt" = true ->
     args' !! "corpus" = Some (PyStr "texts/sample_english.txt") /\
     args' !! "language" = Some (PyStr "en") /\
     args' !! "fonts" = Some (PyStr "en")) /\
    (Path.exists_ fs "texts/sample_chinese.txt" = false ->
     Path.exists_ fs "texts/sample_english.txt" = false ->
     args' !! "corpus" = args !! "corpus" /\
     args' !! "language" = args !! "language" /\
     args' !! "fonts" = args !! "fonts").
Proof.
  intros Hw. unfold apply_quick_start_settings.
  rewrite lookup_insert_ne by discriminate. rewrite Hw. simpl min_4. rewrite rbind_Ok.
  change (Path.norm "texts/sample_chinese.txt") with "texts/sample_chinese.txt".
  change (Path.norm "texts/sample_english.txt") with "texts/sample_english.txt".
  destruct (Path.exists_ fs "texts/sample_chinese.txt");
    [|destruct (Path.exists_ fs "texts/sample_english.txt")];
    eexists; (split; [reflexivity|]); repeat split; try discriminate; intros;
    rewrite ?lookup_insert_eq; rewrite ?lookup_insert_ne by discriminate;
    rewrite ?lookup_insert_eq; rewrite ?lookup_insert_ne by discriminate;
    rewrite ?lookup_insert_eq; rewrite ?lookup_insert_ne by discriminate;
    reflexivity.
Qed.

Definition fs_english_sample : filesystem := fun p =>
  if String.eqb p "texts/sample_english.txt" then Some (File [72; 105]%N) else None.

(** [--quick-start --num_workers 8 --corpus my.txt] *)
Definition cli_quick_8 : cli :=
  {| cli_cfg := None; cli_quick_start := true; cli_output_dir := None;
     cli_language := None; cli_corpus := Some "my.txt"; cli_count := None;
     cli_fonts := None; cli_size := None; cli_color := None; cli_width := None;
     cli_height := None; cli_extension := None; cli_margins := None;
     cli_skew_angle := None; cli_no_skew := false; cli_num_workers := Some 8;
     cli_verbose := false; cli_dry_run := false; cli_diagnose := false |}.

Lemma quick_start_sample_corpus_witness :
  exists args',
    apply_quick_start_settings fs_english_sample (parse_args cli_quick_8) = Ok args' /\
    args' !! "corpus" = Some (PyStr "texts/sample_english.txt") /\
    args' !! "language" = Some (PyStr "en") /\
    args' !! "fonts" = Some (PyStr "en").
Proof.
  destruct (quick_start_sample_corpus fs_english_sample (parse_args cli_quick_8) 8
              eq_refl) as (args' & Hq & _ & Hen & _).
  exists args'. split; [exact Hq|]. exact (Hen eq_refl eq_refl).
Defined.

(** ** Overrides *)

Lemma override_step_spec (args : args_t) (cfg : pyval) (a s k : string) (vb : pyval) :
  args !! "verbose" = Some vb -> cfg_ok cfg = true -> In s section_names ->
  exists cfg',
    override_step args cfg (a, (s, k)) = Ok cfg' /\ cfg_ok cfg' = true /\
    (forall v, args !! a = Some v -> is_None v = false -> get_option cfg' s k = Ok v) /\
    (forall s' k', s' <> s \/ k' <> k -> get_option cfg' s' k' = get_option cfg s' k').
Proof.
  intros Hvb Hok Hin. unfold override_step.
  destruct (args !! a) as [v|] eqn:Ha.
  - destruct (is_None v) eqn:Hv.
    + exists cfg. repeat split; auto. intros v' [= <-]. congruence.
    + destruct (set_option_spec cfg s k v Hok Hin) as (cfg' & Hset & Hok' & Hget & Hother).
      exists cfg'. rewrite Hset, rbind_Ok, (arg_some _ _ _ Hvb), rbind_Ok.
      repeat split; auto. intros v' [= <-] _. exact Hget.
  - exists cfg. repeat split; auto. discriminate.
Qed.

Lemma override_loop_spec (args : args_t) (vb : pyval)
    (mapping : list (string * (string * string))) :
  args !! "verbose" = Some vb ->
  Forall (fun entry => In (fst (snd entry)) section_names) mapping ->
  NoDup (map snd mapping) ->
  forall cfg, cfg_ok cfg = true ->
  exists cfg',
    override_loop args cfg mapping = Ok cfg' /\ cfg_ok cfg' = true /\
    (forall a s k v, In (a, (s, k)) mapping -> args !! a = Some v ->
                     is_None v = false -> get_option cfg' s k = Ok v) /\
    (forall s k, ~ In (s, k) (map snd mapping) ->
                 get_option cfg' s k = get_option cfg s k).
Proof.
  intros Hvb Hsec. induction Hsec as [|[a [s k]] mapping Hin _ IH];
    intros Hnd cfg Hok; cbn [override_loop].
  - exists cfg. repeat split; auto. intros a s k v [].
  - simpl in Hnd. apply NoDup_cons in Hnd as [Hfresh Hnd].
    rewrite list_elem_of_In in Hfresh.
    destruct (override_step_spec args cfg a s k vb Hvb Hok Hin)
      as (cfg1 & -> & Hok1 & Hset & Hother).
    rewrite rbind_Ok.
    destruct (IH Hnd cfg1 Hok1) as (cfg' & -> & Hok' & Hgiven & Hrest).
    exists cfg'. repeat split; auto.
    + intros a0 s0 k0 v [[= <- <- <-]|Hin0] Ha Hv.
      * rewrite Hrest by exact Hfresh. now apply Hset.
      * now apply (Hgiven a0).
    + intros s0 k0 Hnot. simpl in Hnot. rewrite Hrest by tauto. apply Hother.
      destruct (string_dec s0 s) as [->|]; [|now left].
      destruct (string_dec k0 k) as [->|]; [|now right].
      exfalso. apply Hnot. now left.
Qed.

Lemma override_mapping_targets_nodup : NoDup (map snd override_mapping).
Proof.
  unfold override_mapping. simpl.
  repeat (apply NoDup_cons_2;
          [rewrite list_elem_of_In; simpl; intros H;
           repeat (destruct H as [H|H]; [discriminate|]); exact H|]).
  apply NoDup_nil_2.
Qed.

(** What the three parts of [apply_command_line_overrides] leave in the
    configuration. *)
Lemma overrides_spec (args : args_t) (cfg : pyval) (vb ns : pyval)
    (color : option string) :
  args !! "verbose" = Some vb ->
  args !! "no_skew" = Some ns ->
  args !! "color" = Some (opt_str color) ->
  cfg_ok cfg = true ->
  exists cfg1 cfg2 cfg',
    override_loop args cfg override_mapping = Ok cfg1 /\
    apply_command_line_overrides args cfg = Ok cfg' /\
    (forall a s k v, In (a, (s, k)) override_mapping -> args !! a = Some v ->
                     is_None v = false -> get_option cfg1 s k = Ok v) /\
    (forall s k, ~ In (s, k) (map snd override_mapping) ->
                 get_option cfg1 s k = get_option cfg s k) /\
    (truthy ns = false -> cfg2 = cfg1) /\
    (forall s k, s <> "DISTORTION_SETTINGS" \/ (k <> "SKEW_ANGLE" /\ k <> "RANDOM_SKEW") ->
                 get_option cfg2 s k = get_option cfg1 s k) /\
    (forall c, color = Some c ->
               truthy (PyStr c) && negb (Str.startswith "(" c) = true ->
               get_option cfg' "TEXT_SETTINGS" "COLOR" = Ok (PyStr ("(" ++ c ++ ")"))) /\
    ((forall c, color = Some c ->
                truthy (PyStr c) && negb (Str.startswith "(" c) = false) ->
     cfg' = cfg2) /\
    (forall s k, s <> "TEXT_SETTINGS" \/ k <> "COLOR" ->
                 get_option cfg' s k = get_option cfg2 s k).
Proof.
  intros Hvb Hns Hcol Hok. unfold apply_command_line_overrides.
  destruct (override_loop_spec args vb override_mapping Hvb override_mapping_sections
              override_mapping_targets_nodup cfg Hok)
    as (cfg1 & Hloop & Hok1 & Hgiven & Hrest).
  rewrite Hloop, rbind_Ok, (arg_some _ _ _ Hns), rbind_Ok.
  assert (Hskew : exists cfg2,
             (if truthy ns
              then let* c := set_option cfg1 "DISTORTION_SETTINGS" "SKEW_ANGLE" (PyInt 0) in
                   let* c := set_option c "DISTORTION_SETTINGS" "RANDOM_SKEW" (PyBool false) in
                   let* _ := arg args "verbose" in Ok c
              else Ok cfg1) = Ok cfg2 /\ cfg_ok cfg2 = true /\
             (truthy ns = false -> cfg2 = cfg1) /\
             (forall s k,
                 s <> "DISTORTION_SETTINGS" \/ (k <> "SKEW_ANGLE" /\ k <> "RANDOM_SKEW") ->
                 get_option cfg2 s k = get_option cfg1 s k)).
  { destruct (truthy ns); [|exists cfg1; repeat split; auto].
    destruct (set_option_spec cfg1 "DISTORTION_SETTINGS" "SKEW_ANGLE" (PyInt 0) Hok1)
      as (c1 & -> & Hc1 & _ & Ho1); [simpl; tauto|].
    rewrite rbind_Ok.
    destruct (set_option_spec c1 "DISTORTION_SETTINGS" "RANDOM_SKEW" (PyBool false) Hc1)
      as (c2 & -> & Hc2 & _ & Ho2); [simpl; tauto|].
    exists c2. rewrite !rbind_Ok, (arg_some _ _ _ Hvb), rbind_Ok.
    repeat split; auto; [discriminate|].
    intros s k Hsk. rewrite Ho2, Ho1; [reflexivity|tauto|tauto]. }
  destruct Hskew as (cfg2 & -> & Hok2 & Hsame & Hskewrest). rewrite rbind_Ok.
  rewrite (arg_some _ _ _ Hcol), rbind_Ok.
  exists cfg1, cfg2.
  destruct color as [c|]; simpl opt_str.
  - destruct (truthy (PyStr c)) eqn:Ht.
    + simpl as_str. rewrite rbind_Ok.
      destruct (negb (Str.startswith "(" c)) eqn:Hp.
      * destruct (set_option_spec cfg2 "TEXT_SETTINGS" "COLOR"
                    (PyStr ("(" ++ c ++ ")")) Hok2)
          as (c3 & -> & Hc3 & Hget & Hother); [simpl; tauto|].
        exists c3. repeat split; auto.
        -- intros c' [= <-] _. exact Hget.
        -- intros Hno. specialize (Hno c eq_refl). rewrite Ht, Hp in Hno. discriminate.
      * exists cfg2. repeat split; auto.
        intros c' [= <-] H. rewrite Ht, Hp in H. discriminate H.
    + exists cfg2. repeat split; auto.
      intros c' [= <-] H. rewrite Ht in H. discriminate H.
  - exists cfg2. repeat split; auto. discriminate.
Qed.

Lemma mapping_target_facts (a s k : string) :
  In (a, (s, k)) override_mapping ->
  In (s, k) (map snd override_mapping) /\
  (s <> "DISTORTION_SETTINGS" \/ k <> "RANDOM_SKEW") /\
  (s = "DISTORTION_SETTINGS" /\ k = "SKEW_ANGLE" -> a = "skew_angle") /\
  (s = "TEXT_SETTINGS" /\ k = "COLOR" -> a = "color").
Proof.
  unfold override_mapping. simpl.
  intros H. repeat (destruct H as [[= <- <- <-]|H]; [
    split; [tauto|]; split; [right; discriminate|];
    split; intros [? ?]; (reflexivity || discriminate)|]).
  destruct H.
Qed.

(** X6. Every option given on the command line is written into its
    place in the configuration, [cfg.<section>.<key>], and stays there,
    except the skew angle when the disable-skew flag is set (and the
    colour, which may be rewritten). *)
Theorem explicit_override_reaches_configuration
    (args : args_t) (cfg : pyval) (vb ns : pyval) (color : option string)
    (a s k : string) (v : pyval) :
  args !! "verbose" = Some vb ->
  args !! "no_skew" = Some ns ->
  args !! "color" = Some (opt_str color) ->
  cfg_ok cfg = true ->
  In (a, (s, k)) override_mapping ->
  args !! a = Some v -> is_None v = false ->
  a <> "color" ->
  (truthy ns = true -> a <> "skew_angle") ->
  exists cfg',
    apply_command_line_overrides args cfg = Ok cfg' /\
    get_option cfg' s k = Ok v.
Proof.
  intros Hvb Hns Hcol Hok Hin Ha Hv Hnc Hnk.
  destruct (overrides_spec args cfg vb ns color Hvb Hns Hcol Hok)
    as (cfg1 & cfg2 & cfg' & _ & Happ & Hgiven & _ & Hsame & Hskew & _ & _ & Hrest).
  exists cfg'. split; [exact Happ|].
  destruct (mapping_target_facts a s k Hin) as (_ & Hrs & Hsk & Hco).
  rewrite Hrest.
  2:{ destruct (string_dec s "TEXT_SETTINGS") as [->|]; [|now left].
      destruct (string_dec k "COLOR") as [->|]; [|now right].
      exfalso. apply Hnc. now apply Hco. }
  destruct (truthy ns) eqn:Ht.
  - rewrite Hskew; [now apply (Hgiven a)|].
    destruct (string_dec s "DISTORTION_SETTINGS") as [->|]; [|now left].
    right. split.
    + intros ->. now apply Hnk, Hsk.
    + destruct Hrs as [Hrs|Hrs]; [congruence | exact Hrs].
  - rewrite (Hsame eq_refl). now apply (Hgiven a).
Qed.

(** [--count 500 --size 48 --color 255,0,0 --no_skew --skew_angle 15] *)
Definition cli_many : cli :=
  {| cli_cfg := None; cli_quick_start := false; cli_output_dir := None;
     cli_language := None; cli_corpus := None; cli_count := Some 500;
     cli_fonts := None; cli_size := Some 48; cli_color := Some "255,0,0";
     cli_width := None; cli_height := None; cli_extension := None;
     cli_margins := None; cli_skew_angle := Some 15; cli_no_skew := true;
     cli_num_workers := None; cli_verbose := false; cli_dry_run := false;
     cli_diagnose := false |}.

Lemma explicit_override_reaches_configuration_witness :
  exists cfg',
    apply_command_line_overrides (parse_args cli_many) cfg_quick_start_yaml = Ok cfg' /\
    get_option cfg' "OTHER_SETTINGS" "COUNT" = Ok (PyInt 500).
Proof.
  apply (explicit_override_reaches_configuration (parse_args cli_many)
           cfg_quick_start_yaml (PyBool false) (PyBool true) (Some "255,0,0")
           "count" "OTHER_SETTINGS" "COUNT" (PyInt 500));
    try reflexivity; try discriminate.
  unfold override_mapping. simpl. tauto.
Defined.

(** X7. A colour given without an opening parenthesis is stored in the
    configuration between parentheses; a colour that starts with one, or
    an empty one, is stored as given. *)
Theorem color_override_is_parenthesised
    (args : args_t) (cfg : pyval) (vb ns : pyval) (c : string) :
  args !! "verbose" = Some vb ->
  args !! "no_skew" = Some ns ->
  args !! "color" = Some (PyStr c) ->
  cfg_ok cfg = true ->
  exists cfg',
    apply_command_line_overrides args cfg = Ok cfg' /\
    get_option cfg' "TEXT_SETTINGS" "COLOR"
    = Ok (PyStr (if negb (String.eqb c "") && negb (Str.startswith "(" c)
                 then "(" ++ c ++ ")" else c)).
Proof.
  intros Hvb Hns Hcol Hok.
  destruct (overrides_spec args cfg vb ns (Some c) Hvb Hns Hcol Hok)
    as (cfg1 & cfg2 & cfg' & _ & Happ & Hgiven & _ & _ & Hskew & Hwrap & Hkeep & _).
  exists cfg'. split; [exact Happ|].
  change (truthy (PyStr c)) with (negb (String.eqb c "")) in *.
  destruct (negb (String.eqb c "") && negb (Str.startswith "(" c)) eqn:E.
  - now apply Hwrap.
  - rewrite Hkeep by (intros c' [= <-]; exact E).
    rewrite Hskew by (left; discriminate).
    apply (Hgiven "color"); [|exact Hcol|reflexivity].
    unfold override_mapping. simpl. tauto.
Qed.

Lemma color_override_is_parenthesised_witness :
  exists cfg',
    apply_command_line_overrides (parse_args cli_many) cfg_quick_start_yaml = Ok cfg' /\
    get_option cfg' "TEXT_SETTINGS" "COLOR" = Ok (PyStr "(255,0,0)").
Proof.
  exact (color_override_is_parenthesised (parse_args cli_many) cfg_quick_start_yaml
           (PyBool false) (PyBool true) "255,0,0" eq_refl eq_refl eq_refl eq_refl).
Defined.

Lemma override_loop_nothing_given (args : args_t) (cfg : pyval)
    (mapping : list (string * (string * string))) :
  Forall (fun entry => args !! fst entry = Some PyNone) mapping ->
  override_loop args cfg mapping = Ok cfg.
Proof.
  induction 1 as [|[a [s k]] mapping Ha _ IH]; simpl; [reflexivity|].
  simpl in Ha. now rewrite Ha.
Qed.

(** X8. When no option of the override table is given and the
    disable-skew flag is off, [apply_command_line_overrides] returns the
    configuration it was given, whatever that configuration is. *)
Theorem no_override_leaves_configuration (args : args_t) (cfg ns : pyval) :
  Forall (fun entry => args !! fst entry = Some PyNone) override_mapping ->
  args !! "no_skew" = Some ns -> truthy ns = false ->
  apply_command_line_overrides args cfg = Ok cfg.
Proof.
  intros Hnone Hns Hoff. unfold apply_command_line_overrides.
  rewrite (override_loop_nothing_given _ _ _ Hnone), rbind_Ok.
  rewrite (arg_some _ _ _ Hns), rbind_Ok, Hoff, rbind_Ok.
  assert (Hcolor : args !! "color" = Some PyNone).
  { rewrite Forall_forall in Hnone.
    apply (Hnone ("color", ("TEXT_SETTINGS", "COLOR"))).
    apply list_elem_of_In. unfold override_mapping. simpl. tauto. }
  now rewrite (arg_some _ _ _ Hcolor), rbind_Ok.
Qed.

Lemma no_override_leaves_configuration_witness :
  apply_command_line_overrides (parse_args cli_none) (PyInt 5) = Ok (PyInt 5).
Proof.
  apply (no_override_leaves_configuration (parse_args cli_none) (PyInt 5) (PyBool false)).
  - unfold override_mapping. repeat (apply List.Forall_cons; [reflexivity|]).
    apply List.Forall_nil.
  - reflexivity.
  - reflexivity.
Defined.

Lemma Ns_get_set_None (x k : string) (v : pyval) (ns : Ns.t) :
  Ns.get x (Ns.set k v ns) = None -> Ns.get x ns = None.
Proof.
  destruct (string_dec k x) as [->|Hne].
  - rewrite Ns_get_set_eq. discriminate.
  - now rewrite Ns_get_set_ne.
Qed.

Lemma override_loop_missing_section (args : args_t) (vb : pyval) (a s k : string)
    (v : pyval) (mapping : list (string * (string * string))) :
  args !! "verbose" = Some vb ->
  args !! a = Some v -> is_None v = false ->
  In (a, (s, k)) mapping ->
  forall attrs,
    forallb (fun kv => is_ns (snd kv)) attrs = true ->
    Ns.get s attrs = None ->
    exists s', override_loop args (PyNs attrs) mapping = Raise (AttributeError s') /\
               Ns.get s' attrs = None.
Proof.
  intros Hvb Ha Hv. induction mapping as [|[a0 [s0 k0]] mapping IH];
    intros Hin attrs Hns Hmiss; [destruct Hin|].
  cbn [override_loop]. unfold override_step.
  destruct (args !! a0) as [v0|] eqn:Ha0.
  - destruct (is_None v0) eqn:Hv0.
    + rewrite rbind_Ok. destruct Hin as [[= -> -> ->]|Hin]; [congruence|].
      now apply IH.
    + unfold set_option. simpl py_getattr.
      destruct (Ns.get s0 attrs) as [sec|] eqn:Hs0; [|exists s0; split; [reflexivity|exact Hs0]].
      pose proof (Ns_get_section _ _ _ Hns Hs0) as Hsec.
      destruct sec as [| | | | |items]; try discriminate.
      simpl. rewrite (arg_some _ _ _ Hvb), rbind_Ok.
      destruct Hin as [[= -> -> ->]|Hin]; [congruence|].
      destruct (IH Hin (Ns.set s0 (PyNs (Ns.set k0 v0 items)) attrs)) as (s' & Hr & Hs').
      * now apply Ns_set_sections.
      * rewrite Ns_get_set_ne; [exact Hmiss | congruence].
      * exists s'. split; [exact Hr | exact (Ns_get_set_None _ _ _ _ Hs')].
  - rewrite rbind_Ok. destruct Hin as [[= -> -> ->]|Hin]; [congruence|].
    now apply IH.
Qed.

(** X9. An option given on the command line whose section is missing from
    the configuration makes [apply_command_line_overrides] raise
    [AttributeError] for a section name the configuration does not have:
    resolution stops there. *)
Theorem override_of_missing_section_raises
    (args : args_t) (attrs : Ns.t) (vb : pyval) (a s k : string) (v : pyval) :
  args !! "verbose" = Some vb ->
  forallb (fun kv => is_ns (snd kv)) attrs = true ->
  In (a, (s, k)) override_mapping ->
  args !! a = Some v -> is_None v = false ->
  Ns.get s attrs = None ->
  exists s',
    apply_command_line_overrides args (PyNs attrs) = Raise (AttributeError s') /\
    Ns.get s' attrs = None.
Proof.
  intros Hvb Hns Hin Ha Hv Hmiss. unfold apply_command_line_overrides.
  destruct (override_loop_missing_section args vb a s k v override_mapping
              Hvb Ha Hv Hin attrs Hns Hmiss) as (s' & -> & Hs').
  exists s'. split; [reflexivity | exact Hs'].
Qed.

(** A configuration with the text settings only. *)
Definition cfg_text_only : Ns.t :=
  [("TEXT_SETTINGS", PyNs [("SIZE", PyInt 32); ("COLOR", PyStr "(0,0,0)")])].

Lemma override_of_missing_section_raises_witness :
  exists s',
    apply_command_line_overrides (parse_args cli_many) (PyNs cfg_text_only)
    = Raise (AttributeError s') /\
    Ns.get s' cfg_text_only = None.
Proof.
  apply (override_of_missing_section_raises (parse_args cli_many) cfg_text_only
           (PyBool false) "count" "OTHER_SETTINGS" "COUNT" (PyInt 500));
    try reflexivity.
  unfold override_mapping. simpl. tauto.
Defined.

(** ** Flattening *)

Lemma flatten_config_is_fold (cfg : pyval) (args : args_t) :
  cfg_ok cfg = true ->
  flatten_config cfg args = Ok (fold_left flatten_option (all_options cfg) args).
Proof.
  intros Hok. apply cfg_ok_inv in Hok as (attrs & -> & Hns & _).
  unfold flatten_config, all_options. simpl py_dict. rewrite rbind_Ok.
  revert args. induction attrs as [|[k v] attrs IH]; intros args; simpl in *.
  - reflexivity.
  - apply andb_true_iff in Hns as [Hv Hrest].
    destruct v as [| | | | |items]; try discriminate.
    unfold flatten_section. simpl py_dict. rewrite !rbind_Ok.
    rewrite fold_left_app. now apply IH.
Qed.

Lemma flatten_option_other (args : args_t) (key : string) (value : pyval) (k : string) :
  Str.lower key <> k -> flatten_option args (key, value) !! k = args !! k.
Proof.
  intros Hne. unfold flatten_option.
  destruct (args !! Str.lower key) as [v0|]; [destruct (is_None v0)|];
    rewrite ?lookup_insert_ne by exact Hne; reflexivity.
Qed.

Lemma flatten_option_unset (args : args_t) (key : string) (value : pyval) :
  unset args (Str.lower key) = true ->
  flatten_option args (key, value) !! Str.lower key = Some value.
Proof.
  unfold unset, flatten_option. intros H.
  destruct (args !! Str.lower key) as [v0|]; [rewrite H|]; apply lookup_insert_eq.
Qed.

Lemma flatten_items_stay_unset (items : Ns.t) (k : string) :
  Forall (fun kv => Str.lower (fst kv) = k -> is_None (snd kv) = true) items ->
  forall args : args_t, unset args k = true ->
    unset (fold_left flatten_option items args) k = true.
Proof.
  induction 1 as [|[key value] items Hkv _ IH]; intros args Hun; cbn [fold_left];
    [exact Hun|].
  apply IH. simpl in Hkv. unfold unset.
  destruct (string_dec (Str.lower key) k) as [<-|Hne].
  - rewrite (flatten_option_unset _ _ _ Hun). now apply Hkv.
  - rewrite (flatten_option_other _ _ _ _ Hne). exact Hun.
Qed.

(** X10. Flattening gives an attribute that is absent or [None] the value
    of the first option, in document order, that bears its name in any
    case and is not [None]; options that follow are ignored. *)
Theorem flatten_first_option_wins
    (cfg : pyval) (args : args_t) (before after : list (string * pyval))
    (key : string) (value : pyval) :
  cfg_ok cfg = true ->
  all_options cfg = (before ++ (key, value) :: after)%list ->
  Forall (fun kv => Str.lower (fst kv) = Str.lower key -> is_None (snd kv) = true)
    before ->
  is_None value = false ->
  unset args (Str.lower key) = true ->
  exists args',
    flatten_config cfg args = Ok args' /\ args' !! Str.lower key = Some value.
Proof.
  intros Hok Hopts Hbefore Hvalue Hunset.
  rewrite (flatten_config_is_fold _ _ Hok), Hopts.
  eexists. split; [reflexivity|].
  rewrite fold_left_app. simpl fold_left.
  apply flatten_items_keep; [exact Hvalue|].
  apply flatten_option_unset.
  now apply flatten_items_stay_unset.
Qed.

Lemma flatten_first_option_wins_witness :
  exists args',
    flatten_config cfg_quick_start_yaml (parse_args cli_none) = Ok args' /\
    args' !! Str.lower "SIZE" = Some (PyInt 32).
Proof.
  apply (flatten_first_option_wins cfg_quick_start_yaml (parse_args cli_none)
           [("OUTPUT_DIR", PyStr "output/images"); ("EXTENSION", PyStr "jpg");
            ("NAME_FORMAT", PyInt 2); ("FONTS", PyStr "ch");
            ("LANGUAGE", PyStr "ch"); ("CORPUS", PyStr "texts/sample_chinese.txt");
            ("CORPUS_TYPE", PyStr "CORPUS")]
           [("COLOR", PyStr "(0,0,0)"); ("STROKE_WIDTH", PyInt 0);
            ("STROKE_FILL", PyStr "(0,0,0)"); ("HEIGHT", PyInt 0);
            ("WIDTH", PyInt 0); ("ORIENTATION", PyInt 0); ("SPACE_WIDTH", PyFloat 1);
            ("MARGINS", PyStr "5,4,5,4"); ("FIT", PyBool false);
            ("SKEW_ANGLE", PyInt 5); ("RANDOM_SKEW", PyBool true);
            ("NUM_WORKERS", PyInt 4)]
           "SIZE" (PyInt 32)); try reflexivity.
  repeat (apply List.Forall_cons; [simpl; discriminate|]). apply List.Forall_nil.
Defined.

Lemma flatten_items_present (items : Ns.t) (k : string) :
  forall args : args_t, is_Some (args !! k) ->
    is_Some (fold_left flatten_option items args !! k).
Proof.
  induction items as [|[key value] items IH]; intros args Hk; cbn [fold_left];
    [exact Hk|].
  apply IH. destruct (string_dec (Str.lower key) k) as [<-|Hne].
  - unfold flatten_option. destruct (args !! Str.lower key) as [v0|] eqn:E.
    + destruct (is_None v0); [rewrite lookup_insert_eq; eauto | now rewrite E].
    + rewrite lookup_insert_eq. eauto.
  - now rewrite flatten_option_other.
Qed.

Lemma flatten_items_untouched (items : Ns.t) (k : string) :
  Forall (fun kv => Str.lower (fst kv) <> k) items ->
  forall args : args_t, fold_left flatten_option items args !! k = args !! k.
Proof.
  induction 1 as [|[key value] items Hkv _ IH]; intros args; cbn [fold_left];
    [reflexivity|].
  rewrite IH. now apply flatten_option_other.
Qed.

Lemma flatten_items_cover (items : Ns.t) :
  forall args : args_t,
    Forall (fun kv => is_Some (fold_left flatten_option items args !! Str.lower (fst kv)))
      items.
Proof.
  induction items as [|[key value] items IH]; intros args; constructor.
  - cbn [fold_left fst]. apply flatten_items_present.
    unfold flatten_option. destruct (args !! Str.lower key) as [v0|] eqn:E.
    + destruct (is_None v0); [rewrite lookup_insert_eq; eauto | now rewrite E].
    + rewrite lookup_insert_eq. eauto.
  - cbn [fold_left]. apply IH.
Qed.

(** X11. After flattening a well-formed configuration, every option of
    every section is an attribute of [args] under its lower-case name, the
    attributes [args] had are still there, and an attribute that no option
    names is exactly as it was. *)
Theorem flatten_covers_configuration (cfg : pyval) (args : args_t) :
  cfg_ok cfg = true ->
  exists args',
    flatten_config cfg args = Ok args' /\
    Forall (fun kv => is_Some (args' !! Str.lower (fst kv))) (all_options cfg) /\
    (forall k, is_Some (args !! k) -> is_Some (args' !! k)) /\
    (forall k, Forall (fun kv => Str.lower (fst kv) <> k) (all_options cfg) ->
               args' !! k = args !! k).
Proof.
  intros Hok. rewrite (flatten_config_is_fold _ _ Hok).
  eexists. split; [reflexivity|]. split; [apply flatten_items_cover|]. split.
  - intros k. apply flatten_items_present.
  - intros k Hk. now apply flatten_items_untouched.
Qed.

Lemma flatten_covers_configuration_witness :
  exists args',
    flatten_config cfg_quick_start_yaml (parse_args cli_none) = Ok args' /\
    Forall (fun kv => is_Some (args' !! Str.lower (fst kv)))
      (all_options cfg_quick_start_yaml).
Proof.
  destruct (flatten_covers_configuration cfg_quick_start_yaml (parse_args cli_none)
              eq_refl) as (args' & H1 & H2 & _).
  exists args'. auto.
Defined.

(** ** Early returns of main *)

Lemma present_arg (args : args_t) (k : string) :
  is_Some (args !! k) -> exists v, arg args k = Ok v.
Proof. intros [v Hv]. exists v. now apply arg_some. Qed.

Lemma summary_of_flattened (items : Ns.t) (c : cli) :
  print_settings_summary (fold_left flatten_option items (parse_args c)) = Ok tt /\
  exists n, arg (fold_left flatten_option items (parse_args c)) "count" = Ok n.
Proof.
  assert (Hp : forall k, is_Some (parse_args c !! k) ->
                 exists v, arg (fold_left flatten_option items (parse_args c)) k = Ok v).
  { intros k Hk. apply present_arg. now apply flatten_items_present. }
  split.
  - unfold print_settings_summary.
    destruct (Hp "language") as [? ->]; [eexists; reflexivity|]. rewrite rbind_Ok.
    destruct (Hp "corpus") as [? ->]; [eexists; reflexivity|]. rewrite rbind_Ok.
    destruct (Hp "fonts") as [? ->]; [eexists; reflexivity|]. rewrite rbind_Ok.
    destruct (Hp "output_dir") as [? ->]; [eexists; reflexivity|]. rewrite rbind_Ok.
    destruct (Hp "size") as [? ->]; [eexists; reflexivity|]. rewrite rbind_Ok.
    destruct (Hp "num_workers") as [? ->]; [eexists; reflexivity|]. rewrite rbind_Ok.
    destruct (Hp "extension") as [? ->]; [eexists; reflexivity|]. now rewrite rbind_Ok.
  - apply Hp. eexists. reflexivity.
Qed.

Section EarlyReturns.

Variable World : Type.
Variable fs : filesystem.
Variable load_config : string -> res pyval.
Variable create_strings_from_corpus_file : pyval -> res (list Text.t).
Variable create_strings_randomly_from_chars :
  pyval -> pyval -> pyval -> pyval -> pyval -> pyval -> pyval -> res (list Text.t).
Variable create_strings_from_dict :
  pyval -> pyval -> pyval -> list Text.t -> res (list Text.t).
Variable mkdir : string -> res unit.
Variable generate : JobDescriptor -> World -> World * option exn.
Variable run_pool :
  pyval -> list JobDescriptor -> World -> World * list JobDescriptor * option exn.

(** X12. With the diagnose flag, [main] returns before it reads the
    configuration: nothing is loaded, no job is run, the world is as it
    was and the script ends with status 0. *)
Theorem diagnose_bypasses_pipeline (c : cli) (w : World) :
  cli_diagnose c = true ->
  main World fs load_config create_strings_from_corpus_file
    create_strings_randomly_from_chars create_strings_from_dict mkdir
    generate run_pool c w = (w, [], Ok tt) /\
  script World fs load_config create_strings_from_corpus_file
    create_strings_randomly_from_chars create_strings_from_dict mkdir
    generate run_pool c w = (w, [], ExitCode 0).
Proof.
  intros Hd.
  assert (Hmain : main World fs load_config create_strings_from_corpus_file
                    create_strings_randomly_from_chars create_strings_from_dict mkdir
                    generate run_pool c w = (w, [], Ok tt)).
  { unfold main, main_prepare.
    assert (Hdg : arg (parse_args c) "diagnose" = Ok (PyBool (cli_diagnose c)))
      by reflexivity.
    now rewrite Hdg, Hd, rbind_Ok. }
  split; [exact Hmain|]. unfold script. now rewrite Hmain.
Qed.

(** X13. With the dry-run flag (and no quick start), on a well-formed
    configuration [main] returns once the settings are resolved: no asset
    is read, no directory is made, no job is run, and the world is as it
    was. *)
Theorem dry_run_runs_no_job (c : cli) (cfg : pyval) (w : World) :
  cli_diagnose c = false ->
  cli_dry_run c = true ->
  cli_quick_start c = false ->
  load_config (default "configs/config.yaml" (cli_cfg c)) = Ok cfg ->
  cfg_ok cfg = true ->
  main World fs load_config create_strings_from_corpus_file
    create_strings_randomly_from_chars create_strings_from_dict mkdir
    generate run_pool c w = (w, [], Ok tt).
Proof.
  intros Hd Hdry Hq Hcfg Hok. unfold main, main_prepare.
  assert (Hdg : arg (parse_args c) "diagnose" = Ok (PyBool (cli_diagnose c)))
    by reflexivity.
  rewrite Hdg, Hd, rbind_Ok. simpl truthy. cbv iota.
  assert (Hvb : arg (parse_args c) "verbose" = Ok (PyBool (cli_verbose c)))
    by reflexivity.
  rewrite Hvb, rbind_Ok.
  assert (Hpath : arg (parse_args c) "cfg"
                  = Ok (PyStr (default "configs/config.yaml" (cli_cfg c))))
    by reflexivity.
  rewrite Hpath, rbind_Ok. simpl as_str. rewrite rbind_Ok, Hcfg, rbind_Ok.
  unfold resolve.
  assert (Hqs : arg (parse_args c) "quick_start" = Ok (PyBool (cli_quick_start c)))
    by reflexivity.
  rewrite Hqs, Hq, rbind_Ok. simpl truthy. cbv iota. rewrite rbind_Ok.
  destruct (apply_command_line_overrides_ok (parse_args c) cfg
              (PyBool (cli_verbose c)) (PyBool (cli_no_skew c)) (cli_color c))
    as (cfg' & -> & Hok' & _); [reflexivity..|exact Hok|].
  rewrite rbind_Ok, (flatten_config_is_fold _ _ Hok'), !rbind_Ok.
  set (args2 := fold_left flatten_option (all_options cfg') (parse_args c)).
  assert (Hv2 : arg args2 "verbose" = Ok (PyBool (cli_verbose c))).
  { apply arg_some, flatten_items_keep; reflexivity. }
  assert (Hd2 : arg args2 "dry_run" = Ok (PyBool true)).
  { assert (Hgiven : parse_args c !! "dry_run" = Some (PyBool (cli_dry_run c)))
      by reflexivity.
    rewrite Hdry in Hgiven.
    apply arg_some, flatten_items_keep; [reflexivity | exact Hgiven]. }
  destruct (summary_of_flattened (all_options cfg') c) as [Hsum [n Hcount]].
  fold args2 in Hsum, Hcount.
  rewrite Hv2, rbind_Ok.
  assert (Hshow : (if truthy (PyBool (cli_verbose c))
                   then print_settings_summary args2 else Ok tt) = Ok tt)
    by (destruct (truthy _); [exact Hsum | reflexivity]).
  rewrite Hshow, rbind_Ok, Hd2, rbind_Ok. simpl truthy. cbv iota.
  now rewrite Hsum, rbind_Ok, Hcount, rbind_Ok.
Qed.

End EarlyReturns.

(** [--diagnose] and [--dry_run --count 500], with collaborators that
    fail if they are ever called. *)
Definition cli_diagnose_only : cli :=
  {| cli_cfg := None; cli_quick_start := false; cli_output_dir := None;
     cli_language := None; cli_corpus := None; cli_count := None;
     cli_fonts := None; cli_size := None; cli_color := None; cli_width := None;
     cli_height := None; cli_extension := None; cli_margins := None;
     cli_skew_angle := None; cli_no_skew := false; cli_num_workers := None;
     cli_verbose := false; cli_dry_run := false; cli_diagnose := true |}.

Definition cli_dry_run_500 : cli :=
  {| cli_cfg := None; cli_quick_start := false; cli_output_dir := None;
     cli_language := None; cli_corpus := None; cli_count := Some 500;
     cli_fonts := None; cli_size := None; cli_color := None; cli_width := None;
     cli_height := None; cli_extension := None; cli_margins := None;
     cli_skew_angle := None; cli_no_skew := false; cli_num_workers := None;
     cli_verbose := true; cli_dry_run := true; cli_diagnose := false |}.

Definition failing (msg : string) {A} : res A := Raise (OtherException msg).

Lemma diagnose_bypasses_pipeline_witness :
  main (list nat) fs_empty (fun _ => failing "config") (fun _ => failing "corpus")
    (fun _ _ _ _ _ _ _ => failing "random") (fun _ _ _ _ => failing "dict")
    (fun _ => failing "mkdir") generate_fails_at_1 no_pool cli_diagnose_only []
  = ([], [], Ok tt).
Proof.
  exact (proj1 (diagnose_bypasses_pipeline (list nat) fs_empty
                  (fun _ => failing "config") (fun _ => failing "corpus")
                  (fun _ _ _ _ _ _ _ => failing "random") (fun _ _ _ _ => failing "dict")
                  (fun _ => failing "mkdir") generate_fails_at_1 no_pool
                  cli_diagnose_only [] eq_refl)).
Defined.

Lemma dry_run_runs_no_job_witness :
  main (list nat) fs_empty (fun _ => Ok cfg_quick_start_yaml) (fun _ => failing "corpus")
    (fun _ _ _ _ _ _ _ => failing "random") (fun _ _ _ _ => failing "dict")
    (fun _ => failing "mkdir") generate_fails_at_1 no_pool cli_dry_run_500 []
  = ([], [], Ok tt).
Proof.
  exact (dry_run_runs_no_job (list nat) fs_empty (fun _ => Ok cfg_quick_start_yaml)
           (fun _ => failing "corpus") (fun _ _ _ _ _ _ _ => failing "random")
           (fun _ _ _ _ => failing "dict") (fun _ => failing "mkdir")
           generate_fails_at_1 no_pool cli_dry_run_500 cfg_quick_start_yaml []
           eq_refl eq_refl eq_refl eq_refl eq_refl).
Defined.

(** ** The colour and the job list *)

Lemma rmap_int_raises (l : list string) (e : exn) :
  rmap Str.int l = Raise e -> e = ValueError.
Proof.
  induction l as [|x l IH]; simpl; [discriminate|].
  destruct (Str.int x) as [z|e0] eqn:Ez; simpl.
  - destruct (rmap Str.int l) as [zs|e1]; simpl; [discriminate|].
    intros [= <-]. now apply IH.
  - intros [= <-]. unfold Str.int in Ez.
    destruct (match Str.strip_by Str.is_c_space x with
              | String "-" d => option_map Z.opp (Str.int_digits 0 false d)
              | String "+" d => Str.int_digits 0 false d
              | _ => Str.int_digits 0 false (Str.strip_by Str.is_c_space x)
              end); congruence.
Qed.

(** X14. The colour step of [main] either yields a palette of exactly one
    colour, or raises.  With the attribute [color] present, what it raises
    is the exit of the process with status 1: a colour that is not a
    string, a component that is not an integer and arguments without
    [verbose] all end that way.  Without the attribute the handler, which
    prints it, raises [AttributeError] itself. *)
Theorem parse_font_colors_one_colour_or_exit (args : args_t) :
  (forall palette, parse_font_colors args = Ok palette -> length palette = 1%nat) /\
  (forall e, parse_font_colors args = Raise e ->
     e = SystemExit (ExitCode 1) \/
     (e = AttributeError "color" /\ args !! "color" = None)) /\
  (is_Some (args !! "color") ->
   forall e, parse_font_colors args = Raise e -> e = SystemExit (ExitCode 1)).
Proof.
  assert (Hraise : forall e, parse_font_colors args = Raise e ->
     e = SystemExit (ExitCode 1) \/
     (e = AttributeError "color" /\ args !! "color" = None)).
  { unfold parse_font_colors.
    destruct (let* color := arg args "color" in _) as [palette|e0] eqn:E;
      simpl; [intros e He; discriminate He|].
    assert (He0 : is_Exception e0 = true).
    { unfold arg in E. destruct (args !! "color") as [v|]; simpl in E;
        [|injection E as <-; reflexivity].
      destruct v; simpl in E; try (injection E as <-; reflexivity).
      destruct (rmap Str.int _) as [fc|e1] eqn:Er; simpl in E.
      - destruct (args !! "verbose"); simpl in E; [discriminate|].
        injection E as <-. reflexivity.
      - injection E as <-. now rewrite (rmap_int_raises _ _ Er). }
    rewrite He0. unfold arg. destruct (args !! "color") as [v|]; simpl.
    - intros e [= <-]. now left.
    - intros e [= <-]. now right. }
  split; [|split].
  - unfold parse_font_colors.
    destruct (let* color := arg args "color" in _) as [palette|e0] eqn:E; simpl.
    + intros p [= <-].
      apply rbind_ok in E as (color & _ & E).
      apply rbind_ok in E as (c & _ & E).
      apply rbind_ok in E as (fc & _ & E).
      apply rbind_ok in E as (vb & _ & E). now injection E as <-.
    + intros p Hp. destruct (is_Exception e0); [|discriminate Hp].
      destruct (arg args "color"); discriminate Hp.
  - exact Hraise.
  - intros [v Hv] e He. destruct (Hraise e He) as [Hx|[_ Hx]]; [exact Hx|congruence].
Qed.

Lemma parse_font_colors_one_colour_or_exit_witness :
  length [[255; 0; 0]] = 1%nat /\
  SystemExit (ExitCode 1) = SystemExit (ExitCode 1).
Proof.
  split.
  - exact (proj1 (parse_font_colors_one_colour_or_exit
                    (list_to_map [("color", PyStr "( 255, 0,0 )");
                                  ("verbose", PyBool false)]))
             [[255; 0; 0]] eq_refl).
  - apply (proj2 (proj2 (parse_font_colors_one_colour_or_exit
                           {[ "color" := PyStr "red" ]}))).
    + vm_compute. eauto.
    + reflexivity.
Defined.

(** Without the attribute [color] the handler of step 11 fails itself. *)
Example parse_font_colors_handler_needs_color :
  parse_font_colors {[ "verbose" := PyBool false ]} = Raise (AttributeError "color").
Proof. vm_compute. reflexivity. Qed.

Lemma build_param_tuple_inv (args : args_t) font_paths output_dir palette
    margins_str (i : nat) (text : Text.t) (job : JobDescriptor) :
  build_param_tuple args font_paths output_dir palette margins_str i text = Ok job ->
  jd_index job = i /\ jd_text job = text /\ jd_font_paths job = font_paths /\
  jd_output_dir job = output_dir /\ jd_margins job = margins_str /\
  jd_cursive job = 0 /\ In (jd_color job) palette /\
  arg args "size" = Ok (jd_size job) /\
  arg args "extension" = Ok (jd_extension job) /\
  arg args "width" = Ok (jd_width job) /\
  arg args "height" = Ok (jd_height job).
Proof.
  intros H. unfold build_param_tuple in H. inv_bind H.
  injection H as <-. simpl.
  repeat split; try assumption.
  destruct (nth_error palette x) as [c|] eqn:Hc; [|discriminate].
  injection Hx4 as <-. eapply nth_error_In. exact Hc.
Qed.

Lemma build_loop_inv (args : args_t) font_paths output_dir palette margins_str
    (strings : list Text.t) :
  forall i jobs,
    build_loop args font_paths output_dir palette margins_str i strings = Ok jobs ->
    map jd_index jobs = seq i (length strings) /\
    map jd_text jobs = strings /\
    Forall (fun job =>
              jd_font_paths job = font_paths /\ jd_output_dir job = output_dir /\
              jd_margins job = margins_str /\ jd_cursive job = 0 /\
              In (jd_color job) palette /\
              arg args "size" = Ok (jd_size job) /\
              arg args "extension" = Ok (jd_extension job) /\
              arg args "width" = Ok (jd_width job) /\
              arg args "height" = Ok (jd_height job)) jobs.
Proof.
  induction strings as [|text rest IH]; intros i jobs H; simpl in H.
  - injection H as <-. repeat split; constructor.
  - apply rbind_ok in H as (job & Hjob & H).
    apply rbind_ok in H as (jobs' & Hjobs & H). injection H as <-.
    destruct (build_param_tuple_inv _ _ _ _ _ _ _ _ Hjob) as (Hi & Ht & Hrest).
    destruct (IH _ _ Hjobs) as (Hidx & Htxt & Hall).
    simpl. rewrite Hi, Ht, Hidx, Htxt. repeat split.
    constructor; [exact Hrest | exact Hall].
Qed.

(** X15. The job list is aligned with the strings: when the builder
    returns, job [n] carries index [n] and the [n]-th string; every job
    carries the whole list of font paths, the output directory, the
    margins string of [args], a zero cursive flag and the size, extension,
    width and height that [args] holds. *)
Theorem job_list_is_aligned (args : args_t) (strings : list Text.t)
    (font_paths : list string) (output_dir : string) (palette : list (list Z))
    (jobs : list JobDescriptor) :
  build_image_params args strings font_paths output_dir palette = Ok jobs ->
  map jd_index jobs = seq 0 (length strings) /\
  map jd_text jobs = strings /\
  Forall (fun job =>
            jd_font_paths job = font_paths /\ jd_output_dir job = output_dir /\
            arg args "margins" = Ok (jd_margins job) /\ jd_cursive job = 0 /\
            arg args "size" = Ok (jd_size job) /\
            arg args "extension" = Ok (jd_extension job) /\
            arg args "width" = Ok (jd_width job) /\
            arg args "height" = Ok (jd_height job)) jobs.
Proof.
  unfold build_image_params. intros H.
  apply rbind_ok in H as (m & Hm & H).
  destruct (build_loop_inv _ _ _ _ _ _ _ _ H) as (Hidx & Htxt & Hall).
  split; [exact Hidx|]. split; [exact Htxt|].
  eapply Forall_impl; [exact Hall|]. simpl.
  intros job (H1 & H2 & H3 & H4 & _ & H6 & H7 & H8 & H9).
  rewrite H3. repeat split; assumption.
Qed.

Definition jobs_of (r : res (list JobDescriptor)) : list JobDescriptor :=
  match r with Ok jobs => jobs | Raise _ => [] end.

Lemma job_list_is_aligned_witness :
  map jd_index
    (jobs_of (build_image_params args_jobs [[97]; [98]; [99]]%N ["fonts/ch/a.ttf"]
                "out" palette3))
  = [0; 1; 2]%nat.
Proof.
  refine (proj1 (job_list_is_aligned args_jobs [[97]; [98]; [99]]%N ["fonts/ch/a.ttf"]
                   "out" palette3 _ _)).
  vm_compute. reflexivity.
Defined.

Section JobList.

Variable fs : filesystem.
Variable create_strings_from_corpus_file : pyval -> res (list Text.t).
Variable create_strings_randomly_from_chars :
  pyval -> pyval -> pyval -> pyval -> pyval -> pyval -> pyval -> res (list Text.t).
Variable create_strings_from_dict :
  pyval -> pyval -> pyval -> list Text.t -> res (list Text.t).
Variable mkdir : string -> res unit.

(** X16. When steps 8 to 13 of [main] succeed, all jobs carry one and the
    same colour and one and the same list of fonts, which is not empty and
    holds regular files only, and the jobs are numbered from 0 upwards. *)
Theorem prepared_jobs_share_colour_and_fonts
    (args : args_t) (jobs : list JobDescriptor) :
  prepared_jobs
    (prepare_jobs fs create_strings_from_corpus_file create_strings_randomly_from_chars
       create_strings_from_dict mkdir args) = Some jobs ->
  (exists colour, Forall (fun job => jd_color job = colour) jobs) /\
  (exists fonts,
      fonts <> [] /\ Forall (fun font => Path.is_file fs font = true) fonts /\
      Forall (fun job => jd_font_paths job = fonts) jobs) /\
  map jd_index jobs = seq 0 (length jobs).
Proof.
  intros Hsome.
  destruct (prepare_jobs _ _ _ _ _ args) as [[args' jobs']|e] eqn:H;
    simpl in Hsome; [|discriminate].
  injection Hsome as ->. unfold prepare_jobs in H.
  apply rbind_ok in H as ([corpus_list font_paths] & Hassets & H).
  apply rbind_ok in H as ([args1 strings] & Hstrings & H).
  apply rbind_ok in H as (font_colors & Hcolors & H).
  apply rbind_ok in H as (out & _ & H).
  apply rbind_ok in H as (output_dir & _ & H).
  apply rbind_ok in H as (u & _ & H).
  apply rbind_ok in H as (image_params & Hbuild & H).
  injection H as <- <-.
  unfold build_image_params in Hbuild.
  apply rbind_ok in Hbuild as (m & _ & Hbuild).
  destruct (build_loop_inv _ _ _ _ _ _ _ _ Hbuild) as (Hidx & Htxt & Hall).
  split; [|split].
  - unfold parse_font_colors in Hcolors.
    apply except_exit_1_ok in Hcolors as E.
    apply rbind_ok in E as (color & _ & E).
    apply rbind_ok in E as (c & _ & E).
    apply rbind_ok in E as (fc & _ & E).
    apply rbind_ok in E as (vb & _ & E). injection E as <-.
    exists fc. eapply Forall_impl; [exact Hall|]. simpl.
    intros job (_ & _ & _ & _ & [Hin|[]] & _). now symmetry.
  - exists font_paths.
    unfold load_assets in Hassets.
    apply rbind_ok in Hassets as (cl & _ & Hassets).
    apply rbind_ok in Hassets as (fp & Hfp & Hassets). injection Hassets as <- <-.
    assert (Hfonts : fp <> [] /\ Forall (fun font => Path.is_file fs font = true) fp).
    { apply except_exit_1_ok in Hfp as E.
      apply rbind_ok in E as (fonts & _ & E).
      apply rbind_ok in E as (fp0 & E & E').
      apply rbind_ok in E' as (vb & _ & E'). injection E' as ->.
      unfold load_fonts in E.
      destruct (truthy fonts); [apply rbind_ok in E as (f & _ & E)|];
        (destruct (negb (Path.exists_ fs _)); [discriminate|];
         destruct (Path.is_file fs (Path.norm _)) eqn:Hfile;
         [injection E as <-; split; [discriminate|]; repeat constructor; exact Hfile|];
         destruct (filter _ _) as [|font rest] eqn:Hfilter; [discriminate|];
         injection E as <-; split; [discriminate|];
         rewrite <- Hfilter; apply Forall_forall; intros f0 Hin;
         apply list_elem_of_filter in Hin as [Hf _]; now apply Is_true_true in Hf). }
    destruct Hfonts as [Hne Hreg]. repeat split; try assumption.
    eapply Forall_impl; [exact Hall|]. simpl. now intros job (H1 & _).
  - rewrite Hidx. f_equal. rewrite <- Htxt at 1. now rewrite !length_map.
Qed.

End JobList.

(** A run over a corpus of two lines with the fonts of [fs_fonts]. *)
Definition fs_run : filesystem := fun p =>
  if String.eqb p "texts/two.txt" then Some (File [97; 10; 98; 10]%N) else fs_fonts p.

Definition args_run : args_t :=
  list_to_map [
    ("corpus", PyStr "texts/two.txt"); ("fonts", PyStr "ch");
    ("corpus_type", PyStr "corpus"); ("color", PyStr "(255,0,0)");
    ("output_dir", PyStr "output//images/");
    ("margins", PyStr "5,4,5,4"); ("size", PyInt 32); ("extension", PyStr "jpg");
    ("skew_angle", PyInt 5); ("width", PyInt 0); ("orientation", PyInt 0);
    ("space_width", PyFloat 1); ("fit", PyBool false); ("stroke_width", PyInt 0);
    ("stroke_fill", PyStr "(0,0,0)"); ("height", PyInt 0);
    ("verbose", PyBool false)].

Definition corpus_stub (corpus : pyval) : res (list Text.t) := Ok [[97]; [98]]%N.

Definition job_run (i : nat) (text : Text.t) : JobDescriptor :=
  {| jd_index := i; jd_text := text;
     jd_font_paths := ["fonts/ch/b.ttf"; "fonts/ch/a.ttf"];
     jd_output_dir := "output/images"; jd_cursive := 0; jd_size := PyInt 32;
     jd_extension := PyStr "jpg"; jd_skew_angle := PyInt 5; jd_width := PyInt 0;
     jd_color := [255; 0; 0]; jd_orientation := PyInt 0; jd_space_width := PyFloat 1;
     jd_margins := PyStr "5,4,5,4"; jd_fit := PyBool false;
     jd_stroke_width := PyInt 0; jd_stroke_fill := PyStr "(0,0,0)";
     jd_height := PyInt 0 |}.

Lemma prepared_jobs_share_colour_and_fonts_witness :
  map jd_index [job_run 0 [97%N]; job_run 1 [98%N]] = seq 0 2.
Proof.
  refine (proj2 (proj2 (prepared_jobs_share_colour_and_fonts fs_run corpus_stub
                          sampler_stub (fun _ _ _ _ => Ok []) (fun _ => Ok tt)
                          args_run [job_run 0 [97%N]; job_run 1 [98%N]] _))).
  vm_compute. reflexivity.
Defined.

(** ** The text strategies *)

Section OtherStrategies.

Variable create_strings_from_corpus_file : pyval -> res (list Text.t).
Variable create_strings_randomly_from_chars :
  pyval -> pyval -> pyval -> pyval -> pyval -> pyval -> pyval -> res (list Text.t).
Variable create_strings_from_dict :
  pyval -> pyval -> pyval -> list Text.t -> res (list Text.t).

(** X17. The strategy name is compared in upper case.  Under the corpus
    strategy the strings come from the corpus file named in [args], not
    from the lines already loaded; any name other than CORPUS and RANDOM
    selects the dictionary strategy over the loaded lines.  Neither
    changes [args], so the naming scheme stays as configured. *)
Theorem other_strategies_keep_arguments
    (args : args_t) (corpus_list : list Text.t) (ct : string) :
  args !! "corpus_type" = Some (PyStr ct) ->
  (Str.upper ct = "CORPUS" ->
   forall path, args !! "corpus" = Some (PyStr path) ->
     make_strings create_strings_from_corpus_file create_strings_randomly_from_chars
       create_strings_from_dict args corpus_list
     = (let* strings := create_strings_from_corpus_file (PyStr path) in
        Ok (args, strings))) /\
  (Str.upper ct <> "CORPUS" -> Str.upper ct <> "RANDOM" ->
   forall len rnd cnt,
     args !! "length" = Some len -> args !! "random" = Some rnd ->
     args !! "count" = Some cnt ->
     make_strings create_strings_from_corpus_file create_strings_randomly_from_chars
       create_strings_from_dict args corpus_list
     = (let* strings := create_strings_from_dict len rnd cnt corpus_list in
        Ok (args, strings))).
Proof.
  intros Hct. split.
  - intros Hup path Hpath. unfold make_strings.
    rewrite (arg_some _ _ _ Hct), rbind_Ok. simpl as_str. rewrite rbind_Ok, Hup.
    change (String.eqb "CORPUS" "CORPUS") with true. cbv iota.
    rewrite (arg_some _ _ _ Hpath), rbind_Ok. simpl as_str. now rewrite rbind_Ok.
  - intros Hc Hr len rnd cnt Hlen Hrnd Hcnt. unfold make_strings.
    rewrite (arg_some _ _ _ Hct), rbind_Ok. simpl as_str. rewrite rbind_Ok.
    apply String.eqb_neq in Hc, Hr. rewrite Hc, Hr.
    now rewrite (arg_some _ _ _ Hlen), rbind_Ok, (arg_some _ _ _ Hrnd), rbind_Ok,
      (arg_some _ _ _ Hcnt), rbind_Ok.
Qed.

End OtherStrategies.

(** A strategy name with a typing error. *)
Definition args_typo : args_t :=
  list_to_map [
    ("corpus_type", PyStr "corpsu"); ("corpus", PyStr "texts/two.txt");
    ("length", PyInt 2); ("random", PyBool false); ("count", PyInt 3);
    ("name_format", PyInt 0)].

Definition dict_stub (len rnd cnt : pyval) (corpus_list : list Text.t)
  : res (list Text.t) := Ok corpus_list.

Lemma other_strategies_keep_arguments_witness :
  make_strings corpus_stub sampler_stub dict_stub args_typo [[120]; [121]]%N
  = Ok (args_typo, [[120]; [121]]%N).
Proof.
  refine (proj2 (other_strategies_keep_arguments corpus_stub sampler_stub dict_stub
                   args_typo [[120]; [121]]%N "corpsu" eq_refl)
            _ _ (PyInt 2) (PyBool false) (PyInt 3) eq_refl eq_refl eq_refl);
    simpl; discriminate.
Defined.

(* ===================================================================== *)
(** * Further properties of img_aug.py *)
(* ===================================================================== *)

(** The noise stage returns whenever [var] is not negative. *)
Lemma add_gaussian_noise_returns (PyRng NpRng : Type)
    (random_random : PyRng -> Q * PyRng) (standard_normal : NpRng -> Q * NpRng)
    (round64 round32 : Q -> Q) (img : Image) (p var : Q) (s : rng PyRng NpRng) :
  (0 <= var)%Q ->
  exists out s',
    add_gaussian_noise PyRng NpRng random_random standard_normal round64 round32
      img p var s = Ok (out, s').
Proof.
  intros Hvar. unfold add_gaussian_noise.
  destruct (_rand_bool _ _ _ p s) as [fire s1].
  destruct (negb fire); [eauto|]. now apply noise_effect_nonneg.
Qed.

Section StageProps.

Variable PyRng NpRng : Type.
Variable random_random : PyRng -> Q * PyRng.
Variable standard_normal : NpRng -> Q * NpRng.
Variable round64 round32 : Q -> Q.
Variable GaussianBlur : Q -> Image -> Image.
Variable Brightness_enhance : Q -> Image -> Image.
Variable Contrast_enhance : Q -> Image -> Image.

Hypothesis random_range :
  forall g, (0 <= fst (random_random g) /\ fst (random_random g) < 1)%Q.

Lemma uniform_exact_range (a b : Q) (s : rng PyRng NpRng) :
  (a < b)%Q ->
  (a <= fst (uniform PyRng NpRng random_random exact a b s)
   /\ fst (uniform PyRng NpRng random_random exact a b s) < b)%Q.
Proof.
  intros Hab. unfold uniform, exact.
  destruct (random_range (py_rng _ _ s)) as [H0 H1].
  destruct (random_random (py_rng _ _ s)) as [u g]. simpl in *.
  assert (Hd : (0 < b - a)%Q) by lra.
  assert (Hlo : (0 <= (b - a) * u)%Q) by (apply Qmult_le_0_compat; lra).
  assert (Hhi : ((b - a) * u < (b - a) * 1)%Q)
    by (apply Qmult_lt_l; assumption).
  split; lra.
Qed.

(** X18. In exact arithmetic, with [random()] in the half-open interval
    from 0 to 1, the blur stage calls Pillow with a radius of at least 0.3
    and below 1.5, and the brightness and contrast stages with a factor of
    at least 0.7 and below 1.3. *)
Theorem effect_parameters_in_range (img : Image) (s : rng PyRng NpRng) :
  (exists radius s',
      blur_effect PyRng NpRng random_random exact GaussianBlur img s
      = (GaussianBlur radius img, s') /\ (f_0_3 <= radius /\ radius < f_1_5)%Q) /\
  (exists factor s',
      brightness_effect PyRng NpRng random_random exact Brightness_enhance img s
      = (Brightness_enhance factor img, s') /\ (f_0_7 <= factor /\ factor < f_1_3)%Q) /\
  (exists factor s',
      contrast_effect PyRng NpRng random_random exact Contrast_enhance img s
      = (Contrast_enhance factor img, s') /\ (f_0_7 <= factor /\ factor < f_1_3)%Q).
Proof.
  assert (H1 : (f_0_3 < f_1_5)%Q) by reflexivity.
  assert (H2 : (f_0_7 < f_1_3)%Q) by reflexivity.
  pose proof (uniform_exact_range f_0_3 f_1_5 s H1) as Hr.
  pose proof (uniform_exact_range f_0_7 f_1_3 s H2) as Hf.
  unfold blur_effect, brightness_effect, contrast_effect.
  destruct (uniform PyRng NpRng random_random exact f_0_3 f_1_5 s) as [radius s1].
  destruct (uniform PyRng NpRng random_random exact f_0_7 f_1_3 s) as [factor s2].
  simpl in Hr, Hf. repeat split; eauto.
Qed.

(** A stage leaves the generator of [np.random] alone unless it is the
    noise stage and fires. *)
Lemma pillow_stages_keep_np (img : Image) (p : Q) (s : rng PyRng NpRng) :
  np_rng _ _ (snd (gaussian_blur PyRng NpRng random_random round64 GaussianBlur img p s))
  = np_rng _ _ s /\
  np_rng _ _ (snd (brightness PyRng NpRng random_random round64 Brightness_enhance img p s))
  = np_rng _ _ s /\
  np_rng _ _ (snd (contrast PyRng NpRng random_random round64 Contrast_enhance img p s))
  = np_rng _ _ s.
Proof.
  unfold gaussian_blur, brightness, contrast, blur_effect, brightness_effect,
    contrast_effect, _rand_bool, uniform.
  destruct (random_random (py_rng _ _ s)) as [u g]. simpl.
  destruct (negb (Qltb u p)); simpl; [auto|].
  destruct (random_random g) as [u' g']. simpl. auto.
Qed.

(** X19. Only the noise stage draws from the generator of [np.random]:
    with the noise probability at 0 the whole pipeline returns and leaves
    that generator as it found it, whatever the other three probabilities
    are; and the noise stage, which returns whenever [var] is not
    negative, has then taken exactly one number from Python's generator,
    its coin, whether it fired or not. *)
Theorem only_noise_uses_numpy_generator :
  (forall p1 p2 p3 var img s,
      exists out s',
        apply_stages PyRng NpRng
          (augs_with PyRng NpRng random_random standard_normal round64 round32
             GaussianBlur Brightness_enhance Contrast_enhance p1 p2 p3 0 var)
          img s = Ok (out, s') /\
        np_rng _ _ s' = np_rng _ _ s) /\
  (forall p var img s out s',
      add_gaussian_noise PyRng NpRng random_random standard_normal
        round64 round32 img p var s = Ok (out, s') ->
      py_rng _ _ s' = snd (random_random (py_rng _ _ s))) /\
  (forall p var img s,
      (0 <= var)%Q ->
      exists out s',
        add_gaussian_noise PyRng NpRng random_random standard_normal
          round64 round32 img p var s = Ok (out, s') /\
        py_rng _ _ s' = snd (random_random (py_rng _ _ s))).
Proof.
  assert (Hpy : forall p var img s out s',
      add_gaussian_noise PyRng NpRng random_random standard_normal
        round64 round32 img p var s = Ok (out, s') ->
      py_rng _ _ s' = snd (random_random (py_rng _ _ s))).
  { intros p var img s out s'. unfold add_gaussian_noise, _rand_bool.
    destruct (random_random (py_rng _ _ s)) as [u g]. simpl.
    destruct (negb (Qltb u p)); simpl; [now intros [= <- <-]|].
    intros H. now apply noise_effect_ok_inv in H as [_ ->]. }
  split; [|split].
  - intros p1 p2 p3 var img s. unfold augs_with. cbn [apply_stages].
    rewrite rbind_Ok.
    pose proof (pillow_stages_keep_np img p1 s) as (H1 & _ & _).
    destruct (gaussian_blur _ _ _ _ _ img p1 s) as [i1 s1]. simpl in H1.
    rewrite rbind_Ok.
    pose proof (pillow_stages_keep_np i1 p2 s1) as (_ & H2 & _).
    destruct (brightness _ _ _ _ _ i1 p2 s1) as [i2 s2]. simpl in H2.
    rewrite rbind_Ok.
    pose proof (pillow_stages_keep_np i2 p3 s2) as (_ & _ & H3).
    destruct (contrast _ _ _ _ _ i2 p3 s2) as [i3 s3]. simpl in H3.
    unfold add_gaussian_noise.
    rewrite (rand_bool_0 PyRng NpRng random_random random_range). simpl.
    eexists. eexists. split; [reflexivity|]. simpl. congruence.
  - exact Hpy.
  - intros p var img s Hvar.
    destruct (add_gaussian_noise_returns _ _ random_random standard_normal
                round64 round32 img p var s Hvar) as (out & s' & H).
    exists out, s'. split; [exact H|]. exact (Hpy _ _ _ _ _ _ H).
Qed.

End StageProps.

Lemma effect_parameters_in_range_witness :
  exists radius s',
    blur_effect nat nat half_rng exact (tag "+blur") img_demo
      {| py_rng := 0%nat; np_rng := 0%nat |}
    = (tag "+blur" radius img_demo, s') /\ (f_0_3 <= radius /\ radius < f_1_5)%Q.
Proof.
  exact (proj1 (effect_parameters_in_range nat nat half_rng (tag "+blur")
                  (tag "+brightness") (tag "+contrast") half_rng_range img_demo
                  {| py_rng := 0%nat; np_rng := 0%nat |})).
Defined.

Lemma only_noise_uses_numpy_generator_witness :
  exists out s',
    apply_stages nat nat
      (augs_with nat nat half_rng unit_normal exact exact (tag "+blur")
         (tag "+brightness") (tag "+contrast") 1 1 1 0 f_8_0)
      img_demo {| py_rng := 0%nat; np_rng := 7%nat |} = Ok (out, s') /\
    np_rng _ _ s' = 7%nat.
Proof.
  exact (proj1 (only_noise_uses_numpy_generator nat nat half_rng unit_normal exact exact
                  (tag "+blur") (tag "+brightness") (tag "+contrast") half_rng_range)
           1%Q 1%Q 1%Q f_8_0 img_demo {| py_rng := 0%nat; np_rng := 7%nat |}).
Defined.

(** ** The noise stage, continued *)

Section NoiseShape.

Variable PyRng NpRng : Type.
Variable random_random : PyRng -> Q * PyRng.
Variable standard_normal : NpRng -> Q * NpRng.
Variable round64 round32 : Q -> Q.

Lemma normal_fill_length (loc scale : Q) (n : nat) :
  forall g, length (fst (normal_fill NpRng standard_normal round64 loc scale n g)) = n.
Proof.
  induction n as [|n IH]; intros g; simpl; [reflexivity|].
  destruct (standard_normal g) as [z g']. specialize (IH g').
  destruct (normal_fill NpRng standard_normal round64 loc scale n g') as [rest g''].
  simpl in *. now rewrite IH.
Qed.

(** X20. The noise stage keeps the shape of the image: the mode, the size
    and the number of channel values of the image it returns are those of
    the image it was given, whether it fired or not; and it returns an
    image whenever [var] is not negative. *)
Theorem noise_keeps_shape (img : Image) (p var : Q) (s : rng PyRng NpRng) :
  (forall out s',
      add_gaussian_noise PyRng NpRng random_random standard_normal
        round64 round32 img p var s = Ok (out, s') ->
      im_mode out = im_mode img /\ im_size out = im_size img /\
      length (im_data out) = length (im_data img)) /\
  ((0 <= var)%Q ->
   exists out s',
     add_gaussian_noise PyRng NpRng random_random standard_normal
       round64 round32 img p var s = Ok (out, s') /\
     im_mode out = im_mode img /\ im_size out = im_size img /\
     length (im_data out) = length (im_data img)).
Proof.
  assert (Hshape : forall out s',
      add_gaussian_noise PyRng NpRng random_random standard_normal
        round64 round32 img p var s = Ok (out, s') ->
      im_mode out = im_mode img /\ im_size out = im_size img /\
      length (im_data out) = length (im_data img)).
  { intros out s'. unfold add_gaussian_noise, _rand_bool.
    destruct (random_random (py_rng _ _ s)) as [u g]. simpl.
    destruct (negb (Qltb u p)); simpl; [intros [= <- <-]; auto|].
    intros H. apply noise_effect_ok_inv in H as [-> _]. simpl. repeat split.
    rewrite !length_map, length_combine, !length_map, normal_fill_length.
    lia. }
  split; [exact Hshape|].
  intros Hvar. destruct (add_gaussian_noise_returns _ _ random_random standard_normal
              round64 round32 img p var s Hvar) as (out & s' & H).
  exists out, s'. split; [exact H|]. exact (Hshape _ _ H).
Qed.

(** X21. An image whose channel values are within 0..255 stays so through
    the noise stage, whether it fires or not and however the additions are
    rounded: what the stage writes is clipped before it is converted.  The
    stage returns an image whenever [var] is not negative. *)
Theorem noise_keeps_channels_valid (img : Image) (p var : Q) (s : rng PyRng NpRng) :
  Forall (fun v => 0 <= v <= 255) (im_data img) ->
  (forall out s',
      add_gaussian_noise PyRng NpRng random_random standard_normal
        round64 round32 img p var s = Ok (out, s') ->
      Forall (fun v => 0 <= v <= 255) (im_data out)) /\
  ((0 <= var)%Q ->
   exists out s',
     add_gaussian_noise PyRng NpRng random_random standard_normal
       round64 round32 img p var s = Ok (out, s') /\
     Forall (fun v => 0 <= v <= 255) (im_data out)).
Proof.
  intros Hvalid.
  assert (Hkeep : forall out s',
      add_gaussian_noise PyRng NpRng random_random standard_normal
        round64 round32 img p var s = Ok (out, s') ->
      Forall (fun v => 0 <= v <= 255) (im_data out)).
  { intros out s'. unfold add_gaussian_noise, _rand_bool.
    destruct (random_random (py_rng _ _ s)) as [u g]. simpl.
    destruct (negb (Qltb u p)); simpl; [now intros [= <- <-]|].
    apply noise_effect_clipped. }
  split; [exact Hkeep|].
  intros Hvar. destruct (add_gaussian_noise_returns _ _ random_random standard_normal
              round64 round32 img p var s Hvar) as (out & s' & H).
  exists out, s'. split; [exact H|]. exact (Hkeep _ _ H).
Qed.

End NoiseShape.

Lemma noise_keeps_shape_witness :
  exists out s',
    add_gaussian_noise nat nat half_rng unit_normal exact exact
      img_demo 1 f_8_0 {| py_rng := 0%nat; np_rng := 0%nat |} = Ok (out, s') /\
    im_mode out = "L" /\ im_size out = (1%nat, 3%nat) /\
    length (im_data out) = 3%nat.
Proof.
  apply (proj2 (noise_keeps_shape nat nat half_rng unit_normal exact exact
                  img_demo 1%Q f_8_0 {| py_rng := 0%nat; np_rng := 0%nat |})).
  unfold Qle. simpl. lia.
Defined.

Lemma noise_keeps_channels_valid_witness :
  exists out s',
    add_gaussian_noise nat nat half_rng unit_normal exact exact
      img_demo 1 f_8_0 {| py_rng := 0%nat; np_rng := 0%nat |} = Ok (out, s') /\
    Forall (fun v => 0 <= v <= 255) (im_data out).
Proof.
  apply (proj2 (noise_keeps_channels_valid nat nat half_rng unit_normal exact exact
                  img_demo 1%Q f_8_0 {| py_rng := 0%nat; np_rng := 0%nat |}
                  ltac:(unfold img_demo; simpl; repeat constructor; lia))).
  unfold Qle. simpl. lia.
Defined.

Lemma astype_uint8_of_Z (x : Q) (a : Z) : (x == inject_Z a)%Q -> astype_uint8 x = a.
Proof.
  unfold Qeq, astype_uint8. destruct x as [num den]. simpl. intros H.
  rewrite Z.mul_1_r in H. rewrite H. apply Z.quot_mul. lia.
Qed.

Lemma clip_inside (x : Q) : (0 <= x)%Q -> (x <= 255)%Q -> clip 0 255 x = x.
Proof.
  intros H0 H1. unfold clip, Qltb.
  apply Qle_bool_iff in H0, H1. now rewrite H0, H1.
Qed.

Lemma zero_noise_channel (a : Z) (z : Q) :
  0 <= a <= 255 ->
  astype_uint8 (clip 0 255 (exact (inject_Z a + exact (exact (0 + exact (0 * z))))))
  = a.
Proof.
  intros Ha. unfold exact.
  assert (Heq : (inject_Z a + (0 + 0 * z) == inject_Z a)%Q) by ring.
  assert (H0 : (0 <= inject_Z a + (0 + 0 * z))%Q).
  { rewrite Heq. change 0%Q with (inject_Z 0). rewrite <- Zle_Qle. lia. }
  assert (H1 : (inject_Z a + (0 + 0 * z) <= 255)%Q).
  { rewrite Heq. change 255%Q with (inject_Z 255). rewrite <- Zle_Qle. lia. }
  rewrite (clip_inside _ H0 H1). now apply astype_uint8_of_Z.
Qed.

Lemma zero_noise_data (NpRng : Type) (standard_normal : NpRng -> Q * NpRng)
    (data : list Z) :
  Forall (fun v => 0 <= v <= 255) data ->
  forall g,
    map (fun x => astype_uint8 (clip 0 255 x))
      (map (fun an => exact (fst an + snd an))
         (combine (map inject_Z data)
            (map exact
               (fst (normal_fill NpRng standard_normal exact 0 0 (length data) g)))))
    = data.
Proof.
  induction 1 as [|a data Ha _ IH]; intros g; simpl; [reflexivity|].
  destruct (standard_normal g) as [z g']. specialize (IH g').
  destruct (normal_fill NpRng standard_normal exact 0 0 (length data) g') as [rest g''].
  simpl in *. rewrite IH. f_equal. now apply zero_noise_channel.
Qed.

(** X22. In exact arithmetic, with [var] at 0 the noise stage returns an
    image equal to the one it was given, provided the channel values are
    within 0..255: adding zero, clipping and converting back change
    nothing. *)
Theorem zero_variance_noise_is_identity
    (PyRng NpRng : Type) (random_random : PyRng -> Q * PyRng)
    (standard_normal : NpRng -> Q * NpRng)
    (img : Image) (p : Q) (s : rng PyRng NpRng) :
  Forall (fun v => 0 <= v <= 255) (im_data img) ->
  exists s',
    add_gaussian_noise PyRng NpRng random_random standard_normal exact exact
      img p 0 s = Ok (img, s').
Proof.
  intros Hvalid. unfold add_gaussian_noise, _rand_bool.
  destruct (random_random (py_rng _ _ s)) as [u g]. simpl.
  destruct (negb (Qltb u p)); simpl; [eauto|].
  unfold noise_effect. rewrite normal_nonneg by (unfold Qle; simpl; lia).
  rewrite rbind_Ok, length_map. cbn [np_rng py_rng].
  pose proof (zero_noise_data NpRng standard_normal (im_data img) Hvalid (np_rng _ _ s))
    as Hdata.
  destruct (normal_fill NpRng standard_normal exact 0 0 (length (im_data img))
              (np_rng _ _ s)) as [ns g'].
  simpl in *. rewrite Hdata. destruct img. simpl. eauto.
Qed.

Lemma zero_variance_noise_is_identity_witness :
  exists s',
    add_gaussian_noise nat nat half_rng unit_normal exact exact img_demo 1 0
      {| py_rng := 0%nat; np_rng := 0%nat |} = Ok (img_demo, s').
Proof.
  apply (zero_variance_noise_is_identity nat nat half_rng unit_normal img_demo 1%Q
           {| py_rng := 0%nat; np_rng := 0%nat |}).
  unfold img_demo. simpl. repeat constructor; lia.
Defined.

(* ===================================================================== *)
(** * core/logger.py and core/diagnostics.py *)
(* ===================================================================== *)



(** ** check_fonts *)

Lemma glob_ext_names (fs : filesystem) (p ext name : string) :
  name ∈ glob_ext fs p ext ->
  exists entries, fs p = Some (Dir entries) /\ In name entries /\ endswith ext name = true.
Proof.
  unfold glob_ext. destruct (fs p) as [[text|entries]|]; intros H;
    try (inversion H; fail).
  apply list_elem_of_filter in H as [Hext Hin].
  exists entries. split; [reflexivity|]. split; [now apply list_elem_of_In|].
  now apply Is_true_true.
Qed.

Lemma font_files_names (fs : filesystem) (p name : string) :
  In name (concat (map (glob_ext fs p) font_extensions)) ->
  exists entries ext,
    fs p = Some (Dir entries) /\ In name entries /\
    In ext font_extensions /\ endswith ext name = true.
Proof.
  intros H. apply in_concat in H as (l & Hl & Hin).
  apply in_map_iff in Hl as (ext & <- & Hext).
  apply list_elem_of_In, glob_ext_names in Hin as (entries & Hfs & Hin & He).
  exists entries, ext. auto.
Qed.

(** X24. [check_fonts] reports success exactly when it returns names; the
    names it returns are entries of the directory [fonts/<font_dir>] whose
    name ends in .ttf, .otf or .ttc; and when every name it returns is a
    regular file, [load_fonts] on the same argument succeeds and returns
    the path of each of them. *)
Theorem check_fonts_names_are_fonts (fs : filesystem) (font_dir : string) :
  let '(ok, names, msg) := check_fonts fs font_dir in
  let p := Path.norm ("fonts/" ++ font_dir) in
  (ok = true <-> names <> []) /\
  (forall name, In name names ->
     exists entries ext,
       fs p = Some (Dir entries) /\ In name entries /\
       In ext font_extensions /\ endswith ext name = true) /\
  (ok = true ->
   Forall (fun name => Path.is_file fs (Path.child p name) = true) names ->
   exists paths,
     load_fonts fs font_dir = Ok paths /\
     Forall (fun name => In (Path.child p name) paths) names).
Proof.
  unfold check_fonts.
  set (p := Path.norm ("fonts/" ++ font_dir)).
  destruct (negb (Path.exists_ fs p)) eqn:Hex.
  { cbv zeta. repeat split; try discriminate; try congruence. intros name []. }
  destruct (concat (map (glob_ext fs p) font_extensions)) as [|n0 rest] eqn:Hfiles.
  { cbv zeta. repeat split; try discriminate; try congruence. intros name []. }
  cbv zeta. split; [split; [discriminate | reflexivity]|]. split.
  - intros name Hin. apply font_files_names. now rewrite Hfiles.
  - intros _ Hreg.
    assert (Hdir : exists entries, fs p = Some (Dir entries) /\
                     Forall (fun name => In name entries) (n0 :: rest)).
    { destruct (font_files_names fs p n0) as (entries & ext & Hfs & _);
        [rewrite Hfiles; now left|].
      exists entries. split; [exact Hfs|].
      apply Forall_forall. intros name Hin.
      destruct (font_files_names fs p name) as (entries' & _ & Hfs' & Hin' & _);
        [rewrite Hfiles; now apply list_elem_of_In|].
      congruence. }
    destruct Hdir as (entries & Hfs & Hentries).
    assert (Hfile : Path.is_file fs p = false)
      by (unfold Path.is_file; now rewrite Hfs).
    assert (Hmem : Forall (fun name => In (Path.child p name)
                             (map (Path.child p) (regular_files fs p entries)))
                     (n0 :: rest)).
    { rewrite Forall_forall in Hentries, Hreg. apply Forall_forall.
      intros name Hin. apply in_map, list_elem_of_In.
      unfold regular_files. apply list_elem_of_filter. split.
      - apply Is_true_true. now apply Hreg.
      - apply list_elem_of_In. now apply Hentries. }
    exists (map (Path.child p) (regular_files fs p entries)). split; [|exact Hmem].
    unfold load_fonts, Path.glob_star. fold p. rewrite Hex, Hfile, Hfs.
    rewrite filter_map_child.
    destruct (map (Path.child p) (regular_files fs p entries)) eqn:Hm; [|reflexivity].
    inversion Hmem as [|? ? Hn0 _]. destruct Hn0.
Qed.

(** A font directory with a font, a text file and a folder named like a
    font. *)
Definition fs_mixed_fonts : filesystem := fun p =>
  if String.eqb p "fonts/en" then Some (Dir ["README.md"; "a.otf"; "old.ttf"; "b.ttf"])
  else if String.eqb p "fonts/en/README.md" then Some (File [])
  else if String.eqb p "fonts/en/a.otf" then Some (File [])
  else if String.eqb p "fonts/en/b.ttf" then Some (File [])
  else if String.eqb p "fonts/en/old.ttf" then Some (Dir [])
  else None.

Example check_fonts_groups_by_extension :
  fst (check_fonts fs_mixed_fonts "en") = (true, ["old.ttf"; "b.ttf"; "a.otf"]).
Proof. vm_compute. reflexivity. Qed.

Lemma check_fonts_names_are_fonts_witness :
  exists paths,
    load_fonts fs_fonts "ch" = Ok paths /\
    Forall (fun name => In (Path.child "fonts/ch" name) paths) ["b.ttf"; "a.ttf"].
Proof.
  refine (proj2 (proj2 (check_fonts_names_are_fonts fs_fonts "ch")) eq_refl _).
  repeat constructor.
Defined.
